(** * Project Scribe (scribe0.py): the step-pipeline engine and its collaborators

    A shallow embedding of the parts of [src/scribe0.py] that the specification
    talks about: the orchestrator ([ScribeAgent.run], [_execute_step], the
    report finalisation), the commit-intent resolution of [__init__] and
    [_parse_arguments], the model client ([LLMClient]), the process runner
    ([ToolRunner]), the environment manager ([EnvironmentManager]), the
    check of the target directory and the workflow steps.

    Conventions.
    - Python [str] is [string]; a character is a code point below 256.
    - A [dict] with string keys is a [gmap string _].
    - A method that mutates [self] becomes a function on an explicit state.
    - Everything outside the process (sub-processes, the file system, the
      HTTP backend, [ast.parse]) is a parameter of the section that uses it.
    - The runner and the environment manager are given twice:
      [ProcessRunner] takes the queries of the file system and the path
      operations to return, [Fallible] lets each of them raise;
      [FallibleFacts] shows that the two agree when every query returns.
    - Wall-clock fields of a step result ([start_time], [end_time],
      [duration_seconds]) carry no control information and are left out. *)

From Stdlib Require Import ZArith Lia Ascii.
From stdpp Require Import base option list strings gmap pretty.

#[local] Set Warnings "-abstract-large-number".

(** ** Data model *)

(** The six status constants [STATUS_*] of the module. *)
Inductive Status : Type :=
| STATUS_SUCCESS
| STATUS_FAILURE
| STATUS_WARNING
| STATUS_SKIPPED
| STATUS_ADVISORY
| STATUS_PENDING.

#[global] Instance Status_eq_dec : EqDecision Status.
Proof. solve_decision. Defined.

Definition status_eqb (a b : Status) : bool := bool_decide (a = b).

(** One review finding: the three keys kept by [generate_review]. *)
Record Finding : Type := mkFinding {
  severity : string;
  description : string;
  location : string
}.

(** Values stored in a details payload. *)
Inductive PyVal : Type :=
| PNone
| PStr (s : string)
| PInt (z : Z)
| PFindings (fs : list Finding).

(** [StepOutputDetails]: an open dictionary. *)
Abbreviation Details := (gmap string PyVal).

(** [StepResult] without its clock fields. *)
Record StepResult : Type := mkStepResult {
  name : string;
  status : Status;
  details : option Details;
  error_message : option string
}.

(** What calling a step function does, seen from [_execute_step]:
    it returns a pair, raises a [ScribeError] (message and [details]
    attribute), or raises any other [Exception] (type name, message and
    formatted traceback). *)
Inductive Outcome : Type :=
| Returned (st : Status) (d : Details)
| RaisedScribe (msg : string) (d : Details)
| RaisedOther (ty msg tb : string).

(** The status [_execute_step] records for a call: the returned one, and
    FAILURE for either kind of exception. *)
Definition recorded_status (o : Outcome) : Status :=
  match o with
  | Returned st _ => st
  | RaisedScribe _ _ | RaisedOther _ _ _ => STATUS_FAILURE
  end.

(** One call of a step function: the step's name, the argument it was
    given ([None]: called without argument) and what the call did. *)
Record Call : Type := mkCall {
  call_name : string;
  call_arg : option Details;
  call_outcome : Outcome
}.

(** Truth value of [dependency] in [step_func(dependency) if dependency
    else step_func()]: [None] and the empty dict are false. *)
Definition truthy (dependency : option Details) : bool :=
  match dependency with
  | Some d => negb (bool_decide (d = ∅))
  | None => false
  end.

(** ** Effective commit intent ([_parse_arguments], [__init__]) *)

Module CommitIntent.

(** The flags of the parsed namespace that decide the commit intent.
    [commit_explicitly_true] is [--commit]; [commit_explicitly_false] is
    the hidden [--explicit-no-commit-flag]. *)
Record Args : Type := mkArgs {
  arg_review_only : bool;
  arg_no_commit : bool;
  commit_explicitly_true : bool;
  commit_explicitly_false : bool
}.

(** The tail of [_parse_arguments]: the value stored in
    [parsed_args.commit]. *)
Definition parsed_commit (a : Args) : bool :=
  if commit_explicitly_true a then true
  else if commit_explicitly_false a then false
  else true.

(** [ScribeAgent.__init__]: the value assigned to [self._do_commit]. *)
Definition do_commit_of (a : Args) : bool :=
  if arg_review_only a then false
  else if arg_no_commit a then false
  else parsed_commit a.

(** The specification's wording: the user's explicit commit flag, [None]
    when neither flag of the group was given. *)
Definition explicit_commit_flag (a : Args) : option bool :=
  if commit_explicitly_true a then Some true
  else if commit_explicitly_false a then Some false
  else None.

(** The specification's wording of the effective commit intent. *)
Definition effective_commit_spec (review_only no_commit : bool)
    (explicit : option bool) : bool :=
  if review_only then false
  else if no_commit then false
  else default true explicit.

End CommitIntent.

(** ** The orchestrator ([ScribeAgent.run]) *)

Module Orchestrator.

(** The immutable part of the agent during [run]: the mode flags fixed by
    [__init__] and the configured step list ([None]: the key is unset or
    not a list, for which [get_list] answers the empty list). *)
Record Agent : Type := mkAgent {
  review_only : bool;
  no_commit : bool;
  do_commit : bool;
  validation_steps_cfg : option (list string)
}.

(** [__init__] on the parsed arguments. *)
Definition init (a : CommitIntent.Args) (cfg : option (list string)) : Agent :=
  {| review_only := CommitIntent.arg_review_only a;
     no_commit := CommitIntent.arg_no_commit a;
     do_commit := CommitIntent.do_commit_of a;
     validation_steps_cfg := cfg |}.

(** [self._config.get_list("validation_steps")]. *)
Definition get_validation_steps (ag : Agent) : list string :=
  default [] (validation_steps_cfg ag).

(** The methods defined by class [WorkflowSteps]. *)
Definition workflow_methods : list string :=
  [ "__init__"; "_truncate_output";
    "validate_inputs"; "setup_environment"; "install_deps"; "audit_deps";
    "apply_code"; "format_code"; "lint_code"; "type_check";
    "extract_signatures"; "generate_tests"; "save_tests"; "execute_tests";
    "review_code"; "run_precommit"; "commit_changes"; "generate_report" ].

(** The default [validation_steps] of [_get_default_config]. *)
Definition default_validation_steps : list string :=
  [ "validate_inputs"; "setup_environment"; "install_deps"; "audit_deps";
    "apply_code"; "format_code"; "lint_code"; "type_check";
    "extract_signatures"; "generate_tests"; "save_tests"; "execute_tests";
    "review_code"; "run_precommit"; "commit_changes"; "generate_report" ].

(** A result that is no failure. *)
Definition passes (r : StepResult) : Prop := status r <> STATUS_FAILURE.

(** Only the last recorded result may be a failure. *)
Definition fails_last (l : list StepResult) : Prop :=
  forall pre r post, l = pre ++ r :: post ->
    status r = STATUS_FAILURE -> post = [].

(** The two step names that review-only mode keeps from running. *)
Definition mutating_step (n : string) : Prop :=
  n = "run_precommit" \/ n = "commit_changes".

(** The loop gets as far as position [i] of the configured names: no
    earlier name is [review_code], after which a review-only run ends,
    and no earlier result is a failure. *)
Definition reached (names : list string) (l : list StepResult) (i : nat)
    : Prop :=
  forall j, j < i ->
    names !! j <> Some "review_code"
    /\ forall r, l !! j = Some r -> status r <> STATUS_FAILURE.

Section Run.

(** The world the step functions act on, and what each call does to it.
    [invoke n (Some d) w] is [step_func(d)], [invoke n None w] is
    [step_func()], for [step_func = getattr(self._workflow, n)]. *)
Variable World : Type.
Variable invoke : string -> option Details -> World -> Outcome * World.

(** Callability of the attributes a [WorkflowSteps] instance inherits
    from [object] or holds as data; the class's own methods are
    callable. *)
Variable inherited_callable : string -> bool.

(** [callable(getattr(self._workflow, step_name, None))]. *)
Definition callable_step (step_name : string) : bool :=
  bool_decide (step_name ∈ workflow_methods) || inherited_callable step_name.

(** The mutable part of the agent during [run], the local
    [step_outputs], the world, and a ghost trace of the calls of
    step functions that were actually made. *)
Record RunState : Type := mkRunState {
  overall_success : bool;
  steps : list StepResult;
  commit_attempted : bool;
  step_outputs : gmap string StepResult;
  invoked : list Call;
  world : World
}.

Definition set_overall (b : bool) (s : RunState) : RunState :=
  {| overall_success := b; steps := steps s;
     commit_attempted := commit_attempted s;
     step_outputs := step_outputs s; invoked := invoked s;
     world := world s |}.

Definition set_commit_attempted (b : bool) (s : RunState) : RunState :=
  {| overall_success := overall_success s; steps := steps s;
     commit_attempted := b;
     step_outputs := step_outputs s; invoked := invoked s;
     world := world s |}.

(** [_add_step_result]: append to [_report_data["steps"]]. *)
Definition _add_step_result (r : StepResult) (s : RunState) : RunState :=
  {| overall_success := overall_success s; steps := steps s ++ [r];
     commit_attempted := commit_attempted s;
     step_outputs := step_outputs s; invoked := invoked s;
     world := world s |}.

(** [_add_step_result_custom]. *)
Definition _add_step_result_custom (n : string) (st : Status)
    (d : Details) (err : option string) (s : RunState) : RunState :=
  _add_step_result
    {| name := n; status := st; details := Some d; error_message := err |} s.

Definition msg (m : string) : Details := {[ "message" := PStr m ]}.

(** [_execute_step]: the returned boolean is its return value. *)
Definition _execute_step (n : string) (dependency : option Details)
    (s : RunState) : bool * RunState :=
  if negb (overall_success s) && negb (String.eqb n "generate_report") then
    (true,
     _add_step_result
       {| name := n; status := STATUS_SKIPPED;
          details := Some (msg "Skipped due to prior failure.");
          error_message := None |} s)
  else
    let arg := if truthy dependency then dependency else None in
    let '(out, w) := invoke n arg (world s) in
    let s1 :=
      {| overall_success := overall_success s; steps := steps s;
         commit_attempted := commit_attempted s;
         step_outputs := step_outputs s;
         invoked :=
           invoked s
           ++ [{| call_name := n; call_arg := arg; call_outcome := out |}];
         world := w |} in
    match out with
    | Returned st d =>
        let r := {| name := n; status := st; details := Some d;
                    error_message := None |} in
        let s2 :=
          {| overall_success :=
               if status_eqb st STATUS_FAILURE then false
               else overall_success s1;
             steps := steps s1;
             commit_attempted := commit_attempted s1;
             step_outputs := <[ n := r ]> (step_outputs s1);
             invoked := invoked s1; world := world s1 |} in
        (negb (status_eqb st STATUS_FAILURE), _add_step_result r s2)
    | RaisedScribe m d =>
        let r := {| name := n; status := STATUS_FAILURE; details := Some d;
                    error_message := Some m |} in
        (false, _add_step_result r (set_overall false s1))
    | RaisedOther ty m tb =>
        let r := {| name := n; status := STATUS_FAILURE;
                    details := Some {[ "traceback" := PStr tb ]};
                    error_message :=
                      Some ("Unexpected: " +:+ ty +:+ " - " +:+ m) |} in
        (false, _add_step_result r (set_overall false s1))
    end.

(** [step_outputs.get(k, {}).get('details')]. *)
Definition output_details (s : RunState) (k : string) : option Details :=
  match step_outputs s !! k with
  | Some r => details r
  | None => None
  end.

(** The dependency argument chosen by [run] for a step. *)
Definition dependency_arg (step_name : string) (s : RunState)
    : option Details :=
  if String.eqb step_name "generate_tests" then
    output_details s "extract_signatures"
  else if String.eqb step_name "save_tests" then
    output_details s "generate_tests"
  else if String.eqb step_name "execute_tests" then
    output_details s "save_tests"
  else None.

Variable ag : Agent.

(** The reason text of a skipped commit. *)
Definition skip_reason : string :=
  if review_only ag then "--review-only active"
  else if no_commit ag then "--no-commit active"
  else "Commit not planned".

(** The [for step_name in validation_steps] loop. Leaving a branch
    without the recursive call is [break]; the recursive call on the
    rest is [continue] or the end of the body. The guard on
    [self._workflow] that opens the body is left out: [__init__] either
    assigns the attribute or exits, so the guard is never taken. *)
Fixpoint run_loop (names : list string) (s : RunState) : RunState :=
  match names with
  | [] => s
  | step_name :: rest =>
      if negb (callable_step step_name) then
        _add_step_result_custom step_name STATUS_FAILURE
          (msg ("Invalid step '" +:+ step_name +:+ "' in configuration."))
          (Some ("Invalid step '" +:+ step_name +:+ "'"))
          (set_overall false s)
      else if String.eqb step_name "run_precommit" && review_only ag then
        run_loop rest
          (_add_step_result_custom step_name STATUS_SKIPPED
             (msg "Skipped: --review-only active.") None s)
      else if String.eqb step_name "commit_changes" && negb (do_commit ag) then
        run_loop rest
          (set_commit_attempted false
             (_add_step_result_custom step_name STATUS_SKIPPED
                (msg ("Skipped: " +:+ skip_reason +:+ ".")) None s))
      else
        let '(ok, s1) :=
          _execute_step step_name (dependency_arg step_name s) s in
        if negb ok then s1
        else if String.eqb step_name "review_code" && review_only ag then
          match last (steps s1) with
          | Some r =>
              if status_eqb (status r) STATUS_FAILURE
              then set_overall false s1 else s1
          | None => s1
          end
        else run_loop rest s1
  end.

(** What the process shows at the end of [run]: the finalised report
    fields, the exit code given to [sys.exit], and the final state. *)
Record RunResult : Type := mkRunResult {
  overall_status : Status;
  report_steps : list StepResult;
  report_commit_attempted : bool;
  exit_code : Z;
  final : RunState
}.

(** [_generate_and_print_final_report] followed by [sys.exit(code)]. *)
Definition _generate_and_print_final_report (code : Z) (s : RunState)
    : RunResult :=
  {| overall_status :=
       if overall_success s then STATUS_SUCCESS else STATUS_FAILURE;
     report_steps := steps s;
     report_commit_attempted :=
       do_commit ag
       && bool_decide ("commit_changes" ∈ get_validation_steps ag);
     exit_code := code;
     final := s |}.

(** The state left by a successful [__init__]. *)
Definition initial (w : World) : RunState :=
  {| overall_success := true; steps := [];
     commit_attempted := do_commit ag;
     step_outputs := ∅; invoked := []; world := w |}.

(** [ScribeAgent.run]. *)
Definition run (w : World) : RunResult :=
  let s0 := initial w in
  match get_validation_steps ag with
  | [] =>
      _generate_and_print_final_report 1
        (_add_step_result_custom "pipeline_setup" STATUS_FAILURE
           (msg "Critical: Validation steps not configured in ScribeConfig.")
           (Some "Validation steps missing.")
           (set_overall false s0))
  | names =>
      let s := run_loop names s0 in
      _generate_and_print_final_report
        (if overall_success s then 0 else 1)%Z s
  end.

(** Nothing has failed so far: the flag is still set and no recorded
    result is a failure. *)
Definition clean (s : RunState) : Prop :=
  overall_success s = true /\ Forall passes (steps s).

(** No call of a mutating step is on the trace and every result
    recorded under a mutating name is SKIPPED. *)
Definition review_only_safe (s : RunState) : Prop :=
  (forall c, c ∈ invoked s -> ~ mutating_step (call_name c))
  /\ (forall r, r ∈ steps s -> mutating_step (name r) ->
       status r = STATUS_SKIPPED).

(** Every call on the trace is a call of [invoke] in some world. *)
Definition calls_from_invoke (calls : list Call) : Prop :=
  forall c, c ∈ calls ->
    exists w, call_outcome c = (invoke (call_name c) (call_arg c) w).1.

(** The argument of every call of [save_tests] is the payload that a call
    of [generate_tests] on the trace returned with a status other than
    FAILURE. *)
Definition saves_generated (calls : list Call) : Prop :=
  forall c d, c ∈ calls -> call_name c = "save_tests" -> call_arg c = Some d ->
    exists c' st,
      c' ∈ calls /\ call_name c' = "generate_tests"
      /\ call_outcome c' = Returned st d /\ st <> STATUS_FAILURE.

(** The recorded output of [generate_tests], if any, is such a payload. *)
Definition generated_output_known (s : RunState) : Prop :=
  forall r d,
    step_outputs s !! "generate_tests" = Some r -> details r = Some d ->
    exists c' st,
      c' ∈ invoked s /\ call_name c' = "generate_tests"
      /\ call_outcome c' = Returned st d /\ st <> STATUS_FAILURE.

(** Where a recorded result comes from: the synthetic failure of an
    unconfigured run, the failure of an invalid step name, a skip decided by
    the mode flags, or a call of the step function on the trace, whose
    outcome gives the status. *)
Definition accounted (calls : list Call) (r : StepResult) : Prop :=
  (name r = "pipeline_setup" /\ status r = STATUS_FAILURE)
  \/ (callable_step (name r) = false /\ status r = STATUS_FAILURE)
  \/ (mutating_step (name r) /\ status r = STATUS_SKIPPED)
  \/ (exists c, c ∈ calls /\ call_name c = name r
                /\ status r = recorded_status (call_outcome c)).

(** The outcome of a run whose step list is unset or empty: exit code
    1, overall status FAILURE, the single synthetic result, and no step
    function called. *)
Definition unconfigured (res : RunResult) : Prop :=
  exit_code res = 1%Z
  /\ overall_status res = STATUS_FAILURE
  /\ ((fun r => (name r, status r)) <$> report_steps res)
     = [("pipeline_setup", STATUS_FAILURE)]
  /\ invoked (final res) = [].

End Run.

Arguments unconfigured {World} _.
Arguments generated_output_known {World} _.
Arguments review_only_safe {World} _.
Arguments clean {World} _.
Arguments overall_success {World} _.
Arguments steps {World} _.
Arguments commit_attempted {World} _.
Arguments step_outputs {World} _.
Arguments invoked {World} _.
Arguments world {World} _.
Arguments overall_status {World} _.
Arguments report_steps {World} _.
Arguments report_commit_attempted {World} _.
Arguments exit_code {World} _.
Arguments final {World} _.

End Orchestrator.

(** ** Python string operations used by the model client and the runner *)

Module PyStr.

(** The line feed, written [\n] in the source. *)
Definition LF : ascii := "010"%char.

Definition nl : string := String LF "".

(** [str.isspace] on one code point below 256: tab to carriage return,
    the four separators 28 to 31, space, NEL and the no-break space. *)
Definition is_space (c : ascii) : bool :=
  let n := nat_of_ascii c in
  ((9 <=? n) && (n <=? 13)) || ((28 <=? n) && (n <=? 31))
  || (n =? 32) || (n =? 133) || (n =? 160).

(** [str.lstrip()]. *)
Fixpoint lstrip (s : string) : string :=
  match s with
  | "" => ""
  | String c r => if is_space c then lstrip r else s
  end.

(** [str.rstrip()]. *)
Fixpoint rstrip (s : string) : string :=
  match s with
  | "" => ""
  | String c r =>
      match rstrip r with
      | "" => if is_space c then "" else String c ""
      | r' => String c r'
      end
  end.

(** [str.strip()]. *)
Definition strip (s : string) : string := rstrip (lstrip s).

(** [s] has no leading white space. *)
Definition left_trimmed (s : string) : Prop := lstrip s = s.

(** [s] has no trailing white space. *)
Definition right_trimmed (s : string) : Prop := rstrip s = s.

(** No character of [s] is white space. *)
Fixpoint no_space (s : string) : bool :=
  match s with
  | "" => true
  | String c r => negb (is_space c) && no_space r
  end.

(** Truth value of a [str]. *)
Definition nonempty (s : string) : bool :=
  match s with "" => false | _ => true end.

(** [sep.join(parts)]. *)
Definition join (sep : string) (parts : list string) : string :=
  String.concat sep parts.

(** ASCII lower-casing of one character, the folding that
    [re.IGNORECASE] applies to the letters of [python]. *)
Definition lower (c : ascii) : ascii :=
  let n := nat_of_ascii c in
  if (65 <=? n) && (n <=? 90) then ascii_of_nat (n + 32) else c.

(** [s[:k]]. *)
Fixpoint take (k : nat) (s : string) : string :=
  match k, s with
  | O, _ => ""
  | S k', "" => ""
  | S k', String c r => String c (take k' r)
  end.

(** If [s] starts with [pat], compared after lower-casing [s], the rest
    of [s]. The pattern is given in lower case. *)
Fixpoint after_prefix_ci (pat s : string) : option string :=
  match pat with
  | "" => Some s
  | String a pat' =>
      match s with
      | "" => None
      | String b s' =>
          if Ascii.eqb a (lower b) then after_prefix_ci pat' s' else None
      end
  end.

(** If [s] starts with [pat], the rest of [s]. *)
Fixpoint after_prefix (pat s : string) : option string :=
  match pat with
  | "" => Some s
  | String a pat' =>
      match s with
      | "" => None
      | String b s' =>
          if Ascii.eqb a b then after_prefix pat' s' else None
      end
  end.

(** [s[:ml]] with the ellipsis that the prompts add when [s] is longer:
    [s[:ml] + ("..." if len(s) > ml else "")]. *)
Definition clip (ml : nat) (s : string) : string :=
  take ml s +:+ (if ml <? String.length s then "..." else "").

End PyStr.

(** ** The fenced-block convention ([LLMClient._extract_code_from_response]) *)

Module Fence.
Import PyStr.

(** The closing part of both patterns: a line feed and three backticks. *)
Definition close_fence : string := nl +:+ "```".

(** The lazy group [(.*?)] followed by the closing fence, under
    [re.DOTALL]: the text before the first closing fence of [s], and the
    text after that fence. *)
Fixpoint find_close (s : string) : option (string * string) :=
  match after_prefix close_fence s with
  | Some rest => Some ("", rest)
  | None =>
      match s with
      | "" => None
      | String c r =>
          match find_close r with
          | Some (content, rest) => Some (String c content, rest)
          | None => None
          end
      end
  end.

(** The opening of the first pattern, three backticks, [python] in any
    letter case and a line feed: the text after it. *)
Definition open_python (s : string) : option string :=
  after_prefix_ci ("```python" +:+ nl) s.

(** A character of the class [[a-zA-Z0-9_.-]]. *)
Definition is_tag_char (c : ascii) : bool :=
  let n := nat_of_ascii c in
  ((97 <=? n) && (n <=? 122)) || ((65 <=? n) && (n <=? 90))
  || ((48 <=? n) && (n <=? 57)) || (n =? 95) || (n =? 46) || (n =? 45).

(** The greedy run [[a-zA-Z0-9_.-]*]: the tag and the text after it. *)
Fixpoint span_tag (s : string) : string * string :=
  match s with
  | "" => ("", "")
  | String c r =>
      if is_tag_char c then
        let '(t, rest) := span_tag r in (String c t, rest)
      else ("", s)
  end.

(** The opening of the second pattern, three backticks, an optional tag
    and a line feed: the tag and the text after the line feed. The line
    feed is no tag character, so giving back tag characters never helps
    the match. *)
Definition open_generic (s : string) : option (string * string) :=
  match after_prefix "```" s with
  | Some r =>
      let '(tag, r') := span_tag r in
      match after_prefix nl r' with
      | Some body => Some (tag, body)
      | None => None
      end
  | None => None
  end.

(** [re.findall] of the first pattern: the group of every match, the
    matches taken from left to right without overlap. [skip] counts the
    characters of the current match still to pass over. *)
Fixpoint findall_python_from (skip : nat) (s : string) : list string :=
  match s with
  | "" => []
  | String _ r =>
      match skip with
      | S k => findall_python_from k r
      | O =>
          match open_python s with
          | Some body =>
              match find_close body with
              | Some (content, _) =>
                  content
                  :: findall_python_from (9 + String.length content + 4) r
              | None => findall_python_from 0 r
              end
          | None => findall_python_from 0 r
          end
      end
  end.

Definition findall_python (s : string) : list string :=
  findall_python_from 0 s.

(** [re.findall] of the second pattern, each group with the tag of its
    opening fence. *)
Fixpoint findall_generic_from (skip : nat) (s : string)
    : list (string * string) :=
  match s with
  | "" => []
  | String _ r =>
      match skip with
      | S k => findall_generic_from k r
      | O =>
          match open_generic s with
          | Some (tag, body) =>
              match find_close body with
              | Some (content, _) =>
                  (tag, content)
                  :: findall_generic_from
                       (2 + String.length tag + 1 + String.length content + 4) r
              | None => findall_generic_from 0 r
              end
          | None => findall_generic_from 0 r
          end
      end
  end.

(** The groups alone, as [re.findall] returns them. *)
Definition findall_generic (s : string) : list string :=
  (findall_generic_from 0 s).*2.

(** The separator put between several [python] blocks. *)
Definition concat_separator : string :=
  nl +:+ nl +:+ "# Scribe: Concatenated Block" +:+ nl +:+ nl.

(** [LLMClient._extract_code_from_response]. *)
Definition _extract_code_from_response (llm_resp : string) : string :=
  match findall_python llm_resp with
  | (_ :: _) as py_blocks =>
      strip (join concat_separator (strip <$> py_blocks))
  | [] =>
      match findall_generic llm_resp with
      | b :: _ => strip b
      | [] => strip llm_resp
      end
  end.

End Fence.

(** ** The model client ([LLMClient]) *)

Module ModelClient.
Import PyStr.

(** The HTTP library recorded in [HTTP_LIB]. *)
Inductive HttpLib : Type := Httpx | Requests.

#[global] Instance HttpLib_eq_dec : EqDecision HttpLib.
Proof. solve_decision. Defined.

(** What the module-level [try: import httpx ... except ImportError: try:
    import requests ...] leaves behind: the two flags and which of the two
    module names is bound in the module's globals. *)
Record Globals : Type := mkGlobals {
  HTTP_LIB : option HttpLib;
  HTTP_LIB_AVAILABLE : bool;
  httpx_bound : bool;
  requests_bound : bool
}.

(** The import block at the top of the module: [requests] is imported only
    in the handler of a failed [import httpx]. *)
Definition import_http_library (httpx_installed requests_installed : bool)
    : Globals :=
  if httpx_installed then
    {| HTTP_LIB := Some Httpx; HTTP_LIB_AVAILABLE := true;
       httpx_bound := true; requests_bound := false |}
  else if requests_installed then
    {| HTTP_LIB := Some Requests; HTTP_LIB_AVAILABLE := true;
       httpx_bound := false; requests_bound := true |}
  else
    {| HTTP_LIB := None; HTTP_LIB_AVAILABLE := false;
       httpx_bound := false; requests_bound := false |}.

(** The exceptions that matter to the client. [RequestError] stands for an
    instance of [httpx.RequestError] or of
    [requests.exceptions.RequestException]: a network failure or a
    timeout. *)
Inductive PyExc : Type :=
| RequestError (m : string)
| JSONDecodeError (m : string)
| ScribeApiError (m : string)
| ScribeConfigurationError (m : string)
| NameError (n : string)
| TypeError (m : string)
| OtherError (ty m : string).

(** [str(e)]. *)
Definition exc_str (e : PyExc) : string :=
  match e with
  | RequestError m | JSONDecodeError m | ScribeApiError m
  | ScribeConfigurationError m | TypeError m | OtherError _ m => m
  | NameError n => "name '" +:+ n +:+ "' is not defined"
  end.

(** [str(last_exc)], [last_exc] possibly [None]. *)
Definition opt_exc_str (e : option PyExc) : string :=
  match e with Some e => exc_str e | None => "None" end.

(** What one attempt meets inside the [try] block: an HTTP answer whose
    body is a JSON object, given by its [error] and [response] entries, or
    an exception raised by [post], [raise_for_status] or [resp.json()]. *)
Inductive Attempt : Type :=
| Answered (error : option string) (response : option string)
| Failed (e : PyExc).

(** The result of a call that may raise: the exception and, for
    [raise ... from cause], its [__cause__]. *)
Inductive Result (A : Type) : Type :=
| Ret (a : A)
| Raise (e : PyExc) (cause : option PyExc).
Arguments Ret {A} a.
Arguments Raise {A} e cause.

(** What an [except] clause of [_call_api] does with an exception. *)
Inductive Handler : Type :=
| HRetry
| HBreak
| HNameError (n : string).

Section Client.

(** Python floats are kept abstract. *)
Variable Float : Type.

(** The attributes of an [LLMClient] read by [_call_api];
    [http_client] tells whether [self._http_client] is set. *)
Record LLMClient : Type := mkLLMClient {
  _retries : Z;
  _retry_delay : Float;
  http_client : bool
}.

(** Ghost trace of a call: the requests posted and the sleeps made. *)
Record Trace : Type := mkTrace {
  posts : nat;
  sleeps : list Float
}.

Variable g : Globals.
Variable c : LLMClient.

(** The backend, for one payload: what attempt number [i] meets. *)
Variable backend : nat -> Attempt.

(** The handlers of the [try] in [_call_api], in their order. The first
    clause is [except (httpx.RequestError,
    requests.exceptions.RequestException)]: Python evaluates that tuple
    when an exception reaches the clause, left to right, and a module
    name that was never imported makes this evaluation itself raise
    [NameError], which leaves the function. *)
Definition except_clauses (e : PyExc) : Handler :=
  if negb (httpx_bound g) then HNameError "httpx"
  else if negb (requests_bound g) then HNameError "requests"
  else
    match e with
    | RequestError _ => HRetry
    | _ => HBreak
    end.

(** The [try] block of attempt [i]: its result, and whether a request
    was posted. *)
Definition try_block (i : nat) : Result string * bool :=
  if http_client c || bool_decide (HTTP_LIB g = Some Requests) then
    match backend i with
    | Answered error response =>
        match error with
        | Some (String a err) =>
            (Raise (ScribeApiError
                      ("Ollama API Error: " +:+ String a err)) None, true)
        | _ =>
            match response with
            | None =>
                (Raise (ScribeApiError
                          "Ollama response missing 'response'.") None, true)
            | Some r => (Ret r, true)
            end
        end
    | Failed e => (Raise e None, true)
    end
  else (Raise (ScribeApiError "No HTTP client initialized.") None, false).

(** The statement after the loop:
    [raise ScribeApiError(...) from last_exc]. *)
Definition raise_definitively (last_exc : option PyExc) : Result string :=
  Raise (ScribeApiError
           ("Ollama call failed definitively: " +:+ opt_exc_str last_exc))
        last_exc.

Definition count_post (posted : bool) (t : Trace) : Trace :=
  {| posts := if posted then S (posts t) else posts t;
     sleeps := sleeps t |}.

Definition sleep (d : Float) (t : Trace) : Trace :=
  {| posts := posts t; sleeps := sleeps t ++ [d] |}.

(** The loop [for attempt in range(self._retries+1)], [n] iterations
    left. *)
Fixpoint attempts (n attempt : nat) (last_exc : option PyExc) (t : Trace)
    : Result string * Trace :=
  match n with
  | O => (raise_definitively last_exc, t)
  | S n' =>
      let '(r, posted) := try_block attempt in
      let t1 := count_post posted t in
      match r with
      | Ret json_resp => (Ret json_resp, t1)
      | Raise e _ =>
          match except_clauses e with
          | HNameError nm => (Raise (NameError nm) None, t1)
          | HBreak => (raise_definitively (Some e), t1)
          | HRetry =>
              attempts n' (S attempt) (Some e)
                (if (Z.of_nat attempt <? _retries c)%Z
                 then sleep (_retry_delay c) t1 else t1)
          end
      end
  end.

(** [LLMClient._call_api]; the value returned is the [response] entry of
    the JSON answer. *)
Definition _call_api : Result string * Trace :=
  if negb (HTTP_LIB_AVAILABLE g) then
    (Raise (ScribeApiError "No HTTP lib for Ollama.") None,
     {| posts := 0; sleeps := [] |})
  else attempts (Z.to_nat (_retries c + 1)) 0 None {| posts := 0; sleeps := [] |}.

End Client.

Arguments _retries {Float} _.
Arguments _retry_delay {Float} _.
Arguments http_client {Float} _.
Arguments posts {Float} _.
Arguments sleeps {Float} _.

(** The parameter names of [_call_api] after [self]. *)
Definition _call_api_params : list string := ["prompt"; "fmt"].

(** The result of [template.format(...)], called with keyword arguments
    only: the prompt; the [KeyError] of a named placeholder that the call
    does not supply; or an exception of another class, given by the name
    of the class and its text: [IndexError] for a placeholder without
    name, [ValueError] for a template or a format specification that is
    not well formed, [AttributeError] or [TypeError] for an attribute or
    an index that a string does not have. *)
Inductive Formatted : Type :=
| Prompt (p : string)
| FormatKeyError (k : string)
| FormatRaised (ty m : string).

(** What [json.loads] makes of a review answer, as far as
    [generate_review] looks at it: no JSON at all, a list (each item a
    dict with the three keys, given with its values stripped, or
    something else), a single dict with the three keys, or another
    value. *)
Inductive ReviewJson : Type :=
| NotJson (m : string)
| JsonList (items : list (option Finding))
| JsonFinding (f : Finding)
| JsonOther.

Section Generation.

Variable Float : Type.
Variable g : Globals.
Variable c : LLMClient Float.

(** The backend, by prompt and [format] entry of the payload. *)
Variable backend : string -> option string -> nat -> Attempt.

(** [ast.parse] succeeds. *)
Variable ast_parse_ok : string -> bool.

(** The configured prompt templates applied to their arguments. *)
Variable test_prompt : string -> string -> string -> Formatted.
Variable review_prompt : string -> string -> Formatted.

Variable json_loads : string -> ReviewJson.

(** [LLMClient.generate_tests]. Of the exceptions of [template.format]
    only [KeyError] is handled; the others leave the method as they
    are. *)
Definition generate_tests (code file_name sigs : string)
    : Result (option string) :=
  let code := clip 7000 code in
  let sigs := clip 1000 sigs in
  match test_prompt code file_name sigs with
  | FormatKeyError k =>
      Raise (ScribeConfigurationError
               ("Invalid test_gen_prompt: missing '" +:+ k +:+ "'")) None
  | FormatRaised ty m => Raise (OtherError ty m) None
  | Prompt prompt =>
      match (_call_api Float g c (backend prompt None)).1 with
      | Ret raw_text =>
          if negb (nonempty (strip raw_text)) then Ret None
          else
            let extracted := Fence._extract_code_from_response raw_text in
            if negb (nonempty extracted) then Ret None
            else if ast_parse_ok extracted then Ret (Some extracted)
            else Ret None
      | Raise _ _ => Ret None
      end
  end.

(** A call [self._call_api(prompt, kw="json")] with the second argument
    passed under the keyword [kw]: a keyword that names no parameter
    raises [TypeError] before the body runs. *)
Definition _call_api_keyword (prompt kw : string) : Result string :=
  if bool_decide (kw ∈ _call_api_params) then
    (_call_api Float g c (backend prompt (Some "json"))).1
  else
    Raise (TypeError
             ("LLMClient._call_api() got an unexpected keyword argument '"
              +:+ kw +:+ "'")) None.

(** The entries of a findings list that are kept. *)
Definition valid_findings (items : list (option Finding)) : list Finding :=
  omap id items.

(** [LLMClient.generate_review]. *)
Definition generate_review (code file_name : string)
    : Result (option (list Finding)) :=
  let code := clip 8000 code in
  match review_prompt code file_name with
  | FormatKeyError k =>
      Raise (ScribeConfigurationError
               ("Invalid review_prompt: missing '" +:+ k +:+ "'")) None
  | FormatRaised ty m => Raise (OtherError ty m) None
  | Prompt prompt =>
      match _call_api_keyword prompt "output_format_type" with
      | Ret raw_json_str =>
          if negb (nonempty (strip raw_json_str)) then Ret (Some [])
          else
            match json_loads raw_json_str with
            | NotJson _ => Ret None
            | JsonList items => Ret (Some (valid_findings items))
            | JsonFinding f => Ret (Some (valid_findings [Some f]))
            | JsonOther => Ret None
            end
      | Raise _ _ => Ret None
      end
  end.

End Generation.

End ModelClient.

(** ** The process runner ([ToolRunner]) and the environment manager *)

Module ProcessRunner.
Import PyStr.

(** [subprocess.CompletedProcess]. *)
Record CompletedProcess : Type := mkCompleted {
  args : list string;
  returncode : Z;
  stdout : string;
  stderr : string
}.

(** What [subprocess.run(..., check=False, timeout=t)] does: the process
    ends with an exit code, the timeout expires (with the command and the
    output captured so far, if any), or another exception is raised
    because the process could not be started. *)
Inductive Proc : Type :=
| Exited (rc : Z) (out err : string)
| TimeoutExpired (cmd : option (list string)) (out err : option string)
| SpawnFailed (m : string).

(** The two classified errors of this part of the module. *)
Inductive ScribeErr : Type :=
| ScribeToolError (m : string)
| ScribeEnvironmentError (m : string).

Inductive Res (A : Type) : Type :=
| Ok (a : A)
| Err (e : ScribeErr).
Arguments Ok {A} a.
Arguments Err {A} e.

(** The configuration entries read by the runner. *)
Record Config (Float : Type) : Type := mkConfig {
  tool_paths : gmap string string;
  default_tool_timeout : Float
}.
Arguments tool_paths {Float} _.
Arguments default_tool_timeout {Float} _.

Section Runner.

(** Python floats: the test [x <= 0] and [str(x)]. *)
Variable Float : Type.
Variable float_le0 : Float -> bool.
Variable float_str : Float -> string.

(** The machine: platform, file system queries, [shutil.which],
    [os.environ], path normalisation, [shlex.quote], and the effect of
    running a command (command, working directory, environment,
    timeout). *)
Variable World : Type.
Variable win32 : bool.
Variable is_file_x : World -> string -> bool.
Variable is_dir : World -> string -> bool.
Variable path_exists : World -> string -> bool.
Variable which : World -> string -> option string.
Variable os_environ : World -> gmap string string.
Variable resolve : string -> string.
Variable expanduser : string -> string.
Variable quote : string -> string.
Variable subprocess_run :
  list string -> string -> gmap string string -> option Float ->
  World -> Proc * World.

Variable cfg : Config Float.

Definition path_join (d n : string) : string :=
  d +:+ (if win32 then "\" else "/") +:+ n.

Definition pathsep : string := if win32 then ";" else ":".

Definition bin_dir_of (venv : string) : string :=
  path_join venv (if win32 then "Scripts" else "bin").

Definition suffixes : list string := if win32 then [""; ".exe"] else [""].

(** The first candidate [bin_dir / (name + suffix)] that is an
    executable file. *)
Definition find_in_bin (w : World) (bin_dir executable_name : string)
    : option string :=
  head (filter (fun p => is_file_x w p = true)
          ((fun sfx => path_join bin_dir (executable_name +:+ sfx))
             <$> suffixes)).

(** [ToolRunner._find_executable]; [None] is [FileNotFoundError].
    [expanduser], [resolve] and the queries of the file system are taken
    to return; [Fallible._find_executable] is the method when they
    raise. *)
Definition _find_executable (executable_name : string)
    (venv_path : option string) (w : World) : option string :=
  let configured :=
    match tool_paths cfg !! executable_name with
    | Some custom_path_str =>
        if nonempty (strip custom_path_str) then
          let custom_path := expanduser custom_path_str in
          if is_file_x w custom_path then Some (resolve custom_path)
          else None
        else None
    | None => None
    end in
  match configured with
  | Some p => Some p
  | None =>
      let in_venv :=
        match venv_path with
        | Some vp =>
            let resolved_venv_path := resolve vp in
            if is_dir w resolved_venv_path then
              resolve <$> find_in_bin w (bin_dir_of resolved_venv_path)
                            executable_name
            else None
        | None => None
        end in
      match in_venv with
      | Some p => Some p
      | None => resolve <$> which w executable_name
      end
  end.

(** The environment handed to the process. *)
Definition proc_env (venv_path : option string)
    (env_vars : option (gmap string string)) (w : World)
    : gmap string string :=
  let base := os_environ w in
  let activated :=
    match venv_path with
    | Some vp =>
        let res_venv_path := resolve vp in
        delete "PYTHONPATH"
          (delete "PYTHONHOME"
             (<[ "PATH" := bin_dir_of res_venv_path +:+ pathsep
                            +:+ default "" (base !! "PATH") ]>
                (<[ "VIRTUAL_ENV" := res_venv_path ]> base)))
    | None => base
    end in
  match env_vars with
  | Some ev => ev ∪ activated
  | None => activated
  end.

(** The text of [eff_timeout] inside an f-string. *)
Definition timeout_str (t : option Float) : string :=
  match t with Some x => float_str x | None => "None" end.

(** The first line put into [stderr] when the timeout expires. *)
Definition timeout_marker (cmd_str : string) (eff_timeout : option Float)
    : string :=
  "TimeoutExpired: Cmd '" +:+ cmd_str +:+ "' > "
  +:+ timeout_str eff_timeout +:+ "s.".

(** [eff_timeout]: the argument or the configured default, and [None]
    when that is not positive. *)
Definition effective_timeout (timeout : option Float) : option Float :=
  let eff_timeout :=
    match timeout with
    | Some t => t
    | None => default_tool_timeout cfg
    end in
  if float_le0 eff_timeout then None else Some eff_timeout.

(** The call [subprocess.run(full_cmd, cwd=cwd, env=proc_env, ...,
    check=False, timeout=eff_timeout)] of [run_tool]. *)
Definition spawn (full_cmd : list string) (cwd : string)
    (venv_path : option string) (env_vars : option (gmap string string))
    (timeout : option Float) (w : World) : Proc * World :=
  subprocess_run full_cmd cwd (proc_env venv_path env_vars w)
    (effective_timeout timeout) w.

(** [ToolRunner.run_tool]. *)
Definition run_tool (command_args : list string) (cwd : string)
    (venv_path : option string) (env_vars : option (gmap string string))
    (timeout : option Float) (w : World)
    : Res CompletedProcess * World :=
  match command_args with
  | [] =>
      (Ok {| args := []; returncode := 127; stdout := "";
             stderr := "No command." |}, w)
  | exec_name :: rest =>
      match _find_executable exec_name venv_path w with
      | None =>
          (Err (ScribeToolError
                  ("Executable '" +:+ exec_name +:+ "' not found.")), w)
      | Some exec_path =>
          let full_cmd := exec_path :: rest in
          let cmd_str := join " " (quote <$> full_cmd) in
          match spawn full_cmd cwd venv_path env_vars timeout w with
          | (Exited rc out err, w') =>
              (Ok {| args := full_cmd; returncode := rc;
                     stdout := out; stderr := err |}, w')
          | (TimeoutExpired cmd out err, w') =>
              (Ok {| args := default full_cmd cmd;
                     returncode := -1;
                     stdout := default "" out;
                     stderr :=
                       strip (timeout_marker cmd_str
                                (effective_timeout timeout)
                              +:+ nl +:+ default "" err) |}, w')
          | (SpawnFailed m, w') =>
              (Err (ScribeToolError
                      ("OS error executing '" +:+ exec_name +:+ "': "
                       +:+ m)), w')
          end
      end
  end.

(** *** [EnvironmentManager] *)

(** The attributes of the manager; the two executables are [None] until
    [setup_venv] finds them. *)
Record EnvironmentManager : Type := mkEnvironmentManager {
  _target_dir : string;
  _venv_path : string;
  _venv_python_path : option string;
  _pip_path : option string
}.

(** [VENV_DIR_NAME]. *)
Definition VENV_DIR_NAME : string := ".venv".

(** [EnvironmentManager.__init__]. *)
Definition new_manager (target_dir : string) : EnvironmentManager :=
  {| _target_dir := resolve target_dir;
     _venv_path := path_join (resolve target_dir) VENV_DIR_NAME;
     _venv_python_path := None; _pip_path := None |}.

(** [sys.executable]. *)
Variable sys_executable : string.

(** [EnvironmentManager.find_venv_executable]. *)
Definition find_venv_executable (em : EnvironmentManager) (n : string)
    (w : World) : option string :=
  if negb (is_dir w (_venv_path em)) then None
  else resolve <$> find_in_bin w (bin_dir_of (_venv_path em)) n.

(** The command that creates the environment. *)
Definition venv_create_cmd (em : EnvironmentManager) : list string :=
  [sys_executable; "-m"; "venv"; _venv_path em].

(** The command that upgrades the packaging tools. *)
Definition pip_upgrade_cmd (pip : string) : list string :=
  [pip; "install"; "--disable-pip-version-check"; "--upgrade";
   "pip"; "setuptools"; "wheel"].

(** What [setup_venv] leaves: the exception it raised, if any, the
    manager, the world, the commands it handed to [run_tool] in order,
    and whether it took the branch that reuses an existing
    environment. *)
Record Setup : Type := mkSetup {
  raised : option ScribeErr;
  manager : EnvironmentManager;
  after : World;
  commands : list (list string);
  reused : bool
}.

(** The part of [setup_venv] after the creation branch. *)
Definition setup_tail (em : EnvironmentManager) (w : World)
    (cmds : list (list string)) (found_existing : bool) : Setup :=
  let py := find_venv_executable em "python" w in
  let pip := find_venv_executable em "pip" w in
  let em' :=
    {| _target_dir := _target_dir em; _venv_path := _venv_path em;
       _venv_python_path := py; _pip_path := pip |} in
  match py, pip with
  | Some _, Some pip_path =>
      let cmd := pip_upgrade_cmd pip_path in
      let '(_, w') :=
        run_tool cmd (_target_dir em) (Some (_venv_path em)) None
          (Some (default_tool_timeout cfg)) w in
      {| raised := None; manager := em'; after := w';
         commands := cmds ++ [cmd]; reused := found_existing |}
  | _, _ =>
      {| raised :=
           Some (ScribeEnvironmentError
                   ("Python/pip not in venv: " +:+ _venv_path em));
         manager := em'; after := w; commands := cmds;
         reused := found_existing |}
  end.

(** [EnvironmentManager.setup_venv]. *)
Definition setup_venv (em : EnvironmentManager) (w : World) : Setup :=
  if negb (path_exists w (_venv_path em)) then
    let cmd := venv_create_cmd em in
    match run_tool cmd (_target_dir em) None None
            (Some (default_tool_timeout cfg)) w with
    | (Err (ScribeToolError m), w') =>
        {| raised :=
             Some (ScribeEnvironmentError ("Venv create cmd error: " +:+ m));
           manager := em; after := w'; commands := [cmd];
           reused := false |}
    | (Err e, w') =>
        {| raised := Some e; manager := em; after := w';
           commands := [cmd]; reused := false |}
    | (Ok res, w') =>
        if negb (returncode res =? 0)%Z then
          {| raised :=
               Some (ScribeEnvironmentError
                       ("Venv create fail (RC=" +:+ pretty (returncode res)
                        +:+ "). E: " +:+ strip (stderr res)));
             manager := em; after := w'; commands := [cmd];
             reused := false |}
        else setup_tail em w' [cmd] false
    end
  else setup_tail em w [] true.

(** A directory exists. *)
Definition dir_exists : Prop :=
  forall w p, is_dir w p = true -> path_exists w p = true.

(** Upgrading the packaging tools leaves the environment's [python] and
    [pip] where they are: running a command with the arguments of the
    upgrade does not change what [find_venv_executable] finds. *)
Definition upgrade_keeps_venv (em : EnvironmentManager) : Prop :=
  forall exec_path pip cwd env t w n,
    n = "python" \/ n = "pip" ->
    find_venv_executable em n
      (subprocess_run (exec_path :: tail (pip_upgrade_cmd pip)) cwd env t w).2
    = find_venv_executable em n w.

(** The number of environment creations among the commands issued. *)
Definition creations (em : EnvironmentManager)
    (cmds : list (list string)) : nat :=
  length (filter (fun cmd => cmd = venv_create_cmd em) cmds).

End Runner.

Arguments raised {World} _.
Arguments manager {World} _.
Arguments after {World} _.
Arguments commands {World} _.
Arguments reused {World} _.

End ProcessRunner.

(** ** The AI workflow steps ([WorkflowSteps]) *)

Module Steps.
Import PyStr ModelClient.

(** [SCRIBE_TEST_DIR]. *)
Definition SCRIBE_TEST_DIR : string := "tests/scribe_generated".

(** [str.isalnum] on one code point below 256. *)
Definition is_alnum (c : ascii) : bool :=
  let n := nat_of_ascii c in
  ((48 <=? n) && (n <=? 57)) || ((65 <=? n) && (n <=? 90))
  || ((97 <=? n) && (n <=? 122))
  || (n =? 170) || (n =? 178) || (n =? 179) || (n =? 181) || (n =? 185)
  || (n =? 186) || ((188 <=? n) && (n <=? 190))
  || ((192 <=? n) && (n <=? 214)) || ((216 <=? n) && (n <=? 246))
  || (248 <=? n).

(** [''.join(c if c.isalnum() else '_' for c in stem)]. *)
Fixpoint safe_stem (stem : string) : string :=
  match stem with
  | "" => ""
  | String c r => String (if is_alnum c then c else "_"%char) (safe_stem r)
  end.

(** Truth value of a payload entry. *)
Definition py_truthy (v : PyVal) : bool :=
  match v with
  | PNone => false
  | PStr s => nonempty s
  | PInt z => negb (z =? 0)%Z
  | PFindings fs => match fs with [] => false | _ => true end
  end.

(** The part of the agent and of the machine that the AI steps read and
    write: the files by path, [agent._target_file_path] ([None] until
    [validate_inputs] has run), the [ai_review_findings] entry of the
    report, and whatever else the other steps need. *)
Record StepWorld (X : Type) : Type := mkStepWorld {
  files : gmap string string;
  target_file_path : option string;
  ai_review_findings : option (list Finding);
  ext : X
}.
Arguments files {X} _.
Arguments target_file_path {X} _.
Arguments ai_review_findings {X} _.
Arguments ext {X} _.

Section Workflow.

Variable Float : Type.
Variable X : Type.
Variable g : Globals.
Variable c : LLMClient Float.
Variable backend : string -> option string -> nat -> Attempt.
Variable ast_parse_ok : string -> bool.
Variable test_prompt : string -> string -> string -> Formatted.
Variable review_prompt : string -> string -> Formatted.
Variable json_loads : string -> ReviewJson.

(** [agent._target_dir], and [Path.name] and [Path.stem]. *)
Variable target_dir : string.
Variable path_name : string -> string.
Variable path_stem : string -> string.

(** Whether creating the test directory and writing the file at a path
    goes through; otherwise [OSError]. *)
Variable write_ok : string -> bool.

(** The steps that are not modelled here. *)
Variable other_steps :
  string -> option Details -> StepWorld X -> Outcome * StepWorld X.

Abbreviation World := (StepWorld X).

(** [self.agent._target_file_path.read_text(encoding='utf-8')]: the
    text, or the exception to report. *)
Definition read_target (w : World) : string * string + string :=
  match target_file_path w with
  | None =>
      inl ("AttributeError",
           "'NoneType' object has no attribute 'read_text'")
  | Some p =>
      match files w !! p with
      | Some code => inr code
      | None => inl ("FileNotFoundError", "No such file: '" +:+ p +:+ "'")
      end
  end.

Definition unexpected (e : string * string) : Outcome :=
  RaisedOther e.1 e.2 "".

(** How [_execute_step] sees an exception that leaves the client. *)
Definition outcome_of_exc (e : PyExc) : Outcome :=
  match e with
  | ScribeApiError m | ScribeConfigurationError m => RaisedScribe m ∅
  | RequestError m => RaisedOther "RequestError" m ""
  | JSONDecodeError m => RaisedOther "JSONDecodeError" m ""
  | NameError n => RaisedOther "NameError" (exc_str e) ""
  | TypeError m => RaisedOther "TypeError" m ""
  | OtherError ty m => RaisedOther ty m ""
  end.

(** The payload of the test-generation step. *)
Definition tests_details (tests : option string) : Details :=
  <[ "raw_output" := match tests with Some t => PStr t | None => PNone end ]>
    {[ "message" :=
         PStr (if default false (nonempty <$> tests)
               then "Tests AI-generated." else "Test gen failed.") ]}.

(** The first statements of [WorkflowSteps.generate_tests], up to the
    call [self.agent._llm_client.generate_tests(code, name, sigs)]: the
    value of [tests], or what the step raises before it has one. *)
Definition test_generation_call (sig_details : option Details) (w : World)
    : Outcome + option string :=
  match read_target w with
  | inl e => inl (unexpected e)
  | inr code =>
      let sigs :=
        if truthy sig_details then
          match default ∅ sig_details !! "raw_output" with
          | Some v => v
          | None => PStr ""
          end
        else PStr "" in
      match sigs with
      | PStr sigs =>
          match ModelClient.generate_tests Float g c backend ast_parse_ok
                  test_prompt code
                  (path_name (default "" (target_file_path w))) sigs with
          | Raise e _ => inl (outcome_of_exc e)
          | Ret tests => inr tests
          end
      | _ => inl (unexpected ("TypeError", "object is not subscriptable"))
      end
  end.

(** [WorkflowSteps.generate_tests]. *)
Definition generate_tests (sig_details : option Details) (w : World)
    : Outcome * World :=
  match test_generation_call sig_details w with
  | inl raised => (raised, w)
  | inr tests =>
      (Returned
         (if default false (nonempty <$> tests)
          then STATUS_SUCCESS else STATUS_FAILURE)
         (tests_details tests), w)
  end.

(** The path of the generated test file. *)
Definition test_file_path (w : World) : string :=
  target_dir +:+ "/" +:+ SCRIBE_TEST_DIR +:+ "/" +:+ "test_"
  +:+ safe_stem (path_stem (default "" (target_file_path w)))
  +:+ "_scribe.py".

(** [WorkflowSteps.save_tests]. *)
Definition save_tests (gen_tests_details : option Details) (w : World)
    : Outcome * World :=
  let code :=
    if truthy gen_tests_details then
      match default ∅ gen_tests_details !! "raw_output" with
      | Some v => v
      | None => PStr ""
      end
    else PStr "" in
  if negb (py_truthy code) then
    (Returned STATUS_WARNING {[ "message" := PStr "No test code to save." ]}, w)
  else
    match target_file_path w with
    | None =>
        (unexpected ("AttributeError",
                     "'NoneType' object has no attribute 'stem'"), w)
    | Some _ =>
        let path := test_file_path w in
        match code with
        | PStr code =>
            if write_ok path then
              (Returned STATUS_SUCCESS
                 (<[ "generated_content_path" := PStr path ]>
                    {[ "raw_output" := PStr path ]}),
               {| files := <[ path := code ]> (files w);
                  target_file_path := target_file_path w;
                  ai_review_findings := ai_review_findings w;
                  ext := ext w |})
            else (unexpected ("OSError", "cannot write '" +:+ path +:+ "'"), w)
        | _ => (unexpected ("TypeError", "data must be str"), w)
        end
    end.

(** The end of [review_code], once [generate_review] has returned
    [review]. *)
Definition review_result (review : option (list Finding)) (w : World)
    : Outcome * World :=
  (Returned STATUS_ADVISORY
     (<[ "issues_found" := PFindings (default [] review) ]>
        {[ "message" :=
             PStr ("AI review found "
                   +:+ pretty (length (default [] review)) +:+ " items.") ]}),
   {| files := files w; target_file_path := target_file_path w;
      ai_review_findings := review; ext := ext w |}).

(** The first statements of [WorkflowSteps.review_code], up to the call
    of [generate_review]: the value of [review], or what the step
    raises before it has one. *)
Definition review_call (w : World) : Outcome + option (list Finding) :=
  match read_target w with
  | inl e => inl (unexpected e)
  | inr code =>
      match ModelClient.generate_review Float g c backend
              review_prompt json_loads code
              (path_name (default "" (target_file_path w))) with
      | Raise e _ => inl (outcome_of_exc e)
      | Ret review => inr review
      end
  end.

(** [WorkflowSteps.review_code]. *)
Definition review_code (w : World) : Outcome * World :=
  match review_call w with
  | inl raised => (raised, w)
  | inr review => review_result review w
  end.

(** [WorkflowSteps.generate_report]. *)
Definition generate_report (w : World) : Outcome * World :=
  (Returned STATUS_SUCCESS
     (<[ "message" := PStr "Final report data prepared." ]>
        {[ "raw_output" := PStr "Report generation triggered." ]}), w).

(** A step function without parameter that is given an argument; the
    text names the method with its class, as Python 3.10 and later do. *)
Definition too_many_arguments (n : string) : Outcome :=
  RaisedOther "TypeError"
    ("WorkflowSteps." +:+ n
     +:+ "() takes 1 positional argument but 2 were given") "".

(** [getattr(self._workflow, n)] applied as [_execute_step] applies
    it. *)
Definition workflow_invoke (n : string) (arg : option Details) (w : World)
    : Outcome * World :=
  if String.eqb n "generate_tests" then generate_tests arg w
  else if String.eqb n "save_tests" then save_tests arg w
  else if String.eqb n "review_code" then
    match arg with
    | None => review_code w
    | Some _ => (too_many_arguments n, w)
    end
  else if String.eqb n "generate_report" then
    match arg with
    | None => generate_report w
    | Some _ => (too_many_arguments n, w)
    end
  else other_steps n arg w.

End Workflow.

End Steps.

(** ** More Python string operations, used by the tool steps *)

Module PyText.
Import PyStr.

(** [str.lower()] on one code point below 256: the ASCII capitals and
    the Latin-1 capitals, the multiplication sign apart. *)
Definition lower_char (c : ascii) : ascii :=
  let n := nat_of_ascii c in
  if ((65 <=? n) && (n <=? 90))
     || ((192 <=? n) && (n <=? 222) && negb (n =? 215))
  then ascii_of_nat (n + 32) else c.

(** [str.lower()]. *)
Fixpoint lower_str (s : string) : string :=
  match s with
  | "" => ""
  | String c r => String (lower_char c) (lower_str r)
  end.

(** [needle in haystack]. *)
Fixpoint contains (needle haystack : string) : bool :=
  match after_prefix needle haystack with
  | Some _ => true
  | None =>
      match haystack with
      | "" => false
      | String _ r => contains needle r
      end
  end.

(** [s[k:]]. *)
Fixpoint drop (k : nat) (s : string) : string :=
  match k, s with
  | O, _ => s
  | S _, "" => ""
  | S k', String _ r => drop k' r
  end.

(** [s[-k:]] for [k >= 0]; [s[-0:]] is the whole of [s]. *)
Definition last_chars (k : nat) (s : string) : string :=
  if k =? 0 then s else drop (String.length s - k) s.

End PyText.

(** ** Where the blocks of a response stand *)

Module FenceScan.
Import PyStr Fence.

(** Where a block of the first pattern stands in the response. *)
Definition enclosed_python (s b : string) : Prop :=
  exists pre opening post,
    s = pre +:+ opening +:+ b +:+ close_fence +:+ post
    /\ open_python (opening +:+ b +:+ close_fence +:+ post)
       = Some (b +:+ close_fence +:+ post)
    /\ find_close b = None.

End FenceScan.

(** ** Fenced blocks as a property of the response text *)

Module FenceText.
Import PyStr PyText Fence.

(** [pat] stands somewhere in [s]. *)
Definition occurs (pat s : string) : Prop := exists p q, s = p +:+ pat +:+ q.

(** Every character of [tag] is of the class [[a-zA-Z0-9_.-]]. *)
Fixpoint all_tag_chars (tag : string) : bool :=
  match tag with
  | "" => true
  | String c r => is_tag_char c && all_tag_chars r
  end.

(** An opening fence tagged for Python: three backticks, the word
    [python] in any letter case, and a line feed right after it. *)
Definition python_opening (o : string) : Prop :=
  exists tag, o = "```" +:+ tag +:+ nl /\ lower_str tag = "python".

(** An opening fence of any kind: three backticks, a tag made of
    letters, digits, [_], [.] and [-], which may be empty, and a line
    feed right after it. *)
Definition generic_opening (o : string) : Prop :=
  exists tag, o = "```" +:+ tag +:+ nl /\ all_tag_chars tag = true.

(** The opening fence without tag. *)
Definition untagged_fence : string := "```" +:+ nl.

(** The contents of the blocks without tag among the blocks [l] of a
    text. *)
Definition untagged (l : list (string * string)) : list string :=
  (filter (fun ob => ob.1 = untagged_fence) l).*2.

Section Blocks.

(** What counts as an opening fence. *)
Variable opening : string -> Prop.

(** A fenced block stands at the head of [s]: an opening fence, the
    content, which holds no closing fence, the closing fence (a line
    feed and three backticks), and the rest of [s]. *)
Definition fenced_at (s o body rest : string) : Prop :=
  opening o /\ ~ occurs close_fence body
  /\ s = o +:+ body +:+ close_fence +:+ rest.

Definition starts_block (s : string) : Prop :=
  exists o body rest, fenced_at s o body rest.

(** The fenced blocks of a text, each with its opening fence and its
    content, taken from left to right and without overlap: the text
    holds no block at all, or it is a gap in which no block starts, the
    leftmost block, and the text after that block with its own
    blocks. *)
Inductive blocks : string -> list (string * string) -> Prop :=
| blocks_none (s : string) :
    (forall p q, s = p +:+ q -> ~ starts_block q) ->
    blocks s []
| blocks_next (gap o body rest : string) (more : list (string * string)) :
    opening o ->
    ~ occurs close_fence body ->
    (forall p q, gap = p +:+ q -> q <> "" ->
       ~ starts_block (q +:+ o +:+ body +:+ close_fence +:+ rest)) ->
    blocks rest more ->
    blocks (gap +:+ o +:+ body +:+ close_fence +:+ rest)
      ((o, body) :: more).

End Blocks.

(** The shape that the two scans of the code share, over the function
    that recognises an opening fence at the head of a text: it gives the
    length of the fence less one and the text after the fence. *)
Fixpoint scan (opener : string -> option (nat * string)) (skip : nat)
    (s : string) : list (string * string) :=
  match s with
  | "" => []
  | String _ r =>
      match skip with
      | S k => scan opener k r
      | O =>
          match opener s with
          | Some (n, body) =>
              match find_close body with
              | Some (content, _) =>
                  (take (S n) s, content)
                  :: scan opener (n + String.length content + 4) r
              | None => scan opener 0 r
              end
          | None => scan opener 0 r
          end
      end
  end.

Definition python_opener (s : string) : option (nat * string) :=
  match open_python s with
  | Some body => Some (9, body)
  | None => None
  end.

Definition generic_opener (s : string) : option (nat * string) :=
  match open_generic s with
  | Some (tag, body) => Some (2 + String.length tag + 1, body)
  | None => None
  end.

End FenceText.

(** ** What the loop of [run] records and calls *)

Module Pipeline.
Import Orchestrator.

(** The two tests of the loop that record SKIPPED without calling the
    step function: [run_precommit] in review-only mode and
    [commit_changes] without commit intent. *)
Definition skipped_by_mode (ag : Agent) (step_name : string) : bool :=
  (String.eqb step_name "run_precommit" && review_only ag)
  || (String.eqb step_name "commit_changes" && negb (do_commit ag)).

(** The names for which the loop reaches [_execute_step]. *)
Definition called (inherited_callable : string -> bool) (ag : Agent)
    (step_name : string) : bool :=
  callable_step inherited_callable step_name
  && negb (skipped_by_mode ag step_name).

(** The step whose recorded output [run] hands to a step as its
    [dependency_arg]. *)
Definition producer (step_name : string) : option string :=
  if String.eqb step_name "generate_tests" then Some "extract_signatures"
  else if String.eqb step_name "save_tests" then Some "generate_tests"
  else if String.eqb step_name "execute_tests" then Some "save_tests"
  else None.

(** Every argument on the trace is a non-empty payload that an earlier
    call of the producing step returned with a status other than
    FAILURE. *)
Definition arguments_produced (calls : list Call) : Prop :=
  forall pre c post d,
    calls = pre ++ c :: post -> call_arg c = Some d ->
    d <> ∅
    /\ exists p c' st,
         producer (call_name c) = Some p
         /\ c' ∈ pre /\ call_name c' = p
         /\ call_outcome c' = Returned st d /\ st <> STATUS_FAILURE.

(** At most the last element of a list satisfies [P]. *)
Definition only_last {A : Type} (P : A -> Prop) (l : list A) : Prop :=
  forall pre x post, l = pre ++ x :: post -> P x -> post = [].

(** The recorded output of a step is the pair that a call of this step on
    the trace returned, and that call did not fail. *)
Definition outputs_known {World : Type} (s : RunState World) : Prop :=
  forall p r, step_outputs s !! p = Some r ->
    exists c' st d,
      c' ∈ invoked s /\ call_name c' = p
      /\ call_outcome c' = Returned st d /\ st <> STATUS_FAILURE
      /\ details r = Some d.

End Pipeline.

(** ** The configuration ([ScribeConfig]) *)

Module Config.
Import PyStr PyText.

(** What a configuration holds: the values of a TOML document. A float
    or a date is kept as its text; the functions below only pass such a
    value on. *)
#[local] Set Warnings "-register-all".

Inductive Value : Type :=
| VBool (b : bool)
| VStr (s : string)
| VInt (z : Z)
| VOther (text : string)
| VList (l : list Value)
| VDict (d : gmap string Value).

Abbreviation Dict := (gmap string Value).

(** The value that the loop of [_merge_configs] assigns to [m[k]] for an
    entry [v] of [updates], [old] being [m.get(k)]: two tables are
    merged, anything else is replaced by [v]. *)
Fixpoint merge_value (old : option Value) (v : Value) {struct v} : Value :=
  match v with
  | VDict updates =>
      match old with
      | Some (VDict base) =>
          VDict (map_imap (fun k v' => Some (merge_value (base !! k) v'))
                   updates ∪ base)
      | _ => v
      end
  | _ => v
  end.

(** [ScribeConfig._merge_configs]: a copy of [base] in which every key
    of [updates] is assigned. *)
Definition _merge_configs (base updates : Dict) : Dict :=
  map_imap (fun k v => Some (merge_value (base !! k) v)) updates ∪ base.

(** The value found by following the keys of [path] through nested
    tables. *)
Fixpoint get_path (path : list string) (v : Value) : option Value :=
  match path with
  | [] => Some v
  | k :: path' =>
      match v with
      | VDict d =>
          match d !! k with
          | Some v' => get_path path' v'
          | None => None
          end
      | _ => None
      end
  end.

(** Nesting depth of a value, counted through tables. *)
Fixpoint depth (v : Value) : nat :=
  match v with
  | VDict d => S (map_fold (fun _ n acc => max n acc) 0 (depth <$> d))
  | _ => 0
  end.

(** [ScribeConfig.get_list]: the entry when it is a list, otherwise
    [default or []]. *)
Definition get_list (config : Dict) (key : string)
    (default : option (list Value)) : list Value :=
  let fallback :=
    match default with
    | Some ((_ :: _) as l) => l
    | _ => []
    end in
  match config !! key with
  | Some (VList l) => l
  | _ => fallback
  end.

(** [ScribeConfig.get_bool]: a boolean as it is, a string by comparison
    of its lower-case form with [true], anything else and a missing key
    by the default. *)
Definition get_bool (config : Dict) (key : string) (default : bool) : bool :=
  match config !! key with
  | Some (VBool b) => b
  | Some (VStr s) => bool_decide (lower_str s = "true")
  | _ => default
  end.

End Config.

(** ** The tool steps of [WorkflowSteps] *)

Module ToolSteps.
Import PyStr PyText ProcessRunner.

(** [WorkflowSteps._truncate_output]. The assignment [s=s.strip()]
    stands on the line of [if not s: return ""], behind the [return]:
    it belongs to the [if] and is never executed. The lengths are
    taken not to be negative. *)
Definition _truncate_output (s : option string) (ml hl tl : nat) : string :=
  match s with
  | None => ""
  | Some s =>
      if negb (nonempty s) then ""
      else if ml <? String.length s then
        take hl s +:+ nl +:+ "...(" +:+ pretty (String.length s)
        +:+ " chars)..." +:+ nl +:+ last_chars tl s
      else s
  end.

(** The part of the agent that the tool steps write, and the machine;
    [issued] is a ghost trace of the commands handed to [run_tool]. *)
Record AgentState (W : Type) : Type := mkAgentState {
  machine : W;
  commit_sha : option string;
  test_results_summary : option (string * string * Z);
  issued : list (list string)
}.
Arguments machine {W} _.
Arguments commit_sha {W} _.
Arguments test_results_summary {W} _.
Arguments issued {W} _.

(** [str(e)] of a classified error. *)
Definition message (e : ScribeErr) : string :=
  match e with
  | ScribeToolError m | ScribeEnvironmentError m => m
  end.

(** How [_execute_step] sees a classified error: its [details] are the
    empty dict of [ScribeError.__init__]. *)
Definition raise_of (e : ScribeErr) : Outcome := RaisedScribe (message e) ∅.

(** The text of a falsy payload entry inside an f-string. *)
Definition falsy_text (v : PyVal) : string :=
  match v with
  | PNone => "None"
  | PStr s => s
  | PInt z => pretty z
  | PFindings _ => "[]"
  end.

Section Tools.

Variable Float : Type.
Variable float_le0 : Float -> bool.
Variable float_str : Float -> string.
Variable World : Type.
Variable win32 : bool.
Variable is_file_x : World -> string -> bool.
Variable is_dir : World -> string -> bool.
Variable which : World -> string -> option string.
Variable os_environ : World -> gmap string string.
Variable resolve : string -> string.
Variable expanduser : string -> string.
Variable quote : string -> string.
Variable subprocess_run :
  list string -> string -> gmap string string -> option Float ->
  World -> Proc * World.
Variable cfg : Config Float.

(** [Path.is_file]. *)
Variable is_file : World -> string -> bool.

(** The configuration dictionary, for [get_bool]. *)
Variable settings : Config.Dict.

(** The attributes of the agent that the tool steps read:
    [_target_dir], [_target_file_path] ([None] until [validate_inputs]
    has run), the path of the environment and [git_exe]. *)
Variable target_dir : string.
Variable target_file_path : option string.
Variable venv_path : string.
Variable git_exe : option string.

(** [Path.name], and the configured commit message template applied to
    the name of the target file. *)
Variable path_name : string -> string.
Variable commit_message : string -> ModelClient.Formatted.

Abbreviation State := (AgentState World).

(** [str(self.agent._target_file_path)]. *)
Definition target_text : string := default "None" target_file_path.

(** [self.agent._tool_runner.run_tool(cmd, self.agent._target_dir,
    venv, env_vars=env)], with the default timeout. *)
Definition tool (cmd : list string) (venv : option string)
    (env_vars : option (gmap string string)) (s : State)
    : Res CompletedProcess * State :=
  let r := ProcessRunner.run_tool Float float_le0 float_str World win32
             is_file_x is_dir which os_environ resolve expanduser quote
             subprocess_run cfg cmd target_dir venv env_vars None
             (machine s) in
  (r.1,
   {| machine := r.2; commit_sha := commit_sha s;
      test_results_summary := test_results_summary s;
      issued := issued s ++ [cmd] |}).

(** The first two entries of the payload of a tool step. *)
Definition tool_details (tool_name : string) (res : CompletedProcess)
    : Details :=
  <[ "return_code" := PInt (returncode res) ]>
    {[ "tool_name" := PStr tool_name ]}.

Definition format_cmd : list string := ["ruff"; "format"; target_text].

(** [WorkflowSteps.format_code]. *)
Definition format_code (s : State) : Outcome * State :=
  match tool format_cmd (Some venv_path) None s with
  | (Err e, s') => (raise_of e, s')
  | (Ok res, s') =>
      if (returncode res =? 0)%Z then
        (Returned STATUS_SUCCESS
           (<[ "message" := PStr "Formatted." ]>
              (tool_details "ruff (format)" res)), s')
      else
        (RaisedScribe
           ("Ruff format fail RC=" +:+ pretty (returncode res) +:+ ". E: "
            +:+ strip (stderr res)) ∅, s')
  end.

Definition lint_cmd : list string := ["ruff"; "check"; "--fix"; target_text].

(** [WorkflowSteps.lint_code]. *)
Definition lint_code (s : State) : Outcome * State :=
  match tool lint_cmd (Some venv_path) None s with
  | (Err e, s') => (raise_of e, s')
  | (Ok res, s') =>
      let details :=
        <[ "stdout_summary" :=
             PStr (_truncate_output (Some (stdout res)) 500 200 200) ]>
          (tool_details "ruff (check --fix)" res) in
      if (returncode res =? 0)%Z then
        (Returned STATUS_SUCCESS (<[ "message" := PStr "Lint OK." ]> details),
         s')
      else if (returncode res =? 1)%Z then
        (Returned
           (if Config.get_bool settings "fail_on_lint_critical" false
            then STATUS_FAILURE else STATUS_WARNING)
           (<[ "message" := PStr "Lint issues found." ]> details), s')
      else
        (RaisedScribe
           ("Ruff check fail RC=" +:+ pretty (returncode res) +:+ ". E: "
            +:+ strip (stderr res)) ∅, s')
  end.

Definition type_check_cmd : list string := ["mypy"; target_text].

(** [WorkflowSteps.type_check]. *)
Definition type_check (s : State) : Outcome * State :=
  match tool type_check_cmd (Some venv_path) None s with
  | (Err e, s') => (raise_of e, s')
  | (Ok res, s') =>
      let details :=
        <[ "stdout_summary" :=
             PStr (_truncate_output (Some (stdout res)) 500 200 200) ]>
          (tool_details "mypy" res) in
      if (returncode res =? 0)%Z then
        (Returned STATUS_SUCCESS (<[ "message" := PStr "MyPy OK." ]> details),
         s')
      else if (returncode res =? 1)%Z then
        (Returned
           (if Config.get_bool settings "fail_on_mypy_error" false
            then STATUS_FAILURE else STATUS_WARNING)
           (<[ "message" := PStr "MyPy type errors." ]> details), s')
      else
        (RaisedScribe
           ("MyPy fail RC=" +:+ pretty (returncode res) +:+ ". E: "
            +:+ strip (stderr res)) ∅, s')
  end.

(** [saved_tests_details.get("raw_output","") if saved_tests_details
    else ""]. *)
Definition saved_path (saved_tests_details : option Details) : PyVal :=
  if truthy saved_tests_details then
    match default ∅ saved_tests_details !! "raw_output" with
    | Some v => v
    | None => PStr ""
    end
  else PStr "".

(** The environment that [execute_tests] passes as [env_vars]: a copy
    of [os.environ] whose [PYTHONPATH] starts with the project root and
    its [src] directory. *)
Definition tests_env (w : World) : gmap string string :=
  let env := os_environ w in
  let current_pythonpath := default "" (env !! "PYTHONPATH") in
  <[ "PYTHONPATH" :=
       join (pathsep win32)
         ([resolve target_dir; resolve (path_join win32 target_dir "src")]
          ++ (if nonempty current_pythonpath
              then [current_pythonpath] else [])) ]> env.

Definition pytest_cmd (path_str : string) : list string :=
  ["pytest"; path_str; "-v"].

(** The payload of [execute_tests] after the run. *)
Definition tests_details (m : string) (res : CompletedProcess) : Details :=
  <[ "stdout_summary" :=
       PStr (_truncate_output (Some (stdout res)) 500 200 200) ]>
    {[ "message" := PStr m ]}.

(** [WorkflowSteps.execute_tests]. *)
Definition execute_tests (saved_tests_details : option Details) (s : State)
    : Outcome * State :=
  let path_str := saved_path saved_tests_details in
  if negb (Steps.py_truthy path_str) then
    (Returned STATUS_FAILURE
       {[ "message" := PStr ("Test file not found: "
                             +:+ falsy_text path_str) ]}, s)
  else
    match path_str with
    | PStr p =>
        if negb (is_file (machine s) p) then
          (Returned STATUS_FAILURE
             {[ "message" := PStr ("Test file not found: " +:+ p) ]}, s)
        else
          match tool (pytest_cmd p) (Some venv_path)
                  (Some (tests_env (machine s))) s with
          | (Err e, s') => (raise_of e, s')
          | (Ok res, s') =>
              let s'' :=
                {| machine := machine s'; commit_sha := commit_sha s';
                   test_results_summary :=
                     Some (stdout res, stderr res, returncode res);
                   issued := issued s' |} in
              if (returncode res =? 0)%Z then
                (Returned STATUS_SUCCESS
                   (tests_details "All tests passed." res), s'')
              else if (returncode res =? 1)%Z then
                (Returned
                   (if Config.get_bool settings "fail_on_test_failure" false
                    then STATUS_FAILURE else STATUS_WARNING)
                   (tests_details "Some tests failed." res), s'')
              else if (returncode res =? 5)%Z then
                (Returned STATUS_WARNING
                   (tests_details "No tests collected by pytest." res), s'')
              else
                (RaisedScribe
                   ("Pytest error RC=" +:+ pretty (returncode res)
                    +:+ ". E: " +:+ strip (stderr res)) ∅, s'')
          end
    | _ =>
        (Steps.unexpected
           ("TypeError", "expected str, bytes or os.PathLike object"), s)
    end.

Definition precommit_config : string :=
  path_join win32 target_dir ".pre-commit-config.yaml".

Definition precommit_cmd : list string :=
  ["pre-commit"; "run"; "--files"; target_text].

(** [WorkflowSteps.run_precommit]. *)
Definition run_precommit (s : State) : Outcome * State :=
  if negb (is_file (machine s) precommit_config) then
    (Returned STATUS_SKIPPED
       {[ "message" := PStr "No .pre-commit-config.yaml" ]}, s)
  else
    match tool precommit_cmd (Some venv_path) None s with
    | (Err e, s') => (raise_of e, s')
    | (Ok res, s') =>
        if (returncode res =? 0)%Z then
          (Returned STATUS_SUCCESS {[ "message" := PStr "Pre-commit passed." ]},
           s')
        else
          (Returned STATUS_FAILURE
             (tests_details
                ("Pre-commit failed RC=" +:+ pretty (returncode res)) res),
           s')
    end.

(** [self.agent._report_data["commit_sha"] = sha]. *)
Definition set_commit_sha (sha : string) (s : State) : State :=
  {| machine := machine s; commit_sha := Some sha;
     test_results_summary := test_results_summary s; issued := issued s |}.

Definition git_status_cmd (git : string) : list string :=
  [git; "status"; "--porcelain"; target_text].

Definition git_add_cmd (git : string) : list string :=
  [git; "add"; target_text].

Definition git_commit_cmd (git m : string) : list string :=
  [git; "commit"; "-m"; m].

Definition git_rev_parse_cmd (git : string) : list string :=
  [git; "rev-parse"; "HEAD"].

(** The end of [commit_changes], after [git commit] has run. *)
Definition after_commit (git : string) (commit_res : CompletedProcess)
    (s : State) : Outcome * State :=
  if negb (returncode commit_res =? 0)%Z then
    if contains "nothing to commit" (lower_str (stdout commit_res))
       || contains "nothing to commit" (lower_str (stderr commit_res))
    then
      (Returned STATUS_SUCCESS
         {[ "message" := PStr "No effective changes staged for commit." ]},
       set_commit_sha "NO_EFFECTIVE_CHANGES_STAGED" s)
    else
      (RaisedScribe
         ("Git commit failed (RC=" +:+ pretty (returncode commit_res)
          +:+ "): " +:+ stderr commit_res) ∅, s)
  else
    match tool (git_rev_parse_cmd git) None None s with
    | (Err e, s') => (raise_of e, s')
    | (Ok sha_res, s') =>
        let sha := strip (stdout sha_res) in
        (Returned STATUS_SUCCESS
           (<[ "message" := PStr ("Committed SHA: " +:+ sha) ]>
              {[ "commit_sha" := PStr sha ]}),
         set_commit_sha sha s')
    end.

(** [WorkflowSteps.commit_changes]. *)
Definition commit_changes (s : State) : Outcome * State :=
  match git_exe with
  | None | Some "" =>
      (Returned STATUS_WARNING
         {[ "message" := PStr "Git not found, commit skipped." ]}, s)
  | Some git =>
      match tool (git_status_cmd git) None None s with
      | (Err e, s1) => (raise_of e, s1)
      | (Ok status_res, s1) =>
          if negb (nonempty (strip (stdout status_res))) then
            (Returned STATUS_SUCCESS
               {[ "message" := PStr "No changes to commit." ]},
             set_commit_sha "NO_CHANGES" s1)
          else
            match tool (git_add_cmd git) None None s1 with
            | (Err e, s2) => (raise_of e, s2)
            | (Ok add_res, s2) =>
                if negb (returncode add_res =? 0)%Z then
                  (RaisedScribe ("Git add failed: " +:+ stderr add_res) ∅, s2)
                else
                  match target_file_path with
                  | None =>
                      (Steps.unexpected
                         ("AttributeError",
                          "'NoneType' object has no attribute 'name'"), s2)
                  | Some p =>
                      match commit_message (path_name p) with
                      | ModelClient.FormatKeyError k =>
                          (Steps.unexpected
                             ("KeyError", "'" +:+ k +:+ "'"), s2)
                      | ModelClient.FormatRaised ty m =>
                          (Steps.unexpected (ty, m), s2)
                      | ModelClient.Prompt m =>
                          match tool (git_commit_cmd git m) None None s2 with
                          | (Err e, s3) => (raise_of e, s3)
                          | (Ok commit_res, s3) =>
                              after_commit git commit_res s3
                          end
                      end
                  end
            end
      end
  end.

End Tools.

End ToolSteps.

(** ** Applying the code ([WorkflowSteps.apply_code]) *)

Module FileSteps.
Import PyStr Steps.

(** Every character of [s] satisfies [p]. *)
Fixpoint all_chars (p : ascii -> bool) (s : string) : bool :=
  match s with
  | "" => true
  | String c r => p c && all_chars p r
  end.

(** A character that [safe_stem] lets through or puts in. *)
Definition is_safe (c : ascii) : bool := is_alnum c || Ascii.eqb c "_".

Section Files.

Variable X : Type.

(** [agent._source_file_path], [None] until [validate_inputs] has run. *)
Variable source_file_path : option string.

(** Whether writing the file at a path goes through; otherwise
    [OSError]. *)
Variable write_ok : string -> bool.

(** [WorkflowSteps.apply_code]: the text of the source file is read
    first and then written to the target file; the payload holds the
    number of characters. *)
Definition apply_code (w : StepWorld X) : Outcome * StepWorld X :=
  match source_file_path with
  | None =>
      (unexpected ("AttributeError",
                   "'NoneType' object has no attribute 'read_text'"), w)
  | Some src =>
      match files w !! src with
      | None =>
          (unexpected ("FileNotFoundError",
                       "No such file: '" +:+ src +:+ "'"), w)
      | Some code =>
          match target_file_path w with
          | None =>
              (unexpected ("AttributeError",
                           "'NoneType' object has no attribute 'write_text'"),
               w)
          | Some target =>
              if write_ok target then
                (Returned STATUS_SUCCESS
                   {[ "bytes_written" :=
                        PInt (Z.of_nat (String.length code)) ]},
                 {| files := <[ target := code ]> (files w);
                    target_file_path := target_file_path w;
                    ai_review_findings := ai_review_findings w;
                    ext := ext w |})
              else
                (unexpected ("OSError", "cannot write '" +:+ target +:+ "'"),
                 w)
          end
      end
  end.

End Files.

End FileSteps.

(** ** Calls that may raise *)

Module PyQuery.

(** An exception of a class that the module does not define, by the
    name of its class and its text [str(e)]. *)
Record PyError : Type := mkPyError {
  err_class : string;
  err_text : string
}.

(** What a call into the standard library gives: its value, or the
    exception that it raises. *)
Inductive Query (A : Type) : Type :=
| Val (a : A)
| Throws (e : PyError).
Arguments Val {A} a.
Arguments Throws {A} e.

(** One call after the other: the first exception ends the sequence. *)
#[global] Instance Query_bind : MBind Query :=
  fun A B f q =>
    match q with
    | Val a => f a
    | Throws e => Throws e
    end.

(** Whether the clause [except FileNotFoundError] takes the
    exception; the class has no subclass. *)
Definition is_file_not_found (e : PyError) : bool :=
  String.eqb (err_class e) "FileNotFoundError".

End PyQuery.

(** ** The runner and the environment manager when a path query raises *)

Module Fallible.
Import PyStr PyQuery ProcessRunner.

(** What leaves a method that raises: one of the classified errors of
    the module, or an exception of another class on its way through
    the method. *)
Inductive Raised : Type :=
| Classified (e : ScribeErr)
| Unclassified (e : PyError).

Inductive Run (A : Type) : Type :=
| Done (a : A)
| Fails (x : Raised).
Arguments Done {A} a.
Arguments Fails {A} x.

(** An outcome of the runner whose queries return, as an outcome of
    this one. *)
Definition of_res {A : Type} (r : Res A) : Run A :=
  match r with
  | Ok a => Done a
  | Err e => Fails (Classified e)
  end.

(** A command handed to [run_tool], with what the call did. *)
Abbreviation Handed := (list string * Run CompletedProcess)%type.

Section Machine.

Variable Float : Type.
Variable float_le0 : Float -> bool.
Variable float_str : Float -> string.

(** The machine, as for [ProcessRunner], with queries of the file
    system and path operations that may raise: [OSError] for a name
    that is too long or a directory that may not be searched,
    [RuntimeError] for a home directory that cannot be determined or a
    loop of symbolic links, [ValueError] for a null byte in a path.
    [is_file_x p] is [p.is_file() and os.access(p, os.X_OK)]. *)
Variable World : Type.
Variable win32 : bool.
Variable is_file_x : World -> string -> Query bool.
Variable is_dir : World -> string -> Query bool.
Variable path_exists : World -> string -> Query bool.
Variable resolve : World -> string -> Query string.
Variable expanduser : World -> string -> Query string.
Variable which : World -> string -> option string.
Variable os_environ : World -> gmap string string.
Variable quote : string -> string.
Variable subprocess_run :
  list string -> string -> gmap string string -> option Float ->
  World -> Proc * World.

Variable cfg : Config Float.

(** [sys.executable]. *)
Variable sys_executable : string.

(** The exception is raised by one of the queries of the runner. *)
Definition thrown (e : PyError) : Prop :=
  (exists w p, is_file_x w p = Throws e)
  \/ (exists w p, is_dir w p = Throws e)
  \/ (exists w p, resolve w p = Throws e)
  \/ (exists w p, expanduser w p = Throws e).

(** The loop over the suffixes: the first candidate
    [bin_dir / (name + suffix)] that is an executable file,
    resolved. *)
Fixpoint find_in_bin (w : World) (bin_dir executable_name : string)
    (sfxs : list string) : Query (option string) :=
  match sfxs with
  | [] => Val None
  | sfx :: rest =>
      let candidate := path_join win32 bin_dir (executable_name +:+ sfx) in
      match is_file_x w candidate with
      | Throws e => Throws e
      | Val true =>
          match resolve w candidate with
          | Throws e => Throws e
          | Val p => Val (Some p)
          end
      | Val false => find_in_bin w bin_dir executable_name rest
      end
  end.

(** The first part of [_find_executable]: the path configured under
    [tool_paths]. *)
Definition configured_tool (executable_name : string) (w : World)
    : Query (option string) :=
  match tool_paths cfg !! executable_name with
  | Some custom_path_str =>
      if nonempty (strip custom_path_str) then
        match expanduser w custom_path_str with
        | Throws e => Throws e
        | Val custom_path =>
            match is_file_x w custom_path with
            | Throws e => Throws e
            | Val true =>
                match resolve w custom_path with
                | Throws e => Throws e
                | Val p => Val (Some p)
                end
            | Val false => Val None
            end
        end
      else Val None
  | None => Val None
  end.

(** The second part: the executables directory of the virtual
    environment. *)
Definition venv_tool (executable_name : string) (venv_path : option string)
    (w : World) : Query (option string) :=
  match venv_path with
  | Some vp =>
      match resolve w vp with
      | Throws e => Throws e
      | Val resolved_venv_path =>
          match is_dir w resolved_venv_path with
          | Throws e => Throws e
          | Val true =>
              find_in_bin w (bin_dir_of win32 resolved_venv_path)
                executable_name (suffixes win32)
          | Val false => Val None
          end
      end
  | None => Val None
  end.

(** The [FileNotFoundError] that ends [_find_executable]. *)
Definition not_found (executable_name : string) : PyError :=
  {| err_class := "FileNotFoundError";
     err_text := "Executable '" +:+ executable_name +:+ "' not found." |}.

(** [ToolRunner._find_executable]. [shutil.which] answers a path
    that is not empty, or [None]. *)
Definition _find_executable (executable_name : string)
    (venv_path : option string) (w : World) : Query string :=
  match configured_tool executable_name w with
  | Throws e => Throws e
  | Val (Some p) => Val p
  | Val None =>
      match venv_tool executable_name venv_path w with
      | Throws e => Throws e
      | Val (Some p) => Val p
      | Val None =>
          match which w executable_name with
          | Some system_exec_path_str => resolve w system_exec_path_str
          | None => Throws (not_found executable_name)
          end
      end
  end.

(** The environment handed to the process. *)
Definition proc_env (venv_path : option string)
    (env_vars : option (gmap string string)) (w : World)
    : Query (gmap string string) :=
  let base := os_environ w in
  let activated :=
    match venv_path with
    | Some vp =>
        match resolve w vp with
        | Throws e => Throws e
        | Val res_venv_path =>
            Val (delete "PYTHONPATH"
                   (delete "PYTHONHOME"
                      (<[ "PATH" := bin_dir_of win32 res_venv_path
                                    +:+ pathsep win32
                                    +:+ default "" (base !! "PATH") ]>
                         (<[ "VIRTUAL_ENV" := res_venv_path ]> base))))
        end
    | None => Val base
    end in
  match activated with
  | Throws e => Throws e
  | Val activated =>
      Val (match env_vars with
           | Some ev => ev ∪ activated
           | None => activated
           end)
  end.

(** [ToolRunner.run_tool]. Of what [_find_executable] raises only
    [FileNotFoundError] is handled; the path of the virtual environment
    is resolved outside every [try]. *)
Definition run_tool (command_args : list string) (cwd : string)
    (venv_path : option string) (env_vars : option (gmap string string))
    (timeout : option Float) (w : World)
    : Run CompletedProcess * World :=
  match command_args with
  | [] =>
      (Done {| args := []; returncode := 127; stdout := "";
               stderr := "No command." |}, w)
  | exec_name :: rest =>
      match _find_executable exec_name venv_path w with
      | Throws e =>
          if is_file_not_found e then
            (Fails (Classified
                      (ScribeToolError
                         ("Executable '" +:+ exec_name +:+ "' not found."))),
             w)
          else (Fails (Unclassified e), w)
      | Val exec_path =>
          let full_cmd := exec_path :: rest in
          let cmd_str := join " " (quote <$> full_cmd) in
          match proc_env venv_path env_vars w with
          | Throws e => (Fails (Unclassified e), w)
          | Val env =>
              let eff_timeout :=
                effective_timeout Float float_le0 cfg timeout in
              match subprocess_run full_cmd cwd env eff_timeout w with
              | (Exited rc out err, w') =>
                  (Done {| args := full_cmd; returncode := rc;
                           stdout := out; stderr := err |}, w')
              | (TimeoutExpired cmd out err, w') =>
                  (Done {| args := default full_cmd cmd;
                           returncode := -1;
                           stdout := default "" out;
                           stderr :=
                             strip (timeout_marker Float float_str cmd_str
                                      eff_timeout
                                    +:+ nl +:+ default "" err) |}, w')
              | (SpawnFailed m, w') =>
                  (Fails (Classified
                            (ScribeToolError
                               ("OS error executing '" +:+ exec_name
                                +:+ "': " +:+ m))), w')
              end
          end
      end
  end.

(** *** [EnvironmentManager] *)

(** What a method of the manager leaves: its value or what it raised,
    the manager, the world, and the commands it handed to [run_tool],
    in order, each with what the call did. *)
Record Ran (A : Type) : Type := mkRan {
  result : Run A;
  self : EnvironmentManager;
  world_after : World;
  handed : list Handed
}.
Arguments result {A} _.
Arguments self {A} _.
Arguments world_after {A} _.
Arguments handed {A} _.

(** [EnvironmentManager.find_venv_executable]. *)
Definition find_venv_executable (em : EnvironmentManager) (n : string)
    (w : World) : Query (option string) :=
  match is_dir w (_venv_path em) with
  | Throws e => Throws e
  | Val false => Val None
  | Val true =>
      find_in_bin w (bin_dir_of win32 (_venv_path em)) n (suffixes win32)
  end.

Definition set_python (em : EnvironmentManager) (py : option string)
    : EnvironmentManager :=
  {| _target_dir := _target_dir em; _venv_path := _venv_path em;
     _venv_python_path := py; _pip_path := _pip_path em |}.

Definition set_pip (em : EnvironmentManager) (pip : option string)
    : EnvironmentManager :=
  {| _target_dir := _target_dir em; _venv_path := _venv_path em;
     _venv_python_path := _venv_python_path em; _pip_path := pip |}.

(** What the [try] around the upgrade of the packaging tools lets
    out: [ScribeToolError] is logged, a result is looked at for the log
    only. *)
Definition after_upgrade (r : Run CompletedProcess) : Run unit :=
  match r with
  | Done _ => Done tt
  | Fails (Classified (ScribeToolError _)) => Done tt
  | Fails x => Fails x
  end.

(** The part of [setup_venv] after the creation branch. *)
Definition setup_tail (em : EnvironmentManager) (w : World)
    (log : list Handed) : Ran unit :=
  match find_venv_executable em "python" w with
  | Throws e =>
      {| result := Fails (Unclassified e); self := em; world_after := w;
         handed := log |}
  | Val py =>
      match find_venv_executable em "pip" w with
      | Throws e =>
          {| result := Fails (Unclassified e); self := set_python em py;
             world_after := w; handed := log |}
      | Val pip =>
          let em' := set_pip (set_python em py) pip in
          match py, pip with
          | Some _, Some pip_path =>
              let cmd := pip_upgrade_cmd pip_path in
              let r :=
                run_tool cmd (_target_dir em) (Some (_venv_path em)) None
                  (Some (default_tool_timeout cfg)) w in
              {| result := after_upgrade r.1; self := em';
                 world_after := r.2; handed := log ++ [(cmd, r.1)] |}
          | _, _ =>
              {| result :=
                   Fails (Classified
                            (ScribeEnvironmentError
                               ("Python/pip not in venv: "
                                +:+ _venv_path em)));
                 self := em'; world_after := w; handed := log |}
          end
      end
  end.

(** What the [try] around the creation lets out. *)
Definition after_creation (r : Run CompletedProcess) : Run unit :=
  match r with
  | Done res =>
      if negb (returncode res =? 0)%Z then
        Fails (Classified
                 (ScribeEnvironmentError
                    ("Venv create fail (RC=" +:+ pretty (returncode res)
                     +:+ "). E: " +:+ strip (stderr res))))
      else Done tt
  | Fails (Classified (ScribeToolError m)) =>
      Fails (Classified
               (ScribeEnvironmentError ("Venv create cmd error: " +:+ m)))
  | Fails x => Fails x
  end.

(** [EnvironmentManager.setup_venv]. *)
Definition setup_venv (em : EnvironmentManager) (w : World) : Ran unit :=
  match path_exists w (_venv_path em) with
  | Throws e =>
      {| result := Fails (Unclassified e); self := em; world_after := w;
         handed := [] |}
  | Val true => setup_tail em w []
  | Val false =>
      let cmd := venv_create_cmd sys_executable em in
      let r :=
        run_tool cmd (_target_dir em) None None
          (Some (default_tool_timeout cfg)) w in
      match after_creation r.1 with
      | Fails x =>
          {| result := Fails x; self := em; world_after := r.2;
             handed := [(cmd, r.1)] |}
      | Done _ => setup_tail em r.2 [(cmd, r.1)]
      end
  end.

End Machine.

Arguments result {World A} _.
Arguments self {World A} _.
Arguments world_after {World A} _.
Arguments handed {World A} _.

End Fallible.

(** ** Installing the dependencies ([EnvironmentManager.install_dependencies]) *)

Module Dependencies.
Import PyStr PyQuery ProcessRunner Fallible.

(** The optional-dependency groups tried for a [pyproject.toml], from
    the largest to none. *)
Definition groups : list string :=
  ["[dev,test,lint,format]"; "[dev,test,lint]"; "[dev,test]"; "[dev]"; ""].

(** [base_cmd + [f".{grp}"]]. *)
Definition editable_install_cmd (pip grp : string) : list string :=
  [pip; "install"; "--disable-pip-version-check"; "-e"; "." +:+ grp].

(** The command for a [requirements.txt]. *)
Definition requirements_install_cmd (pip reqs : string) : list string :=
  [pip; "install"; "--disable-pip-version-check"; "-r"; reqs].

(** The call of [run_tool] came back with exit code 0. *)
Definition installed (r : Run CompletedProcess) : Prop :=
  exists res, r = Done res /\ returncode res = 0%Z.

(** The call of [run_tool] came back with another exit code, or raised
    [ScribeToolError]: the loop over the groups goes on. *)
Definition not_installed (r : Run CompletedProcess) : Prop :=
  (exists res, r = Done res /\ returncode res <> 0%Z)
  \/ exists m, r = Fails (Classified (ScribeToolError m)).

Section Installer.

Variable Float : Type.
Variable float_le0 : Float -> bool.
Variable float_str : Float -> string.
Variable World : Type.
Variable win32 : bool.
Variable is_file_x : World -> string -> Query bool.
Variable is_file : World -> string -> Query bool.
Variable is_dir : World -> string -> Query bool.
Variable resolve : World -> string -> Query string.
Variable expanduser : World -> string -> Query string.
Variable which : World -> string -> option string.
Variable os_environ : World -> gmap string string.
Variable quote : string -> string.
Variable subprocess_run :
  list string -> string -> gmap string string -> option Float ->
  World -> Proc * World.
Variable cfg : Config Float.

Abbreviation run_tool :=
  (Fallible.run_tool Float float_le0 float_str World win32 is_file_x is_dir
     resolve expanduser which os_environ quote subprocess_run cfg).

(** [self._tool_runner.run_tool(cmd, self._target_dir, self._venv_path,
    timeout=timeout)]. *)
Definition pip_run (em : EnvironmentManager) (cmd : list string) (w : World)
    : Run CompletedProcess * World :=
  run_tool cmd (_target_dir em) (Some (_venv_path em)) None
    (Some (default_tool_timeout cfg)) w.

(** The log is the sequence of calls of [run_tool] that starts in [w]:
    every entry holds what its command did in the world that the entry
    before it left. *)
Fixpoint chained (em : EnvironmentManager) (w : World) (log : list Handed)
    : Prop :=
  match log with
  | [] => True
  | (cmd, r) :: rest =>
      r = (pip_run em cmd w).1 /\ chained em (pip_run em cmd w).2 rest
  end.

(** The loop [for grp in groups]; the value is [inst]. An exit code
    other than 0 and a [ScribeToolError] both lead to the next group;
    any other exception leaves the loop and the method. *)
Fixpoint try_groups (em : EnvironmentManager) (pip : string)
    (grps : list string) (w : World) (log : list Handed) : Ran World bool :=
  match grps with
  | [] =>
      {| result := Done false; self := em; world_after := w; handed := log |}
  | grp :: rest =>
      let cmd := editable_install_cmd pip grp in
      let r := pip_run em cmd w in
      match r.1 with
      | Done res =>
          if (returncode res =? 0)%Z then
            {| result := Done true; self := em; world_after := r.2;
               handed := log ++ [(cmd, r.1)] |}
          else try_groups em pip rest r.2 (log ++ [(cmd, r.1)])
      | Fails (Classified (ScribeToolError _)) =>
          try_groups em pip rest r.2 (log ++ [(cmd, r.1)])
      | Fails x =>
          {| result := Fails x; self := em; world_after := r.2;
             handed := log ++ [(cmd, r.1)] |}
      end
  end.

Definition pyproject_path (em : EnvironmentManager) : string :=
  path_join win32 (_target_dir em) "pyproject.toml".

Definition requirements_path (em : EnvironmentManager) : string :=
  path_join win32 (_target_dir em) "requirements.txt".

(** What the [try] around the install from [requirements.txt] lets
    out; the value is [inst]. *)
Definition after_requirements (r : Run CompletedProcess) : Run bool :=
  match r with
  | Done res =>
      if negb (returncode res =? 0)%Z then
        Fails (Classified
                 (ScribeEnvironmentError
                    ("requirements.txt install fail (RC="
                     +:+ pretty (returncode res) +:+ "). E: "
                     +:+ strip (stderr res))))
      else Done true
  | Fails (Classified (ScribeToolError m)) =>
      Fails (Classified
               (ScribeEnvironmentError
                  ("Tool error requirements.txt: " +:+ m)))
  | Fails x => Fails x
  end.

(** The [if pyproj.is_file(): ... elif reqs.is_file(): ... else: ...]
    of [install_dependencies]; the value is [inst]. *)
Definition install_branch (em : EnvironmentManager) (pip : string)
    (w : World) : Ran World bool :=
  match is_file w (pyproject_path em) with
  | Throws e =>
      {| result := Fails (Unclassified e); self := em; world_after := w;
         handed := [] |}
  | Val true =>
      let r := try_groups em pip groups w [] in
      match result r with
      | Done false =>
          {| result :=
               Fails (Classified
                        (ScribeEnvironmentError
                           "All pyproject.toml install attempts failed."));
             self := em; world_after := world_after r; handed := handed r |}
      | _ => r
      end
  | Val false =>
      match is_file w (requirements_path em) with
      | Throws e =>
          {| result := Fails (Unclassified e); self := em; world_after := w;
             handed := [] |}
      | Val true =>
          let cmd := requirements_install_cmd pip (requirements_path em) in
          let r := pip_run em cmd w in
          {| result := after_requirements r.1; self := em;
             world_after := r.2; handed := [(cmd, r.1)] |}
      | Val false =>
          {| result := Done false; self := em; world_after := w;
             handed := [] |}
      end
  end.

(** The closing statement [if not inst and (pyproj.is_file() or
    reqs.is_file()): raise ...]. *)
Definition closing_check (em : EnvironmentManager) (inst : bool) (w : World)
    : Run unit :=
  if inst then Done tt
  else
    match is_file w (pyproject_path em) with
    | Throws e => Fails (Unclassified e)
    | Val true =>
        Fails (Classified (ScribeEnvironmentError "Dep install fail."))
    | Val false =>
        match is_file w (requirements_path em) with
        | Throws e => Fails (Unclassified e)
        | Val true =>
            Fails (Classified (ScribeEnvironmentError "Dep install fail."))
        | Val false => Done tt
        end
    end.

(** [EnvironmentManager.install_dependencies]. *)
Definition install_dependencies (em : EnvironmentManager) (w : World)
    : Ran World unit :=
  match _pip_path em with
  | None =>
      {| result :=
           Fails (Classified
                    (ScribeEnvironmentError
                       "Pip in venv not set for dep install."));
         self := em; world_after := w; handed := [] |}
  | Some pip =>
      let r := install_branch em pip w in
      {| result :=
           match result r with
           | Fails x => Fails x
           | Done inst => closing_check em inst (world_after r)
           end;
         self := em; world_after := world_after r; handed := handed r |}
  end.

End Installer.

End Dependencies.

(** ** The check of the target directory ([ScribeAgent._validate_target_dir]) *)

Module TargetDir.
Import PyStr PyQuery.

(** What [_validate_target_dir] does: it returns the resolved directory
    or raises [ScribeInputError]. *)
Inductive Validated : Type :=
| Accepted (target_dir : string)
| ScribeInputError (m : string).

Section Validate.

Variable World : Type.
Variable is_dir : World -> string -> Query bool.
Variable expanduser : World -> string -> Query string.
Variable resolve : World -> string -> Query string.

(** [Path.resolve(strict=True)], which raises [FileNotFoundError] for a
    path that does not exist. *)
Variable resolve_strict : World -> string -> Query string.

(** The text of a list of strings inside an f-string, and the text of
    the [TypeError] that [Path] raises for a value that is no
    string. *)
Variable list_repr : list string -> string.
Variable not_a_path : Config.Value -> string.

Variable config : Config.Dict.

(** The handler [except Exception as e] of the method. *)
Definition rejected (dir_path_str m : string) : Validated :=
  ScribeInputError
    ("Error validating target dir '" +:+ dir_path_str +:+ "': " +:+ m).

(** The two handlers of the method, for an exception of a query. *)
Definition handled (dir_path_str : string) (e : PyError) : Validated :=
  if is_file_not_found e then
    ScribeInputError
      ("Target project dir not found: '" +:+ dir_path_str +:+ "'")
  else rejected dir_path_str (err_text e).

(** One element of the list comprehension:
    [str(Path(p).expanduser().resolve())]. *)
Definition resolve_base (w : World) (p : Config.Value) : Query string :=
  match p with
  | Config.VStr s =>
      match expanduser w s with
      | Throws e => Throws e
      | Val expanded => resolve w expanded
      end
  | _ => Throws {| err_class := "TypeError"; err_text := not_a_path p |}
  end.

(** The list comprehension over [allowed_bases_cfg]: the first element
    that raises ends it. *)
Fixpoint resolve_bases (w : World) (l : list Config.Value)
    : Query (list string) :=
  match l with
  | [] => Val []
  | p :: rest =>
      match resolve_base w p with
      | Throws e => Throws e
      | Val b =>
          match resolve_bases w rest with
          | Throws e => Throws e
          | Val bs => Val (b :: bs)
          end
      end
  end.

(** [ScribeAgent._validate_target_dir]. The test on [self._config] is
    left out: [__init__] assigns the attribute before it calls the
    method. *)
Definition _validate_target_dir (dir_path_str : string) (w : World)
    : Validated :=
  match expanduser w dir_path_str with
  | Throws e => handled dir_path_str e
  | Val expanded =>
      match resolve_strict w expanded with
      | Throws e => handled dir_path_str e
      | Val target_dir =>
          match is_dir w target_dir with
          | Throws e => handled dir_path_str e
          | Val false =>
              rejected dir_path_str
                ("Target path '" +:+ target_dir +:+ "' not a dir.")
          | Val true =>
              match Config.get_list config "allowed_target_bases" (Some [])
              with
              | [] => Accepted target_dir
              | allowed_bases_cfg =>
                  match resolve_bases w allowed_bases_cfg with
                  | Throws e => handled dir_path_str e
                  | Val allowed_bases_resolved =>
                      if existsb (fun b => String.prefix b target_dir)
                           allowed_bases_resolved
                      then Accepted target_dir
                      else
                        rejected dir_path_str
                          ("Target dir '" +:+ target_dir
                           +:+ "' not in allowed bases: "
                           +:+ list_repr allowed_bases_resolved +:+ ".")
                  end
              end
          end
      end
  end.

End Validate.

End TargetDir.

(** ** Concrete scenarios *)

Module Scenarios.
Import Orchestrator.

(** A world without state, in which the lint step finds issues (exit code
    1 with [fail_on_lint_critical] set), the review step reports
    ADVISORY and every other step succeeds. *)
Definition lint_fails (n : string) (arg : option Details) (w : unit)
    : Outcome * unit :=
  if String.eqb n "lint_code" then
    (Returned STATUS_FAILURE {[ "message" := PStr "Lint issues found." ]}, w)
  else if String.eqb n "review_code" then
    (Returned STATUS_ADVISORY {[ "message" := PStr "AI review found 0 items." ]}, w)
  else (Returned STATUS_SUCCESS {[ "message" := PStr "ok" ]}, w).

(** The same world with a lint step that passes. *)
Definition all_pass (n : string) (arg : option Details) (w : unit)
    : Outcome * unit :=
  if String.eqb n "review_code" then
    (Returned STATUS_ADVISORY {[ "message" := PStr "AI review found 0 items." ]}, w)
  else (Returned STATUS_SUCCESS {[ "message" := PStr "ok" ]}, w).

(** No attribute beyond the methods of the class is callable. *)
Definition no_inherited (n : string) : bool := false.

(** The command line [--source-file s --target-file t dir]. *)
Definition plain_args : CommitIntent.Args :=
  {| CommitIntent.arg_review_only := false;
     CommitIntent.arg_no_commit := false;
     CommitIntent.commit_explicitly_true := false;
     CommitIntent.commit_explicitly_false := false |}.

(** The same with [--review-only]. *)
Definition review_only_args : CommitIntent.Args :=
  {| CommitIntent.arg_review_only := true;
     CommitIntent.arg_no_commit := false;
     CommitIntent.commit_explicitly_true := false;
     CommitIntent.commit_explicitly_false := false |}.

(** A configured list in which the failing step is not the last one. *)
Definition four_steps : list string :=
  ["validate_inputs"; "lint_code"; "type_check"; "generate_report"].

(** A review-only list that reaches both skipped names before the
    review. *)
Definition hooks_first : list string :=
  ["validate_inputs"; "run_precommit"; "commit_changes"; "review_code";
   "generate_report"].

(** A response with a block tagged [js] followed by a block without
    tag. *)
Definition js_then_plain : string :=
  "```js" +:+ PyStr.nl +:+ "foo" +:+ PyStr.nl +:+ "```" +:+ PyStr.nl
  +:+ "```" +:+ PyStr.nl +:+ "bar" +:+ PyStr.nl +:+ "```".

(** A response with two blocks tagged for Python, with white space
    around their contents and prose around the blocks. *)
Definition two_python_blocks : string :=
  "Here are the tests:" +:+ PyStr.nl
  +:+ "```python" +:+ PyStr.nl +:+ "  import pytest " +:+ PyStr.nl +:+ "```"
  +:+ PyStr.nl +:+ "and" +:+ PyStr.nl
  +:+ "```Python" +:+ PyStr.nl +:+ PyStr.nl +:+ "def test_a(): pass"
  +:+ PyStr.nl +:+ "```" +:+ PyStr.nl.

(** A response whose first Python block is blank. *)
Definition blank_first_block : string :=
  "```python" +:+ PyStr.nl +:+ PyStr.nl +:+ "```" +:+ PyStr.nl
  +:+ "```python" +:+ PyStr.nl +:+ "x = 1" +:+ PyStr.nl +:+ "```".

(** The module state when [httpx] is installed: [requests] is never
    imported. *)
Definition httpx_only : ModelClient.Globals :=
  ModelClient.import_http_library true false.

(** The module state when only [requests] is installed. *)
Definition requests_only : ModelClient.Globals :=
  ModelClient.import_http_library false true.

(** A namespace with both module names bound; the import block never
    produces it. *)
Definition both_bound : ModelClient.Globals :=
  {| ModelClient.HTTP_LIB := Some ModelClient.Httpx;
     ModelClient.HTTP_LIB_AVAILABLE := true;
     ModelClient.httpx_bound := true;
     ModelClient.requests_bound := true |}.

(** The client of the default configuration ([ollama_api_retries] 2,
    [ollama_api_retry_delay] 5 seconds) over [httpx]. Floats are whole
    seconds here. *)
Definition default_client : ModelClient.LLMClient Z :=
  {| ModelClient._retries := 2%Z; ModelClient._retry_delay := 5%Z;
     ModelClient.http_client := true |}.

(** The same over [requests]: [_http_client] stays [None]. *)
Definition requests_client : ModelClient.LLMClient Z :=
  {| ModelClient._retries := 2%Z; ModelClient._retry_delay := 5%Z;
     ModelClient.http_client := false |}.

(** A backend that times out on every attempt. *)
Definition always_times_out (i : nat) : ModelClient.Attempt :=
  ModelClient.Failed (ModelClient.RequestError "timed out").

(** A project whose target file has been staged. *)
Definition staged_target : string := "/proj/src/main.py".

Definition staged_world : Steps.StepWorld unit :=
  {| Steps.files := {[ staged_target := "x = 1" ]};
     Steps.target_file_path := Some staged_target;
     Steps.ai_review_findings := None;
     Steps.ext := tt |}.

(** A backend that refuses every connection. *)
Definition backend_down (prompt : string) (fmt : option string) (i : nat)
    : ModelClient.Attempt :=
  ModelClient.Failed (ModelClient.RequestError "connection refused").

(** A backend that answers every prompt with [two_python_blocks]. *)
Definition backend_answers (prompt : string) (fmt : option string) (i : nat)
    : ModelClient.Attempt :=
  ModelClient.Answered None (Some two_python_blocks).

(** Prompt templates without placeholder problems. *)
Definition test_template (code file_name sigs : string)
    : ModelClient.Formatted :=
  ModelClient.Prompt ("Tests for " +:+ file_name +:+ ": " +:+ code).

Definition review_template (code file_name : string)
    : ModelClient.Formatted :=
  ModelClient.Prompt ("Review " +:+ file_name +:+ ": " +:+ code).

(** A parser stub for the scenarios: the text starts with an import. *)
Definition starts_with_import (code : string) : bool :=
  String.prefix "import" code.

Definition no_json (s : string) : ModelClient.ReviewJson :=
  ModelClient.NotJson "Expecting value".

Definition base_name (p : string) : string := "main.py".

Definition stem (p : string) : string := "main".

Definition writable (p : string) : bool := true.

(** The review step against the backend that is down. *)
Definition review_with_backend_down : Outcome * Steps.StepWorld unit :=
  Steps.review_code Z unit httpx_only default_client backend_down
    review_template no_json base_name staged_world.

(** The test-generation step against the backend that answers. *)
Definition tests_with_backend_up : Outcome * Steps.StepWorld unit :=
  Steps.generate_tests Z unit httpx_only default_client backend_answers
    starts_with_import test_template base_name None staged_world.

(** A small machine for the environment manager. Its state tells whether
    the environment of [/proj] has been created; creating it puts
    [python] and [pip] into its [bin] directory, and every other command
    leaves the state alone. The system interpreter is on the search
    path. *)
Definition venv_dir : string := "/proj/.venv".

Definition m_is_dir (created : bool) (p : string) : bool :=
  created && bool_decide (p = venv_dir).

Definition m_is_file_x (created : bool) (p : string) : bool :=
  (created && (bool_decide (p = "/proj/.venv/bin/python")
               || bool_decide (p = "/proj/.venv/bin/pip")))
  || bool_decide (p = "/usr/bin/python3").

Definition m_path_exists (created : bool) (p : string) : bool :=
  m_is_dir created p || m_is_file_x created p.

Definition m_which (created : bool) (n : string) : option string :=
  if bool_decide (n = "/usr/bin/python3") then Some n else None.

Definition m_environ (created : bool) : gmap string string :=
  {[ "PATH" := "/usr/bin" ]}.

Definition m_id (p : string) : string := p.

Definition m_subprocess_run (cmd : list string) (cwd : string)
    (env : gmap string string) (t : option Z) (created : bool)
    : ProcessRunner.Proc * bool :=
  if bool_decide (tail cmd = ["-m"; "venv"; venv_dir]) then
    (ProcessRunner.Exited 0 "" "", true)
  else (ProcessRunner.Exited 0 "" "", created).

Definition m_cfg : ProcessRunner.Config Z :=
  {| ProcessRunner.tool_paths := ∅;
     ProcessRunner.default_tool_timeout := 180%Z |}.

Definition m_manager : ProcessRunner.EnvironmentManager :=
  ProcessRunner.new_manager false m_id "/proj".

(** [setup_venv] on that machine. *)
Definition m_setup_venv (em : ProcessRunner.EnvironmentManager)
    (created : bool) : ProcessRunner.Setup bool :=
  ProcessRunner.setup_venv Z (fun t => (t <=? 0)%Z) pretty bool false
    m_is_file_x m_is_dir m_path_exists m_which m_environ m_id m_id m_id
    m_subprocess_run m_cfg "/usr/bin/python3" em created.

(** Name and status of each recorded result. *)
Definition summary (l : list StepResult) : list (string * Status) :=
  (fun r => (name r, status r)) <$> l.

(** The run of [four_steps] in the world where lint fails. *)
Definition failing_run : RunResult unit :=
  run unit lint_fails no_inherited (init plain_args (Some four_steps)) tt.

(** The review-only run of the default step list, every step passing. *)
Definition review_only_default_run : RunResult unit :=
  run unit all_pass no_inherited
    (init review_only_args (Some default_validation_steps)) tt.

End Scenarios.

(** ** Further scenarios *)

Module Cases.
Import Orchestrator.

(** The command line with [--no-commit]. *)
Definition no_commit_args : CommitIntent.Args :=
  {| CommitIntent.arg_review_only := false;
     CommitIntent.arg_no_commit := true;
     CommitIntent.commit_explicitly_true := false;
     CommitIntent.commit_explicitly_false := false |}.

(** Three agents over the default step list. *)
Definition plain_agent : Agent :=
  init Scenarios.plain_args (Some default_validation_steps).

Definition no_commit_agent : Agent :=
  init no_commit_args (Some default_validation_steps).

Definition review_only_agent : Agent :=
  init Scenarios.review_only_args (Some default_validation_steps).

(** Their runs in the world where every step passes. *)
Definition run_of (ag : Agent) : RunResult unit :=
  run unit Scenarios.all_pass Scenarios.no_inherited ag tt.

(** A backend that times out once and then answers. *)
Definition answers_second (i : nat) : ModelClient.Attempt :=
  match i with
  | O => ModelClient.Failed (ModelClient.RequestError "timed out")
  | S _ => ModelClient.Answered None (Some "ok")
  end.

(** A machine without state on which every tool is found on the search
    path, nothing is installed in a virtual environment, and the
    environment holds a search path only. *)
Definition on_path (w : unit) (n : string) : option string :=
  Some (if String.prefix "/" n then n else "/usr/bin/" +:+ n).

Definition nowhere (w : unit) (p : string) : bool := false.

Definition only (p0 : string) (w : unit) (p : string) : bool :=
  bool_decide (p = p0).

Definition plain_environ (w : unit) : gmap string string :=
  {[ "PATH" := "/usr/bin" ]}.

(** Every process exits with the given code and output. *)
Definition always_exits (rc : Z) (out : string) (cmd : list string)
    (cwd : string) (env : gmap string string) (t : option Z) (w : unit)
    : ProcessRunner.Proc * unit :=
  (ProcessRunner.Exited rc out "", w).

(** Every process runs into its timeout. *)
Definition always_hangs (cmd : list string) (cwd : string)
    (env : gmap string string) (t : option Z) (w : unit)
    : ProcessRunner.Proc * unit :=
  (ProcessRunner.TimeoutExpired None None None, w).

(** The agent state before any tool step. *)
Definition fresh : ToolSteps.AgentState unit :=
  {| ToolSteps.machine := tt; ToolSteps.commit_sha := None;
     ToolSteps.test_results_summary := None; ToolSteps.issued := [] |}.

(** A manager whose environment has been set up. *)
Definition ready_manager : ProcessRunner.EnvironmentManager :=
  {| ProcessRunner._target_dir := "/proj";
     ProcessRunner._venv_path := "/proj/.venv";
     ProcessRunner._venv_python_path := Some "/proj/.venv/bin/python";
     ProcessRunner._pip_path := Some "/proj/.venv/bin/pip" |}.

(** The tool steps on the machine that hangs, for a project with a
    pre-commit configuration. *)
Definition target : option string := Some "/proj/src/main.py".

Definition hanging_format : Outcome * ToolSteps.AgentState unit :=
  ToolSteps.format_code Z (fun t => (t <=? 0)%Z) pretty unit false nowhere
    nowhere on_path plain_environ Scenarios.m_id Scenarios.m_id
    Scenarios.m_id always_hangs Scenarios.m_cfg "/proj" target
    "/proj/.venv" fresh.

Definition hanging_lint : Outcome * ToolSteps.AgentState unit :=
  ToolSteps.lint_code Z (fun t => (t <=? 0)%Z) pretty unit false nowhere
    nowhere on_path plain_environ Scenarios.m_id Scenarios.m_id
    Scenarios.m_id always_hangs Scenarios.m_cfg ∅ "/proj" target
    "/proj/.venv" fresh.

Definition hanging_type_check : Outcome * ToolSteps.AgentState unit :=
  ToolSteps.type_check Z (fun t => (t <=? 0)%Z) pretty unit false nowhere
    nowhere on_path plain_environ Scenarios.m_id Scenarios.m_id
    Scenarios.m_id always_hangs Scenarios.m_cfg ∅ "/proj" target
    "/proj/.venv" fresh.

Definition hanging_precommit : Outcome * ToolSteps.AgentState unit :=
  ToolSteps.run_precommit Z (fun t => (t <=? 0)%Z) pretty unit false nowhere
    nowhere on_path plain_environ Scenarios.m_id Scenarios.m_id
    Scenarios.m_id always_hangs Scenarios.m_cfg
    (only "/proj/.pre-commit-config.yaml") "/proj" target "/proj/.venv"
    fresh.

(** The saved test file and the payload that [save_tests] returns for
    it. *)
Definition test_file : string :=
  "/proj/tests/scribe_generated/test_main_scribe.py".

Definition saved_details : Details :=
  <[ "generated_content_path" := PStr test_file ]>
    {[ "raw_output" := PStr test_file ]}.

(** [execute_tests] on that file, on a machine where [pytest] passes. *)
Definition passing_tests : Outcome * ToolSteps.AgentState unit :=
  ToolSteps.execute_tests Z (fun t => (t <=? 0)%Z) pretty unit false nowhere
    nowhere on_path plain_environ Scenarios.m_id Scenarios.m_id
    Scenarios.m_id (always_exits 0 "1 passed") Scenarios.m_cfg
    (only test_file) ∅ "/proj" "/proj/.venv" (Some saved_details) fresh.

(** The environment that [run_tool] computes for that run. *)
Definition passing_tests_env : gmap string string :=
  ProcessRunner.proc_env unit false plain_environ Scenarios.m_id
    (Some "/proj/.venv")
    (Some (ToolSteps.tests_env unit false plain_environ Scenarios.m_id
             "/proj" tt)) tt.

(** [commit_changes] on a machine where [git] prints nothing. *)
Definition commit_message (file_name : string) : ModelClient.Formatted :=
  ModelClient.Prompt ("feat(Scribe): Apply validated changes to " +:+ file_name).

Definition clean_commit : Outcome * ToolSteps.AgentState unit :=
  ToolSteps.commit_changes Z (fun t => (t <=? 0)%Z) pretty unit false nowhere
    nowhere on_path plain_environ Scenarios.m_id Scenarios.m_id
    Scenarios.m_id (always_exits 0 "") Scenarios.m_cfg "/proj" target
    (Some "/usr/bin/git") Scenarios.base_name commit_message fresh.

(** [save_tests] on the code of a successful test generation. *)
Definition generated_details : Details :=
  Steps.tests_details (Some "import pytest").

Definition saving : Outcome * Steps.StepWorld unit :=
  Steps.save_tests unit "/proj" Scenarios.stem Scenarios.writable
    (Some generated_details) Scenarios.staged_world.

(** A response whose fence has a space between the tag and the line
    feed. *)
Definition space_after_tag : string :=
  "```python " +:+ PyStr.nl +:+ "x = 1" +:+ PyStr.nl +:+ "```".

(** Queries that return on the machine without state. *)
Definition returns {A : Type} (f : unit -> string -> A) (w : unit)
    (p : string) : PyQuery.Query A :=
  PyQuery.Val (f w p).

Definition same (w : unit) (p : string) : PyQuery.Query string :=
  PyQuery.Val p.

(** The environment directory lies on a loop of symbolic links. *)
Definition looping_venv (w : unit) (p : string) : PyQuery.Query string :=
  if bool_decide (p = "/proj/.venv") then
    PyQuery.Throws
      {| PyQuery.err_class := "RuntimeError";
         PyQuery.err_text := "Symlink loop from '/proj/.venv'" |}
  else PyQuery.Val p.

(** [install_dependencies] for a project with a [pyproject.toml], by
    what resolving a path and running a process do. *)
Definition install_with (resolve : unit -> string -> PyQuery.Query string)
    (subprocess_run : list string -> string -> gmap string string ->
                      option Z -> unit -> ProcessRunner.Proc * unit)
    : Fallible.Ran unit unit :=
  Dependencies.install_dependencies Z (fun t => (t <=? 0)%Z) pretty unit
    false (returns nowhere) (returns (only "/proj/pyproject.toml"))
    (returns nowhere) resolve same on_path plain_environ Scenarios.m_id
    subprocess_run Scenarios.m_cfg ready_manager tt.

(** The home directory of a user that does not exist. *)
Definition no_home (w : unit) (p : string) : PyQuery.Query string :=
  if String.prefix "~nobody" p then
    PyQuery.Throws
      {| PyQuery.err_class := "RuntimeError";
         PyQuery.err_text := "Could not determine home directory." |}
  else PyQuery.Val p.

(** The check of [/proj] when the only allowed base is under such a
    home directory. *)
Definition base_without_home : TargetDir.Validated :=
  TargetDir._validate_target_dir unit (returns (fun _ _ => true)) no_home
    same same (fun _ => "") (fun _ => "")
    {[ "allowed_target_bases" := Config.VList [Config.VStr "~nobody/work"] ]}
    "/proj" tt.

End Cases.

(** * Properties *)

(** ** Effective commit intent *)

Module CommitIntentFacts.
Import CommitIntent.

(** C4. The value [__init__] stores in [_do_commit] is the effective
    commit intent of the specification: false under review-only, else
    false under no-commit, else the explicit commit flag, which is true
    when neither flag of the commit group was given. [run] reads the
    stored value and never assigns it. *)
Theorem C4_effective_commit_intent (a : Args) (cfg : option (list string)) :
  Orchestrator.do_commit (Orchestrator.init a cfg)
  = effective_commit_spec (arg_review_only a) (arg_no_commit a)
      (explicit_commit_flag a)
  /\ (forall nc e, effective_commit_spec true nc e = false)
  /\ (forall e, effective_commit_spec false true e = false)
  /\ (forall b, effective_commit_spec false false (Some b) = b)
  /\ effective_commit_spec false false None = true
  /\ (forall ro nc, explicit_commit_flag (mkArgs ro nc false false) = None)
  /\ (forall ro nc, explicit_commit_flag (mkArgs ro nc true false) = Some true)
  /\ (forall ro nc, explicit_commit_flag (mkArgs ro nc false true) = Some false).
Proof.
  repeat split; try reflexivity.
  unfold Orchestrator.init, do_commit_of, parsed_commit,
    effective_commit_spec, explicit_commit_flag; simpl.
  destruct (arg_review_only a), (arg_no_commit a),
    (commit_explicitly_true a), (commit_explicitly_false a); reflexivity.
Qed.

End CommitIntentFacts.

(** ** The orchestrator *)

Module OrchestratorFacts.
Import Orchestrator.

Section Run.

Variable World : Type.
Variable invoke : string -> option Details -> World -> Outcome * World.
Variable inherited_callable : string -> bool.
Variable ag : Agent.

Abbreviation RunState := (RunState World).
Abbreviation _execute_step := (_execute_step World invoke).
Abbreviation run_loop := (run_loop World invoke inherited_callable ag).
Abbreviation run := (run World invoke inherited_callable ag).

Lemma status_eqb_true (a b : Status) : status_eqb a b = true <-> a = b.
Proof. unfold status_eqb. apply bool_decide_eq_true. Qed.

Lemma status_eqb_false (a b : Status) : status_eqb a b = false <-> a <> b.
Proof. unfold status_eqb. apply bool_decide_eq_false. Qed.

Lemma Forall_passes_snoc (l : list StepResult) (r : StepResult) :
  Forall passes (l ++ [r]) <-> Forall passes l /\ passes r.
Proof.
  rewrite Forall_app. split.
  - intros [H1 H2]. split; [done|]. by inversion H2.
  - intros [H1 H2]. split; [done|]. by constructor.
Qed.

Lemma fails_last_clean_snoc (l : list StepResult) (r : StepResult) :
  Forall passes l -> fails_last (l ++ [r]).
Proof.
  intros Hl pre x post Heq Hx.
  destruct post as [|y post] using rev_ind; [done|].
  exfalso. clear IHpost.
  rewrite app_comm_cons, app_assoc in Heq.
  apply app_inj_tail in Heq as [Heq _]. subst l.
  rewrite Forall_app in Hl. destruct Hl as [_ Hl].
  inversion Hl as [|? ? Hp _]; subst. by apply Hp.
Qed.

Lemma fails_last_clean (l : list StepResult) :
  Forall passes l -> fails_last l.
Proof.
  intros Hl pre x post Heq Hx. subst l.
  rewrite Forall_app in Hl. destruct Hl as [_ Hl].
  inversion Hl as [|? ? Hp _]; subst. by destruct Hp.
Qed.

(** What one call of [_execute_step] on a clean state does: it calls
    the step function, records exactly one result under the step's
    name, and answers whether that result is no failure; the state
    stays clean exactly when it answers [True]. *)
Lemma execute_step_clean (n : string) (dep : option Details) (s : RunState) :
  clean s ->
  exists r c,
    let res := _execute_step n dep s in
    steps res.2 = steps s ++ [r]
    /\ name r = n
    /\ invoked res.2 = invoked s ++ [c]
    /\ call_name c = n
    /\ call_arg c = (if truthy dep then dep else None)
    /\ (call_outcome c, world res.2)
       = invoke n (if truthy dep then dep else None) (world s)
    /\ commit_attempted res.2 = commit_attempted s
    /\ (res.1 = true -> passes r /\ clean res.2)
    /\ (res.1 = false -> status r = STATUS_FAILURE
                         /\ overall_success res.2 = false).
Proof.
  intros [Hs Hl]. unfold Orchestrator._execute_step. rewrite Hs. simpl.
  destruct (invoke n (if truthy dep then dep else None) (world s))
    as [out w] eqn:Hinv.
  destruct out as [st d|m d|ty m tb]; simpl.
  - eexists _, _.
    split; [reflexivity|]. split; [reflexivity|].
    split; [reflexivity|]. split; [reflexivity|].
    split; [reflexivity|]. split; [reflexivity|].
    split; [reflexivity|]. simpl. split.
    + intros Hok. apply negb_true_iff in Hok.
      pose proof Hok as Hne. apply status_eqb_false in Hne.
      split; [exact Hne|]. split; simpl.
      * by rewrite Hok.
      * apply Forall_passes_snoc. split; [exact Hl | exact Hne].
    + intros Hok. apply negb_false_iff in Hok.
      pose proof Hok as He. apply status_eqb_true in He.
      split; [exact He|]. simpl. by rewrite Hok.
  - eexists _, _.
    split; [reflexivity|]. split; [reflexivity|].
    split; [reflexivity|]. split; [reflexivity|].
    split; [reflexivity|]. split; [reflexivity|].
    split; [reflexivity|]. simpl. split; [discriminate | done].
  - eexists _, _.
    split; [reflexivity|]. split; [reflexivity|].
    split; [reflexivity|]. split; [reflexivity|].
    split; [reflexivity|]. split; [reflexivity|].
    split; [reflexivity|]. simpl. split; [discriminate | done].
Qed.

Lemma last_snoc_result (l : list StepResult) (r : StepResult) :
  last (l ++ [r]) = Some r.
Proof. apply last_snoc. Qed.

(** The shape of the loop, as a proof rule. [P] is kept by every
    iteration that goes on, [Q] holds wherever the loop is left: at the
    end of the list, at an invalid step name, after a failed step, and
    after the review in review-only mode. *)
Lemma run_loop_rule (P Q : RunState -> Prop) :
  (forall s, clean s -> P s -> Q s) ->
  (forall s n, clean s -> P s -> callable_step inherited_callable n = false ->
     Q (_add_step_result_custom World n STATUS_FAILURE
          (msg ("Invalid step '" +:+ n +:+ "' in configuration."))
          (Some ("Invalid step '" +:+ n +:+ "'"))
          (set_overall World false s))) ->
  (forall s, clean s -> P s -> review_only ag = true ->
     P (_add_step_result_custom World "run_precommit" STATUS_SKIPPED
          (msg "Skipped: --review-only active.") None s)) ->
  (forall s, clean s -> P s -> do_commit ag = false ->
     P (set_commit_attempted World false
          (_add_step_result_custom World "commit_changes" STATUS_SKIPPED
             (msg ("Skipped: " +:+ skip_reason ag +:+ ".")) None s))) ->
  (forall s n, clean s -> P s ->
     callable_step inherited_callable n = true ->
     ~ (n = "run_precommit" /\ review_only ag = true) ->
     ~ (n = "commit_changes" /\ do_commit ag = false) ->
     (_execute_step n (dependency_arg World n s) s).1 = true ->
     P (_execute_step n (dependency_arg World n s) s).2) ->
  (forall s n, clean s -> P s ->
     callable_step inherited_callable n = true ->
     ~ (n = "run_precommit" /\ review_only ag = true) ->
     ~ (n = "commit_changes" /\ do_commit ag = false) ->
     (_execute_step n (dependency_arg World n s) s).1 = false ->
     Q (_execute_step n (dependency_arg World n s) s).2) ->
  forall names s, clean s -> P s -> Q (run_loop names s).
Proof.
  intros Hend Hbad Hpre Hcommit Hok Hfail.
  induction names as [|n rest IH]; intros s Hc HP; simpl.
  - by apply Hend.
  - destruct (callable_step inherited_callable n) eqn:Hcall; simpl.
    2: { by apply Hbad. }
    destruct (String.eqb n "run_precommit" && review_only ag) eqn:Hrp.
    { apply andb_true_iff in Hrp as [Hn Hro].
      apply String.eqb_eq in Hn. subst n.
      apply IH; [|by apply Hpre].
      destruct Hc as [Hc1 Hc2]. split; [done|].
      apply Forall_passes_snoc. split; [done|]. by unfold passes. }
    destruct (String.eqb n "commit_changes" && negb (do_commit ag)) eqn:Hcc.
    { apply andb_true_iff in Hcc as [Hn Hdc].
      apply String.eqb_eq in Hn. subst n.
      apply negb_true_iff in Hdc.
      apply IH; [|by apply Hcommit].
      destruct Hc as [Hc1 Hc2]. split; [done|]. simpl.
      apply Forall_passes_snoc. split; [done|]. by unfold passes. }
    assert (Hnrp : ~ (n = "run_precommit" /\ review_only ag = true)).
    { intros [-> Hro]. by rewrite Hro in Hrp. }
    assert (Hncc : ~ (n = "commit_changes" /\ do_commit ag = false)).
    { intros [-> Hdc]. by rewrite Hdc in Hcc. }
    destruct (execute_step_clean n (dependency_arg World n s) s Hc)
      as (r & c & Hsteps & _ & _ & _ & _ & _ & _ & Htrue & _).
    specialize (Hok s n Hc HP Hcall Hnrp Hncc).
    specialize (Hfail s n Hc HP Hcall Hnrp Hncc).
    destruct (_execute_step n (dependency_arg World n s) s)
      as [ok s1] eqn:Hex. simpl in *.
    destruct ok; simpl.
    + destruct (Htrue eq_refl) as [Hr Hc1].
      destruct (String.eqb n "review_code" && review_only ag).
      * rewrite Hsteps, last_snoc_result.
        apply status_eqb_false in Hr. rewrite Hr.
        apply Hend; [done|]. by apply Hok.
      * apply IH; [done|]. by apply Hok.
    + by apply Hfail.
Qed.

Lemma run_loop_tracks (names : list string) (s : RunState) :
  clean s ->
  (overall_success (run_loop names s) = true
   <-> Forall passes (steps (run_loop names s)))
  /\ fails_last (steps (run_loop names s)).
Proof.
  intros Hc.
  apply (run_loop_rule (fun _ => True)
           (fun s => (overall_success s = true <-> Forall passes (steps s))
                     /\ fails_last (steps s))); auto.
  - intros s0 [H1 H2] _. split; [by split|]. by apply fails_last_clean.
  - intros s0 n [H1 H2] _ _. simpl. split.
    + split; [discriminate|]. intros HF.
      apply Forall_passes_snoc in HF as [_ HF]. by destruct HF.
    + by apply fails_last_clean_snoc.
  - intros s0 n Hc0 _ _ _ _ Hfalse.
    destruct (execute_step_clean n (dependency_arg World n s0) s0 Hc0)
      as (r & c & Hsteps & _ & _ & _ & _ & _ & _ & _ & Hf).
    destruct (Hf Hfalse) as [Hr Ho]. simpl in Hsteps. rewrite Hsteps, Ho.
    split.
    + split; [discriminate|]. intros HF.
      apply Forall_passes_snoc in HF as [_ HF]. by destruct HF.
    + apply fails_last_clean_snoc. by destruct Hc0.
Qed.

Lemma initial_clean (w : World) : clean (initial World ag w).
Proof. split; [reflexivity | constructor]. Qed.

(** C3. The overall status of the finalised report is SUCCESS exactly
    when no recorded step result has status FAILURE; the exit code is 0
    exactly when the overall status is SUCCESS and is 1 otherwise; an
    unset or empty step list gives exit code 1, overall status FAILURE
    and a single failed [pipeline_setup] result, before any step
    function is called. *)
Theorem C3_status_and_exit_code (w : World) :
  (overall_status (run w) = STATUS_SUCCESS
   <-> Forall (fun r => status r <> STATUS_FAILURE) (report_steps (run w)))
  /\ (exit_code (run w) = 0%Z <-> overall_status (run w) = STATUS_SUCCESS)
  /\ (exit_code (run w) = 0%Z \/ exit_code (run w) = 1%Z)
  /\ (forall ro nc dc,
        unconfigured
          (Orchestrator.run World invoke inherited_callable
             (mkAgent ro nc dc None) w)
        /\ unconfigured
             (Orchestrator.run World invoke inherited_callable
                (mkAgent ro nc dc (Some [])) w)).
Proof.
  assert (Hmain :
    (overall_success (final (run w)) = true
     <-> Forall passes (report_steps (run w)))
    /\ overall_status (run w)
       = (if overall_success (final (run w))
          then STATUS_SUCCESS else STATUS_FAILURE)
    /\ exit_code (run w)
       = (if overall_success (final (run w)) then 0 else 1)%Z).
  { unfold Orchestrator.run.
    destruct (get_validation_steps ag) as [|n rest] eqn:Hcfg.
    - simpl. split; [|done]. split; [discriminate|].
      intros HF. inversion HF as [|? ? Hp _]; subst. by destruct Hp.
    - cbn [report_steps overall_status exit_code final
             _generate_and_print_final_report].
      pose proof (run_loop_tracks (n :: rest) _ (initial_clean w)) as [Ht _].
      split; [exact Ht|]. done. }
  destruct Hmain as (Hflag & Hst & Hex).
  split; [|split; [|split]].
  - rewrite Hst, <- Hflag.
    destruct (overall_success (final (run w))); split; done.
  - rewrite Hst, Hex.
    destruct (overall_success (final (run w))); split; done.
  - rewrite Hex. destruct (overall_success (final (run w))); auto.
  - intros ro nc dc. split; by repeat split.
Qed.

(** What a call of [_execute_step] on a clean state does to the recorded
    outputs: after a call that returned, the output of the step is the
    returned pair; after a call that raised, nothing changes. *)
Lemma execute_step_outputs (n : string) (dep : option Details) (s : RunState) :
  clean s ->
  exists c,
    invoked (_execute_step n dep s).2 = invoked s ++ [c]
    /\ call_name c = n
    /\ call_arg c = (if truthy dep then dep else None)
    /\ (exists w, call_outcome c = (invoke n (call_arg c) w).1)
    /\ ((exists st d,
           call_outcome c = Returned st d
           /\ (_execute_step n dep s).1 = negb (status_eqb st STATUS_FAILURE)
           /\ step_outputs (_execute_step n dep s).2
              = <[ n := mkStepResult n st (Some d) None ]> (step_outputs s))
        \/ ((_execute_step n dep s).1 = false
            /\ step_outputs (_execute_step n dep s).2 = step_outputs s)).
Proof.
  intros [Hs Hl]. unfold Orchestrator._execute_step. rewrite Hs. simpl.
  destruct (invoke n (if truthy dep then dep else None) (world s))
    as [out w] eqn:Hinv.
  destruct out as [st d|m d|ty m tb]; simpl;
    (eexists; split; [reflexivity|]; split; [reflexivity|];
     split; [reflexivity|]; simpl; split;
     [exists (world s); by rewrite Hinv|]).
  - left. by eexists _, _.
  - by right.
  - by right.
Qed.

Lemma dependency_of_save_tests (s : RunState) :
  dependency_arg World "save_tests" s
  = match step_outputs s !! "generate_tests" with
    | Some r => details r
    | None => None
    end.
Proof. reflexivity. Qed.

(** The invariant behind the next two lemmas, for one executed step. *)
Lemma execute_step_saves_generated (n : string) (s : RunState) :
  clean s ->
  calls_from_invoke World invoke (invoked s) ->
  saves_generated (invoked s) ->
  generated_output_known s ->
  calls_from_invoke World invoke
    (invoked (_execute_step n (dependency_arg World n s) s).2)
  /\ saves_generated (invoked (_execute_step n (dependency_arg World n s) s).2)
  /\ ((_execute_step n (dependency_arg World n s) s).1 = true ->
      generated_output_known (_execute_step n (dependency_arg World n s) s).2).
Proof.
  intros Hc Hfrom Hsaves Hknown.
  destruct (execute_step_outputs n (dependency_arg World n s) s Hc)
    as (c & Hinv & Hname & Harg & Hout & Hcases).
  rewrite Hinv.
  assert (Hnew : forall d, call_name c = "save_tests" -> call_arg c = Some d ->
            exists c' st,
              c' ∈ invoked s /\ call_name c' = "generate_tests"
              /\ call_outcome c' = Returned st d /\ st <> STATUS_FAILURE).
  { intros d Hn Ha.
    assert (Hn' : n = "save_tests") by congruence.
    rewrite Hn' in Harg.
    rewrite Harg, dependency_of_save_tests in Ha.
    destruct (step_outputs s !! "generate_tests") as [r|] eqn:Hr.
    - destruct (truthy (details r)); [|discriminate].
      by apply (Hknown r d).
    - simpl in Ha. discriminate. }
  split; [|split].
  - intros x Hx. apply elem_of_app in Hx as [Hx | Hx]; [by apply Hfrom|].
    apply list_elem_of_singleton in Hx. subst x. by rewrite Hname.
  - intros x d Hx Hn Ha. apply elem_of_app in Hx as [Hx | Hx].
    + destruct (Hsaves x d Hx Hn Ha) as (c' & st & Hc' & H').
      exists c', st. split; [|done]. apply elem_of_app. by left.
    + apply list_elem_of_singleton in Hx. subst x.
      destruct (Hnew d Hn Ha) as (c' & st & Hc' & H').
      exists c', st. split; [|done]. apply elem_of_app. by left.
  - intros Hok r d Hr Hd. rewrite Hinv.
    destruct Hcases as [(st & d0 & Hret & Hb & Hso) | [Hb _]];
      [|congruence].
    rewrite Hso in Hr.
    destruct (decide (n = "generate_tests")) as [-> | Hne].
    + rewrite lookup_insert_eq in Hr. injection Hr as <-. simpl in Hd.
      injection Hd as <-. exists c, st.
      split; [apply elem_of_app; right; by apply list_elem_of_singleton|].
      split; [done|]. split; [done|].
      rewrite Hb in Hok. by apply negb_true_iff, status_eqb_false in Hok.
    + rewrite lookup_insert_ne in Hr by done.
      destruct (Hknown r d Hr Hd) as (c' & st' & Hc' & H').
      exists c', st'. split; [|done]. apply elem_of_app. by left.
Qed.

(** In every run, whatever [save_tests] is given was returned before by a
    call of [generate_tests] that did not fail, and every call on the trace
    is a call of the step function. *)
Lemma run_saves_generated (w : World) :
  calls_from_invoke World invoke (invoked (final (run w)))
  /\ saves_generated (invoked (final (run w))).
Proof.
  assert (Hloop : forall names s,
            clean s ->
            (calls_from_invoke World invoke (invoked s)
             /\ saves_generated (invoked s) /\ generated_output_known s) ->
            calls_from_invoke World invoke (invoked (run_loop names s))
            /\ saves_generated (invoked (run_loop names s))).
  { apply (run_loop_rule
             (fun s => calls_from_invoke World invoke (invoked s)
                       /\ saves_generated (invoked s)
                       /\ generated_output_known s)
             (fun s => calls_from_invoke World invoke (invoked s)
                       /\ saves_generated (invoked s))).
    - by intros s _ (H1 & H2 & _).
    - by intros s n _ (H1 & H2 & _) _.
    - by intros s _ H _.
    - by intros s _ H _.
    - intros s n Hc (H1 & H2 & H3) _ _ _ Hok.
      destruct (execute_step_saves_generated n s Hc H1 H2 H3) as (? & ? & ?).
      auto.
    - intros s n Hc (H1 & H2 & H3) _ _ _ _.
      destruct (execute_step_saves_generated n s Hc H1 H2 H3) as (? & ? & ?).
      auto. }
  unfold Orchestrator.run.
  destruct (get_validation_steps ag) as [|n rest] eqn:Hcfg.
  - simpl. split; [intros c Hc | intros c d Hc]; by apply elem_of_nil in Hc.
  - cbn [final _generate_and_print_final_report].
    apply Hloop; [apply initial_clean|].
    split; [|split].
    + intros c Hc. by apply elem_of_nil in Hc.
    + intros c d Hc. by apply elem_of_nil in Hc.
    + intros r d Hr. simpl in Hr. by rewrite lookup_empty in Hr.
Qed.

Lemma execute_step_records (n : string) (dep : option Details) (s : RunState) :
  clean s ->
  exists r c,
    steps (_execute_step n dep s).2 = steps s ++ [r]
    /\ invoked (_execute_step n dep s).2 = invoked s ++ [c]
    /\ name r = n /\ call_name c = n
    /\ status r = recorded_status (call_outcome c).
Proof.
  intros [Hs Hl]. unfold Orchestrator._execute_step. rewrite Hs. simpl.
  destruct (invoke n (if truthy dep then dep else None) (world s))
    as [out w] eqn:Hinv.
  destruct out as [st d|m d|ty m tb]; simpl; by eexists _, _.
Qed.

Lemma accounted_mono (calls calls' : list Call) (r : StepResult) :
  (forall c, c ∈ calls -> c ∈ calls') ->
  accounted inherited_callable calls r -> accounted inherited_callable calls' r.
Proof.
  intros Hsub [H | [H | [H | (c & Hc & H)]]].
  - by left.
  - by right; left.
  - by right; right; left.
  - right; right; right. exists c. split; [by apply Hsub | done].
Qed.

(** In every run, each recorded result is accounted for without the branch
    of [_execute_step] that skips because of a prior failure: the loop
    never calls [_execute_step] once a failure is recorded. *)
Lemma run_results_accounted (w : World) :
  Forall (accounted inherited_callable (invoked (final (run w))))
    (report_steps (run w)).
Proof.
  assert (Hsnoc : forall (s s' : RunState) r,
            Forall (accounted inherited_callable (invoked s)) (steps s) ->
            steps s' = steps s ++ [r] ->
            (forall c, c ∈ invoked s -> c ∈ invoked s') ->
            accounted inherited_callable (invoked s') r ->
            Forall (accounted inherited_callable (invoked s')) (steps s')).
  { intros s s' r Hall Hsteps Hsub Hr. rewrite Hsteps.
    apply Forall_app. split; [|by constructor].
    eapply Forall_impl; [exact Hall|]. intros x. by apply accounted_mono. }
  assert (Hexec : forall s n,
            clean s ->
            Forall (accounted inherited_callable (invoked s)) (steps s) ->
            Forall (accounted inherited_callable
                      (invoked (_execute_step n (dependency_arg World n s) s).2))
              (steps (_execute_step n (dependency_arg World n s) s).2)).
  { intros s n Hc Hall.
    destruct (execute_step_records n (dependency_arg World n s) s Hc)
      as (r & c & Hsteps & Hinv & Hname & Hcn & Hst).
    apply (Hsnoc s _ r Hall Hsteps).
    - intros x Hx. rewrite Hinv. apply elem_of_app. by left.
    - right; right; right. exists c. rewrite Hinv.
      split; [apply elem_of_app; right; by apply list_elem_of_singleton|].
      split; [congruence | done]. }
  unfold Orchestrator.run.
  destruct (get_validation_steps ag) as [|n rest] eqn:Hcfg.
  - simpl. constructor; [|constructor]. by left.
  - cbn [final report_steps _generate_and_print_final_report].
    apply (run_loop_rule
             (fun s => Forall (accounted inherited_callable (invoked s)) (steps s))
             (fun s => Forall (accounted inherited_callable (invoked s)) (steps s)));
      auto using initial_clean.
    + intros s n0 _ Hall Hcall.
      eapply Hsnoc; [exact Hall | reflexivity | done |]. by right; left.
    + intros s _ Hall _.
      eapply Hsnoc; [exact Hall | reflexivity | done |].
      right; right; left. split; [by left | done].
    + intros s _ Hall _.
      eapply Hsnoc; [exact Hall | reflexivity | done |].
      right; right; left. split; [by right | done].
Qed.

(** In every run, a recorded failure is the last recorded result: the
    loop is left at the first failure and nothing is recorded for the
    configured steps after it. *)
Lemma run_failure_is_last (w : World) : fails_last (report_steps (run w)).
Proof.
  unfold Orchestrator.run.
  destruct (get_validation_steps ag) as [|n rest] eqn:Hcfg.
  - simpl. by apply (fails_last_clean_snoc []).
  - cbn [report_steps _generate_and_print_final_report].
    exact (proj2 (run_loop_tracks (n :: rest) _ (initial_clean w))).
Qed.

Lemma mutating_is_method (n : string) :
  mutating_step n -> callable_step inherited_callable n = true.
Proof. intros [-> | ->]; reflexivity. Qed.

Lemma review_only_safe_snoc (s s' : RunState) (r : StepResult) :
  review_only_safe s ->
  steps s' = steps s ++ [r] ->
  (mutating_step (name r) -> status r = STATUS_SKIPPED) ->
  (forall c, c ∈ invoked s' -> c ∈ invoked s \/ ~ mutating_step (call_name c)) ->
  review_only_safe s'.
Proof.
  intros [Hi Hr] Hsteps Hnew Hcalls. split.
  - intros c Hc. destruct (Hcalls c Hc) as [Hold | Hn]; auto.
  - intros x Hx. rewrite Hsteps in Hx.
    apply elem_of_app in Hx as [Hx | Hx]; [by apply Hr|].
    apply list_elem_of_singleton in Hx. by subst x.
Qed.

Lemma run_loop_review_only (names : list string) (s : RunState) :
  review_only ag = true -> do_commit ag = false ->
  clean s -> review_only_safe s -> review_only_safe (run_loop names s).
Proof.
  intros Hro Hdc Hc Hs.
  assert (Hstep : forall s0 n dep, clean s0 -> review_only_safe s0 ->
            ~ (n = "run_precommit" /\ review_only ag = true) ->
            ~ (n = "commit_changes" /\ do_commit ag = false) ->
            review_only_safe (_execute_step n dep s0).2).
  { intros s0 n dep Hc0 Hs0 Hnrp Hncc.
    assert (Hn : ~ mutating_step n).
    { intros [-> | ->]; [by apply Hnrp | by apply Hncc]. }
    destruct (execute_step_clean n dep s0 Hc0)
      as (r & c & Hsteps & Hname & Hinv & Hcn & _).
    simpl in Hsteps, Hinv.
    apply (review_only_safe_snoc s0 _ r Hs0 Hsteps).
    - rewrite Hname. intros Hm. by destruct Hn.
    - intros x Hx. rewrite Hinv in Hx.
      apply elem_of_app in Hx as [Hx | Hx]; [by left|].
      apply list_elem_of_singleton in Hx. subst x. right. by rewrite Hcn. }
  apply (run_loop_rule review_only_safe review_only_safe); auto.
  - intros s0 n _ Hs0 Hcall.
    eapply review_only_safe_snoc; [exact Hs0 | reflexivity | | by left].
    simpl. intros Hm. apply mutating_is_method in Hm. congruence.
  - intros s0 _ Hs0 _.
    eapply review_only_safe_snoc; [exact Hs0 | reflexivity | done | by left].
  - intros s0 _ Hs0 _.
    eapply review_only_safe_snoc; [exact Hs0 | reflexivity | done | by left].
Qed.

Lemma run_review_only (w : World) :
  review_only ag = true -> do_commit ag = false ->
  (forall c, c ∈ invoked (final (run w)) -> ~ mutating_step (call_name c))
  /\ (forall r, r ∈ report_steps (run w) -> mutating_step (name r) ->
       status r = STATUS_SKIPPED).
Proof.
  intros Hro Hdc. unfold Orchestrator.run.
  destruct (get_validation_steps ag) as [|n rest] eqn:Hcfg.
  - simpl. split; [intros c Hc; by apply elem_of_nil in Hc|].
    intros r Hr. apply list_elem_of_singleton in Hr. subst r. simpl.
    intros [Hm | Hm]; discriminate.
  - cbn [report_steps final _generate_and_print_final_report].
    apply run_loop_review_only; auto using initial_clean.
    split; intros x Hx; by apply elem_of_nil in Hx.
Qed.

Lemma reached_cut (n0 : string) (rest : list string) (r0 : StepResult)
    (i : nat) :
  n0 = "review_code" \/ status r0 = STATUS_FAILURE ->
  ~ reached (n0 :: rest) [r0] (S i).
Proof.
  intros Hcut Hreach. destruct (Hreach 0) as [Hn Hr]; [lia|].
  destruct Hcut as [-> | Hf]; [by destruct Hn|]. by apply (Hr r0).
Qed.

Lemma reached_shift (n0 : string) (rest : list string) (r0 : StepResult)
    (l : list StepResult) (i : nat) :
  n0 <> "review_code" -> status r0 <> STATUS_FAILURE ->
  reached (n0 :: rest) (r0 :: l) (S i) <-> reached rest l i.
Proof.
  intros Hn Hr. split.
  - intros Hreach j Hj. apply (Hreach (S j)). lia.
  - intros Hreach [|j] Hj.
    + split; [cbn; congruence|]. cbn. by intros r [= <-].
    + apply Hreach. lia.
Qed.

(** In review-only mode every iteration of the loop records one result,
    and an occurrence of [run_precommit] or [commit_changes] in the
    configured names is recorded, as SKIPPED and at its own position,
    exactly when the loop gets that far. *)
Lemma run_loop_records_skips (names : list string) (s : RunState) :
  review_only ag = true -> do_commit ag = false -> clean s ->
  exists new,
    steps (run_loop names s) = steps s ++ new
    /\ forall i n, names !! i = Some n -> mutating_step n ->
         ((exists r, new !! i = Some r /\ name r = n
                     /\ status r = STATUS_SKIPPED)
          <-> reached names new i).
Proof.
  intros Hro Hdc. revert s.
  induction names as [|n0 rest IH]; intros s Hc.
  - exists []. split; [by rewrite app_nil_r|]. intros i n Hi. done.
  - assert (Hcut : forall (r0 : StepResult),
              ~ mutating_step n0 ->
              n0 = "review_code" \/ status r0 = STATUS_FAILURE ->
              forall i n, (n0 :: rest) !! i = Some n -> mutating_step n ->
                ((exists r, [r0] !! i = Some r /\ name r = n
                            /\ status r = STATUS_SKIPPED)
                 <-> reached (n0 :: rest) [r0] i)).
    { intros r0 Hnm Hc0 [|i] n Hi Hm.
      - injection Hi as <-. by destruct Hnm.
      - split; [by intros (r & Hr & _)|].
        intros Hreach. by destruct (reached_cut n0 rest r0 i Hc0). }
    assert (Hgo : forall (r0 : StepResult) (new' : list StepResult),
              n0 <> "review_code" -> status r0 <> STATUS_FAILURE ->
              (mutating_step n0 ->
               name r0 = n0 /\ status r0 = STATUS_SKIPPED) ->
              (forall i n, rest !! i = Some n -> mutating_step n ->
                 ((exists r, new' !! i = Some r /\ name r = n
                             /\ status r = STATUS_SKIPPED)
                  <-> reached rest new' i)) ->
              forall i n, (n0 :: rest) !! i = Some n -> mutating_step n ->
                ((exists r, (r0 :: new') !! i = Some r /\ name r = n
                            /\ status r = STATUS_SKIPPED)
                 <-> reached (n0 :: rest) (r0 :: new') i)).
    { intros r0 new' Hn Hr Hskip Hrest [|i] n Hi Hm.
      - injection Hi as <-. destruct (Hskip Hm) as [Hname Hst].
        split; [intros _ j Hj; lia|]. intros _. by exists r0.
      - rewrite (reached_shift n0 rest r0 new' i Hn Hr).
        by apply Hrest. }
    cbn [Orchestrator.run_loop].
    destruct (callable_step inherited_callable n0) eqn:Hcall; cbn [negb].
    2: { eexists [_]. split; [reflexivity|].
         apply Hcut; [|by right].
         intros Hm. apply mutating_is_method in Hm. congruence. }
    destruct (String.eqb n0 "run_precommit" && review_only ag) eqn:Hrp.
    { apply andb_true_iff in Hrp as [Hn _]. apply String.eqb_eq in Hn.
      subst n0.
      set (s' := _add_step_result_custom World "run_precommit" STATUS_SKIPPED
                   (msg "Skipped: --review-only active.") None s).
      assert (Hc' : clean s').
      { destruct Hc as [Hc1 Hc2]. split; [done|].
        apply Forall_passes_snoc. split; [done|]. by unfold passes. }
      destruct (IH s' Hc') as (new' & Hsteps & Hrest).
      eexists (_ :: new'). split.
      - rewrite Hsteps. cbn. by rewrite <- app_assoc.
      - by apply Hgo. }
    destruct (String.eqb n0 "commit_changes" && negb (do_commit ag)) eqn:Hcc.
    { apply andb_true_iff in Hcc as [Hn _]. apply String.eqb_eq in Hn.
      subst n0.
      set (s' := set_commit_attempted World false
                   (_add_step_result_custom World "commit_changes"
                      STATUS_SKIPPED
                      (msg ("Skipped: " +:+ skip_reason ag +:+ ".")) None s)).
      assert (Hc' : clean s').
      { destruct Hc as [Hc1 Hc2]. split; [done|]. cbn.
        apply Forall_passes_snoc. split; [done|]. by unfold passes. }
      destruct (IH s' Hc') as (new' & Hsteps & Hrest).
      eexists (_ :: new'). split.
      - rewrite Hsteps. cbn. by rewrite <- app_assoc.
      - by apply Hgo. }
    assert (Hnm : ~ mutating_step n0).
    { intros [-> | ->].
      - by rewrite Hro in Hrp.
      - by rewrite Hdc in Hcc. }
    destruct (execute_step_clean n0 (dependency_arg World n0 s) s Hc)
      as (r & c & Hsteps & Hname & _ & _ & _ & _ & _ & Htrue & Hfalse).
    destruct (_execute_step n0 (dependency_arg World n0 s) s)
      as [ok s1] eqn:Hex. cbn [fst snd] in *.
    destruct ok; cbn [negb].
    + destruct (Htrue eq_refl) as [Hr Hc1].
      destruct (String.eqb n0 "review_code" && review_only ag) eqn:Hrv.
      * apply andb_true_iff in Hrv as [Hn _]. apply String.eqb_eq in Hn.
        exists [r]. split.
        { rewrite Hsteps, last_snoc_result.
          apply status_eqb_false in Hr. by rewrite Hr. }
        apply Hcut; [done | by left].
      * assert (Hn : n0 <> "review_code").
        { intros ->. by rewrite Hro in Hrv. }
        destruct (IH s1 Hc1) as (new' & Hsteps' & Hrest).
        exists (r :: new'). split.
        { rewrite Hsteps', Hsteps. by rewrite <- app_assoc. }
        apply Hgo; [done | done | | done].
        intros Hm. by destruct Hnm.
    + destruct (Hfalse eq_refl) as [Hr _].
      exists [r]. split; [done|]. apply Hcut; [done | by right].
Qed.

(** The same for a whole run. *)
Lemma run_records_skips (w : World) :
  review_only ag = true -> do_commit ag = false ->
  forall i n, get_validation_steps ag !! i = Some n -> mutating_step n ->
    ((exists r, report_steps (run w) !! i = Some r /\ name r = n
                /\ status r = STATUS_SKIPPED)
     <-> reached (get_validation_steps ag) (report_steps (run w)) i).
Proof.
  intros Hro Hdc i n Hi Hm. unfold Orchestrator.run.
  destruct (get_validation_steps ag) as [|n0 rest] eqn:Hcfg; [done|].
  cbn [report_steps _generate_and_print_final_report].
  destruct (run_loop_records_skips (n0 :: rest) (initial World ag w) Hro Hdc
              (initial_clean w)) as (new & Hsteps & Hrest).
  rewrite Hsteps. cbn [steps initial app]. by apply Hrest.
Qed.

End Run.

(** C2 as the code has it. In every run in review-only mode neither
    [run_precommit] nor [commit_changes] is ever called, and every result
    recorded under one of the two names has status SKIPPED. An occurrence
    of either name in the configured list is recorded, as SKIPPED and at
    its own position in the results, exactly when the loop gets that far:
    when no earlier configured name is [review_code], after which the
    loop is left in this mode, and no earlier result is a failure. *)
Theorem C2_review_only_never_mutates (World : Type)
    (invoke : string -> option Details -> World -> Outcome * World)
    (inherited_callable : string -> bool)
    (a : CommitIntent.Args) (cfg : option (list string)) (w : World) :
  CommitIntent.arg_review_only a = true ->
  (forall c,
      c ∈ invoked (final (run World invoke inherited_callable (init a cfg) w)) ->
      call_name c <> "run_precommit" /\ call_name c <> "commit_changes")
  /\ (forall r,
        r ∈ report_steps (run World invoke inherited_callable (init a cfg) w) ->
        name r = "run_precommit" \/ name r = "commit_changes" ->
        status r = STATUS_SKIPPED)
  /\ (forall i n,
        get_validation_steps (init a cfg) !! i = Some n ->
        n = "run_precommit" \/ n = "commit_changes" ->
        ((exists r,
            report_steps (run World invoke inherited_callable (init a cfg) w)
              !! i = Some r
            /\ name r = n /\ status r = STATUS_SKIPPED)
         <-> reached (get_validation_steps (init a cfg))
               (report_steps
                  (run World invoke inherited_callable (init a cfg) w)) i)).
Proof.
  intros Hro.
  assert (Hdc : do_commit (init a cfg) = false).
  { simpl. unfold CommitIntent.do_commit_of. by rewrite Hro. }
  destruct (run_review_only World invoke inherited_callable (init a cfg) w
              Hro Hdc) as [Hcalls Hres].
  split; [|split].
  - intros c Hc. specialize (Hcalls c Hc). unfold mutating_step in Hcalls.
    split; intros Hn; apply Hcalls; auto.
  - intros r Hr Hn. by apply Hres.
  - intros i n Hi Hn.
    by apply (run_records_skips World invoke inherited_callable (init a cfg) w
                Hro Hdc i n Hi Hn).
Qed.

(** C1, the code at a failing step that is not the last configured one.
    With the steps [validate_inputs], [lint_code], [type_check],
    [generate_report] and a lint step that returns FAILURE, the report
    holds two results, the failed lint last; [type_check] is not recorded
    as SKIPPED, it is not recorded at all, and neither is
    [generate_report]. *)
Theorem C1_steps_after_failure_not_recorded :
  Scenarios.summary (report_steps Scenarios.failing_run)
  = [("validate_inputs", STATUS_SUCCESS); ("lint_code", STATUS_FAILURE)]
  /\ "type_check" ∈ Scenarios.four_steps
  /\ ("type_check" ∉ name <$> report_steps Scenarios.failing_run)
  /\ ("generate_report" ∉ name <$> report_steps Scenarios.failing_run)
  /\ exit_code Scenarios.failing_run = 1%Z.
Proof.
  assert (Hn : name <$> report_steps Scenarios.failing_run
               = ["validate_inputs"; "lint_code"]) by (vm_compute; reflexivity).
  split; [vm_compute; reflexivity|].
  split; [apply (bool_decide_unpack _); vm_compute; exact I|].
  rewrite Hn.
  split; [|split]; [| |vm_compute; reflexivity];
    intros Hin; repeat (apply elem_of_cons in Hin as [Hin | Hin];
                        [discriminate|]); by apply elem_of_nil in Hin.
Qed.

(** C2 as stated fails on the default step list: in review-only mode,
    with every step passing, the loop is left after [review_code], so the
    results hold no entry for [run_precommit] and none for
    [commit_changes]. *)
Lemma C2_counterexample_default_steps :
  CommitIntent.arg_review_only Scenarios.review_only_args = true
  /\ "run_precommit" ∈ Orchestrator.default_validation_steps
  /\ "commit_changes" ∈ Orchestrator.default_validation_steps
  /\ ~ (exists r, r ∈ report_steps Scenarios.review_only_default_run
                  /\ name r = "run_precommit" /\ status r = STATUS_SKIPPED)
  /\ ~ (exists r, r ∈ report_steps Scenarios.review_only_default_run
                  /\ name r = "commit_changes" /\ status r = STATUS_SKIPPED).
Proof.
  assert (Hn : name <$> report_steps Scenarios.review_only_default_run
               = ["validate_inputs"; "setup_environment"; "install_deps";
                  "audit_deps"; "apply_code"; "format_code"; "lint_code";
                  "type_check"; "extract_signatures"; "generate_tests";
                  "save_tests"; "execute_tests"; "review_code"])
    by (vm_compute; reflexivity).
  split; [reflexivity|].
  split; [apply (bool_decide_unpack _); vm_compute; exact I|].
  split; [apply (bool_decide_unpack _); vm_compute; exact I|].
  split; intros (r & Hr & Hname & _);
    apply (list_elem_of_fmap_2 name) in Hr; rewrite Hn, Hname in Hr;
    repeat (apply elem_of_cons in Hr as [Hr | Hr]; [discriminate|]);
    by apply elem_of_nil in Hr.
Qed.

(** The amended C2 at a review-only run that reaches both names: neither
    is called, and both are recorded as SKIPPED at their positions. *)
Lemma C2_review_only_never_mutates_witness :
  CommitIntent.arg_review_only Scenarios.review_only_args = true
  /\ (forall c,
        c ∈ invoked (final (run unit Scenarios.all_pass Scenarios.no_inherited
                              (init Scenarios.review_only_args
                                 (Some Scenarios.hooks_first)) tt)) ->
        call_name c <> "run_precommit" /\ call_name c <> "commit_changes")
  /\ (forall r,
        r ∈ report_steps (run unit Scenarios.all_pass Scenarios.no_inherited
                            (init Scenarios.review_only_args
                               (Some Scenarios.hooks_first)) tt) ->
        name r = "run_precommit" \/ name r = "commit_changes" ->
        status r = STATUS_SKIPPED)
  /\ (exists r,
        report_steps (run unit Scenarios.all_pass Scenarios.no_inherited
                        (init Scenarios.review_only_args
                           (Some Scenarios.hooks_first)) tt) !! 1 = Some r
        /\ name r = "run_precommit" /\ status r = STATUS_SKIPPED)
  /\ (exists r,
        report_steps (run unit Scenarios.all_pass Scenarios.no_inherited
                        (init Scenarios.review_only_args
                           (Some Scenarios.hooks_first)) tt) !! 2 = Some r
        /\ name r = "commit_changes" /\ status r = STATUS_SKIPPED).
Proof.
  split; [reflexivity|].
  destruct (C2_review_only_never_mutates unit Scenarios.all_pass
              Scenarios.no_inherited Scenarios.review_only_args
              (Some Scenarios.hooks_first) tt eq_refl) as (H1 & H2 & H3).
  split; [exact H1|]. split; [exact H2|]. split.
  - apply (H3 1 "run_precommit" eq_refl (or_introl eq_refl)).
    intros [|j] Hj; [|lia]. split; [discriminate|].
    intros r [= <-]. discriminate.
  - apply (H3 2 "commit_changes" eq_refl (or_intror eq_refl)).
    intros [|[|j]] Hj; [| |lia]; (split; [discriminate|]);
      intros r [= <-]; discriminate.
Defined.

(** The same run does record both names, as SKIPPED. *)
Example review_only_hooks_first :
  Scenarios.summary
    (report_steps (run unit Scenarios.all_pass Scenarios.no_inherited
                     (init Scenarios.review_only_args
                        (Some Scenarios.hooks_first)) tt))
  = [("validate_inputs", STATUS_SUCCESS); ("run_precommit", STATUS_SKIPPED);
     ("commit_changes", STATUS_SKIPPED); ("review_code", STATUS_ADVISORY)].
Proof. vm_compute. reflexivity. Qed.

End OrchestratorFacts.

(** ** Trimming *)

Module PyStrFacts.
Import PyStr.

Lemma rstrip_keep (c : ascii) (r : string) :
  is_space c = false -> rstrip (String c r) = String c (rstrip r).
Proof. intros Hc. simpl. rewrite Hc. by destruct (rstrip r). Qed.

Lemma lstrip_left_trimmed (s : string) : left_trimmed (lstrip s).
Proof.
  unfold left_trimmed. induction s as [|c r IH]; [done|]. simpl.
  destruct (is_space c) eqn:Hc; [done|]. simpl. by rewrite Hc.
Qed.

Lemma rstrip_right_trimmed (s : string) : right_trimmed (rstrip s).
Proof.
  unfold right_trimmed. induction s as [|c r IH]; [done|]. simpl.
  destruct (rstrip r) as [|c' r'] eqn:Hr.
  - destruct (is_space c) eqn:Hc; [done|]. simpl. by rewrite Hc.
  - simpl in *. by rewrite IH.
Qed.

Lemma left_trimmed_head (s : string) :
  left_trimmed s <->
  match s with "" => True | String c _ => is_space c = false end.
Proof.
  unfold left_trimmed. destruct s as [|c r]; [done|]. simpl.
  destruct (is_space c) eqn:Hc; [|done]. split; [|done].
  intros Heq. exfalso.
  assert (Hlen : forall t, String.length (lstrip t) <= String.length t).
  { induction t as [|a t IH]; simpl; [lia|].
    destruct (is_space a); simpl; lia. }
  specialize (Hlen r). rewrite Heq in Hlen. simpl in Hlen. lia.
Qed.

Lemma rstrip_left_trimmed (s : string) :
  left_trimmed s -> left_trimmed (rstrip s).
Proof.
  rewrite !left_trimmed_head. destruct s as [|c r]; [done|].
  intros Hc. rewrite (rstrip_keep c r Hc). done.
Qed.

(** The result of [strip] is trimmed on both sides, so trimming it again
    changes nothing. *)
Lemma strip_idempotent (s : string) : strip (strip s) = strip s.
Proof.
  unfold strip.
  pose proof (rstrip_left_trimmed _ (lstrip_left_trimmed s)) as HL.
  unfold left_trimmed in HL. rewrite HL. apply rstrip_right_trimmed.
Qed.

Lemma strip_fixed (s : string) :
  left_trimmed s -> right_trimmed s -> strip s = s.
Proof. unfold strip, left_trimmed, right_trimmed. by intros -> ->. Qed.

Lemma strip_left_trimmed (s : string) : left_trimmed (strip s).
Proof. apply rstrip_left_trimmed, lstrip_left_trimmed. Qed.

Lemma strip_right_trimmed (s : string) : right_trimmed (strip s).
Proof. apply rstrip_right_trimmed. Qed.

Lemma left_trimmed_app (s t : string) :
  left_trimmed s -> s <> "" -> left_trimmed (s +:+ t).
Proof.
  rewrite !left_trimmed_head. destruct s as [|c r]; [done|]. by simpl.
Qed.

Lemma app_nonempty_r (s t : string) : t <> "" -> s +:+ t <> "".
Proof. destruct s; [done|]. by simpl. Qed.

Lemma right_trimmed_app (s t : string) :
  right_trimmed t -> t <> "" -> right_trimmed (s +:+ t).
Proof.
  unfold right_trimmed. intros Ht Hne.
  induction s as [|c r IH]; [done|].
  change (String c r +:+ t) with (String c (r +:+ t)).
  simpl. rewrite IH.
  pose proof (app_nonempty_r r t Hne) as Hrt.
  by destruct (r +:+ t).
Qed.

(** Joining parts that are trimmed keeps the right end of the last
    one. *)
Lemma join_right_trimmed (sep : string) (parts : list string) (z : string) :
  last parts = Some z -> right_trimmed z -> z <> "" ->
  right_trimmed (join sep parts) /\ join sep parts <> "".
Proof.
  induction parts as [|x parts IH]; [done|].
  destruct parts as [|y parts].
  - simpl. intros [= ->]. done.
  - intros Hlast Hz Hne.
    destruct (IH Hlast Hz Hne) as [IH1 IH2].
    change (join sep (x :: y :: parts))
      with (x +:+ sep +:+ join sep (y :: parts)).
    split.
    + apply right_trimmed_app; [|by apply app_nonempty_r].
      by apply right_trimmed_app.
    + by apply app_nonempty_r, app_nonempty_r.
Qed.

Lemma join_left_trimmed (sep : string) (x : string) (parts : list string) :
  left_trimmed x -> x <> "" -> left_trimmed (join sep (x :: parts)).
Proof.
  intros Hx Hne. destruct parts as [|y parts]; [done|].
  change (join sep (x :: y :: parts))
    with (x +:+ sep +:+ join sep (y :: parts)).
  by apply left_trimmed_app.
Qed.

(** Trimming the joined text changes nothing when the first and the last
    part are trimmed and not empty. *)
Lemma strip_join_fixed (sep : string) (x z : string) (parts : list string) :
  last (x :: parts) = Some z ->
  left_trimmed x -> x <> "" -> right_trimmed z -> z <> "" ->
  strip (join sep (x :: parts)) = join sep (x :: parts).
Proof.
  intros Hlast Hx Hxne Hz Hzne. apply strip_fixed.
  - by apply join_left_trimmed.
  - by apply (join_right_trimmed sep (x :: parts) z).
Qed.

End PyStrFacts.

(** ** The fenced-block convention *)

Module FenceFacts.
Import PyStr PyStrFacts Fence.

(** The last trimming of several joined blocks changes nothing unless the
    first or the last block is blank. *)
Lemma join_blocks_fixed (b1 : string) (rest : list string) :
  strip (join concat_separator (strip <$> b1 :: rest))
  = join concat_separator (strip <$> b1 :: rest)
  \/ strip b1 = ""
  \/ exists z, last (b1 :: rest) = Some z /\ strip z = "".
Proof.
  destruct (decide (strip b1 = "")) as [H1 | H1]; [by right; left|].
  destruct (last (b1 :: rest)) as [z|] eqn:Hlast;
    [|by apply last_None in Hlast].
  destruct (decide (strip z = "")) as [Hz | Hz]; [right; right; eauto|].
  left. rewrite fmap_cons.
  apply (strip_join_fixed _ (strip b1) (strip z)); auto.
  - rewrite <- fmap_cons, fmap_last, Hlast. done.
  - apply strip_left_trimmed.
  - apply strip_right_trimmed.
Qed.

(** The result of the extraction never has surrounding white space and
    is given, by what the two scans return, by the first case that
    applies: two or more groups of the first pattern, one such group,
    a group of the second pattern, none at all. *)
Lemma extract_code_by_scan (resp : string) :
  strip (_extract_code_from_response resp) = _extract_code_from_response resp
  /\ ((exists b1 b2 rest,
         findall_python resp = b1 :: b2 :: rest
         /\ _extract_code_from_response resp
            = strip (join concat_separator (strip <$> b1 :: b2 :: rest))
         /\ (_extract_code_from_response resp
             = join concat_separator (strip <$> b1 :: b2 :: rest)
             \/ strip b1 = ""
             \/ exists z, last (b1 :: b2 :: rest) = Some z /\ strip z = ""))
      \/ (exists b,
            findall_python resp = [b]
            /\ _extract_code_from_response resp = strip b)
      \/ (findall_python resp = []
          /\ exists b rest,
               findall_generic resp = b :: rest
               /\ _extract_code_from_response resp = strip b)
      \/ (findall_python resp = []
          /\ findall_generic resp = []
          /\ _extract_code_from_response resp = strip resp)).
Proof.
  unfold _extract_code_from_response.
  destruct (findall_python resp) as [|b1 [|b2 rest]] eqn:Hpy.
  - destruct (findall_generic resp) as [|b more] eqn:Hgen; simpl.
    + split; [apply strip_idempotent|]. by right; right; right.
    + split; [apply strip_idempotent|]. right; right; left.
      split; [done|]. by eexists _, _.
  - split; [apply strip_idempotent|]. right; left. exists b1.
    split; [done|]. simpl. by rewrite strip_idempotent.
  - split; [apply strip_idempotent|]. left. exists b1, b2, rest.
    split; [done|]. split; [done|].
    destruct (join_blocks_fixed b1 (b2 :: rest)) as [H | H]; [|by right].
    left. by rewrite H.
Qed.

(** The scenario of the specification: two Python blocks. *)
Example extract_two_python_blocks :
  _extract_code_from_response Scenarios.two_python_blocks
  = "import pytest" +:+ concat_separator +:+ "def test_a(): pass".
Proof. vm_compute. reflexivity. Qed.

(** With a blank first block the separator loses its leading line
    feeds. *)
Example extract_blank_first_block :
  findall_python Scenarios.blank_first_block = [""; "x = 1"]
  /\ _extract_code_from_response Scenarios.blank_first_block
     = "# Scribe: Concatenated Block" +:+ nl +:+ nl +:+ "x = 1"
  /\ _extract_code_from_response Scenarios.blank_first_block
     <> join concat_separator
          (strip <$> findall_python Scenarios.blank_first_block).
Proof. repeat split; try (vm_compute; reflexivity). vm_compute. discriminate. Qed.

End FenceFacts.

(** ** The model client *)

Module ModelClientFacts.
Import PyStr ModelClient.

(** The import block never binds both module names. *)
Lemma import_binds_at_most_one (hi ri : bool) :
  httpx_bound (import_http_library hi ri)
  && requests_bound (import_http_library hi ri) = false.
Proof. by destruct hi, ri. Qed.

Section Loop.

Variable Float : Type.
Variable c : LLMClient Float.
Variable backend : nat -> Attempt.

(** In every module state the import block can produce, [_call_api]
    never sleeps and posts at most one request: the first exception of
    any kind ends the call while the handler tuple is evaluated. *)
Lemma call_api_never_retries (hi ri : bool) :
  sleeps (_call_api Float (import_http_library hi ri) c backend).2 = []
  /\ posts (_call_api Float (import_http_library hi ri) c backend).2 <= 1.
Proof.
  unfold _call_api.
  destruct hi, ri; simpl; try (split; [done | lia]);
    destruct (Z.to_nat (_retries c + 1)) as [|n]; simpl;
    try (split; [done | lia]);
    unfold try_block; simpl;
    destruct (http_client c); simpl;
    try (split; [done | lia]);
    destruct (backend 0) as [[[|a e]|] [r|]|e]; simpl;
    split; done || lia.
Qed.

(** One turn of the loop that ends in the first handler. *)
Lemma attempts_retry (g : Globals) (e : PyExc) (posted : bool)
    (n attempt : nat) (last_exc : option PyExc) (t : Trace Float) :
  try_block Float g c backend attempt = (Raise e None, posted) ->
  except_clauses g e = HRetry ->
  attempts Float g c backend (S n) attempt last_exc t
  = attempts Float g c backend n (S attempt) (Some e)
      (if (Z.of_nat attempt <? _retries c)%Z
       then sleep Float (_retry_delay c) (count_post Float posted t)
       else count_post Float posted t).
Proof. intros Ht He. simpl. by rewrite Ht, He. Qed.

(** The loop in a namespace with both names bound, when every attempt
    fails at the network level: all remaining attempts are made, a
    sleep follows every attempt but the last, and the error raised
    carries the last failure as its cause. *)
Lemma attempts_network_failures (g : Globals) (m : nat -> string)
    (n attempt : nat) (last_exc : option PyExc) (t : Trace Float) :
  httpx_bound g = true -> requests_bound g = true ->
  http_client c || bool_decide (HTTP_LIB g = Some Requests) = true ->
  (forall i, backend i = Failed (RequestError (m i))) ->
  Z.of_nat (attempt + S n) = (_retries c + 1)%Z ->
  attempts Float g c backend (S n) attempt last_exc t
  = (raise_definitively (Some (RequestError (m (attempt + n)))),
     {| posts := posts t + S n;
        sleeps := sleeps t ++ replicate n (_retry_delay c) |}).
Proof.
  intros Hh Hr Hcl Hb. revert attempt last_exc t.
  assert (Htry : forall i,
            try_block Float g c backend i
            = (Raise (RequestError (m i)) None, true)).
  { intros i. unfold try_block. by rewrite Hcl, Hb. }
  assert (Hex : forall i, except_clauses g (RequestError (m i)) = HRetry).
  { intros i. unfold except_clauses. by rewrite Hh, Hr. }
  induction n as [|n IH]; intros attempt last_exc t Hn.
  - rewrite (attempts_retry g _ _ _ _ _ _ (Htry attempt) (Hex attempt)).
    assert (Hlt : (Z.of_nat attempt <? _retries c)%Z = false)
      by (apply Z.ltb_ge; lia).
    rewrite Hlt, Nat.add_0_r, app_nil_r. simpl.
    unfold count_post. f_equal. f_equal. lia.
  - rewrite (attempts_retry g _ _ _ _ _ _ (Htry attempt) (Hex attempt)).
    assert (Hlt : (Z.of_nat attempt <? _retries c)%Z = true)
      by (apply Z.ltb_lt; lia).
    rewrite Hlt. rewrite IH by lia.
    unfold sleep, count_post. simpl.
    rewrite <- app_assoc. simpl.
    replace (attempt + S n) with (S (attempt + n)) by lia.
    f_equal. f_equal. lia.
Qed.

(** In such a namespace a JSON decode failure ends the loop at once. *)
Lemma attempts_json_decode_failure (g : Globals) (msg : string)
    (n attempt : nat) (last_exc : option PyExc) (t : Trace Float) :
  httpx_bound g = true -> requests_bound g = true ->
  http_client c || bool_decide (HTTP_LIB g = Some Requests) = true ->
  backend attempt = Failed (JSONDecodeError msg) ->
  attempts Float g c backend (S n) attempt last_exc t
  = (raise_definitively (Some (JSONDecodeError msg)),
     {| posts := S (posts t); sleeps := sleeps t |}).
Proof.
  intros Hh Hr Hcl Hb. simpl. unfold try_block. rewrite Hcl, Hb. simpl.
  unfold except_clauses. by rewrite Hh, Hr.
Qed.

End Loop.

(** C5, the code when every attempt times out, with the default client
    (2 retries). Where [httpx] is installed the first timeout reaches the
    handlers, the tuple [(httpx.RequestError,
    requests.exceptions.RequestException)] is evaluated, and the unbound
    name [requests] raises [NameError]: one request posted, no sleep, no
    retry, and no [ScribeApiError]. Where only [requests] is installed the
    same happens on the name [httpx]. *)
Theorem C5_timeout_raises_NameError_without_retry :
  _call_api Z Scenarios.httpx_only Scenarios.default_client
    Scenarios.always_times_out
  = (Raise (NameError "requests") None, {| posts := 1; sleeps := [] |})
  /\ _call_api Z Scenarios.requests_only Scenarios.requests_client
       Scenarios.always_times_out
     = (Raise (NameError "httpx") None, {| posts := 1; sleeps := [] |}).
Proof. split; reflexivity. Qed.

(** What the loop would do for the same backend if both names were
    bound: three requests, two sleeps of the configured delay, and one
    [ScribeApiError] whose cause is the last timeout. *)
Example timeouts_with_both_names_bound :
  _call_api Z Scenarios.both_bound Scenarios.default_client
    Scenarios.always_times_out
  = (Raise (ScribeApiError "Ollama call failed definitively: timed out")
       (Some (RequestError "timed out")),
     {| posts := 3; sleeps := [5%Z; 5%Z] |}).
Proof. reflexivity. Qed.

End ModelClientFacts.

(** ** The AI workflow steps *)

Module StepsFacts.
Import PyStr ModelClient Steps.

Section Workflow.

Variable Float : Type.
Variable X : Type.
Variable g : Globals.
Variable c : LLMClient Float.
Variable backend : string -> option string -> nat -> Attempt.
Variable ast_parse_ok : string -> bool.
Variable test_prompt : string -> string -> string -> Formatted.
Variable review_prompt : string -> string -> Formatted.
Variable json_loads : string -> ReviewJson.
Variable target_dir : string.
Variable path_name : string -> string.
Variable path_stem : string -> string.
Variable write_ok : string -> bool.

Abbreviation client_generate_tests :=
  (ModelClient.generate_tests Float g c backend ast_parse_ok test_prompt).
Abbreviation test_generation_call :=
  (Steps.test_generation_call Float X g c backend ast_parse_ok test_prompt
     path_name).
Abbreviation generate_tests :=
  (Steps.generate_tests Float X g c backend ast_parse_ok test_prompt
     path_name).
Abbreviation review_call :=
  (Steps.review_call Float X g c backend review_prompt json_loads path_name).
Abbreviation review_code :=
  (Steps.review_code Float X g c backend review_prompt json_loads path_name).
Abbreviation save_tests := (Steps.save_tests X target_dir path_stem write_ok).
Abbreviation test_file_path := (Steps.test_file_path X target_dir path_stem).

Lemma nonempty_true (s : string) : nonempty s = true <-> s <> "".
Proof. destruct s; simpl; split; done. Qed.

(** Whatever [LLMClient.generate_tests] returns as code is not empty,
    was extracted from a model answer, and passed [ast.parse]. *)
Lemma client_tests_valid (code file_name sigs t : string) :
  client_generate_tests code file_name sigs = Ret (Some t) ->
  t <> "" /\ ast_parse_ok t = true
  /\ exists raw, t = Fence._extract_code_from_response raw.
Proof.
  unfold ModelClient.generate_tests.
  destruct (test_prompt _ _ _) as [prompt|k|ty m]; [|discriminate..].
  destruct (_call_api Float g c (backend prompt None)).1
    as [raw|e cause]; [|discriminate].
  destruct (nonempty (strip raw)); simpl; [|discriminate].
  destruct (nonempty (Fence._extract_code_from_response raw)) eqn:Hne;
    simpl; [|discriminate].
  destruct (ast_parse_ok (Fence._extract_code_from_response raw)) eqn:Hok;
    [|discriminate].
  intros [= <-]. split; [by apply nonempty_true|]. split; [done|]. eauto.
Qed.

Lemma recorded_outcome_of_exc (e : PyExc) :
  recorded_status (outcome_of_exc e) = STATUS_FAILURE.
Proof. by destruct e. Qed.

Lemma test_generation_call_raises (sig_details : option Details)
    (w : StepWorld X) (o : Outcome) :
  test_generation_call sig_details w = inl o ->
  recorded_status o = STATUS_FAILURE.
Proof.
  unfold Steps.test_generation_call.
  destruct (read_target X w) as [e|code]; [by intros [= <-]|].
  destruct (if truthy sig_details then _ else _) as [|sigs| |];
    try (by intros [= <-]).
  destruct (ModelClient.generate_tests _ _ _ _ _ _ _ _ _) as [tests|e cause];
    [discriminate|].
  intros [= <-]. apply recorded_outcome_of_exc.
Qed.

Lemma test_generation_call_code (sig_details : option Details)
    (w : StepWorld X) (t : string) :
  test_generation_call sig_details w = inr (Some t) ->
  t <> "" /\ ast_parse_ok t = true.
Proof.
  unfold Steps.test_generation_call.
  destruct (read_target X w) as [e|code]; [discriminate|].
  destruct (if truthy sig_details then _ else _) as [|sigs| |];
    try discriminate.
  destruct (ModelClient.generate_tests _ _ _ _ _ _ _ _ _)
    as [tests|e cause] eqn:Hc; [|discriminate].
  intros [= ->]. apply client_tests_valid in Hc as (H1 & H2 & _). done.
Qed.

Lemma review_call_raises (w : StepWorld X) (o : Outcome) :
  review_call w = inl o -> recorded_status o = STATUS_FAILURE.
Proof.
  unfold Steps.review_call.
  destruct (read_target X w) as [e|code]; [by intros [= <-]|].
  destruct (ModelClient.generate_review _ _ _ _ _ _ _ _) as [r|e cause];
    [discriminate|].
  intros [= <-]. apply recorded_outcome_of_exc.
Qed.

(** The keyword [output_format_type] names no parameter of [_call_api],
    so [generate_review] never gets an answer to parse: it returns
    [None] unless the prompt template is broken. *)
Lemma generate_review_no_findings (code file_name : string)
    (r : option (list Finding)) :
  ModelClient.generate_review Float g c backend review_prompt json_loads
    code file_name = Ret r -> r = None.
Proof.
  unfold ModelClient.generate_review.
  destruct (review_prompt _ _) as [prompt|k|ty m]; [|discriminate..].
  unfold _call_api_keyword. simpl. by intros [= <-].
Qed.

(** C9 as the code has it. The test-generation step is recorded as
    SUCCESS exactly when the client returned test code, and as FAILURE
    otherwise. The review step is recorded as ADVISORY exactly when
    [generate_review] returned, whatever it returned, [None] after a
    failed extraction included; it is FAILURE only when the step
    raised. *)
Theorem C9_ai_step_status (sig_details : option Details) (w : StepWorld X) :
  (recorded_status (generate_tests sig_details w).1 = STATUS_SUCCESS
   <-> exists t, test_generation_call sig_details w = inr (Some t))
  /\ (recorded_status (generate_tests sig_details w).1 = STATUS_FAILURE
      <-> ~ exists t, test_generation_call sig_details w = inr (Some t))
  /\ (forall review,
        recorded_status (review_result X review w).1 = STATUS_ADVISORY)
  /\ (recorded_status (review_code w).1 = STATUS_ADVISORY
      <-> exists review, review_call w = inr review)
  /\ (recorded_status (review_code w).1 = STATUS_FAILURE
      <-> ~ exists review, review_call w = inr review).
Proof.
  assert (Hgen :
    (exists t, test_generation_call sig_details w = inr (Some t)
               /\ recorded_status (generate_tests sig_details w).1
                  = STATUS_SUCCESS)
    \/ ((~ exists t, test_generation_call sig_details w = inr (Some t))
        /\ recorded_status (generate_tests sig_details w).1
           = STATUS_FAILURE)).
  { unfold Steps.generate_tests.
    destruct (test_generation_call sig_details w) as [o|[t|]] eqn:Hcall.
    - right. split; [by intros [t Ht]|].
      by apply (test_generation_call_raises sig_details w).
    - left. exists t. split; [done|]. simpl.
      apply test_generation_call_code in Hcall as [Hne _].
      apply nonempty_true in Hne. by rewrite Hne.
    - right. split; [by intros [t Ht]|]. done. }
  assert (Hrev :
    (exists review, review_call w = inr review
                    /\ recorded_status (review_code w).1 = STATUS_ADVISORY)
    \/ ((~ exists review, review_call w = inr review)
        /\ recorded_status (review_code w).1 = STATUS_FAILURE)).
  { unfold Steps.review_code.
    destruct (review_call w) as [o|review] eqn:Hcall.
    - right. split; [by intros [r Hr]|]. by apply (review_call_raises w).
    - left. by exists review. }
  split; [|split; [|split; [|split]]].
  - destruct Hgen as [(t & Ht & Hs) | [Hn Hs]]; rewrite Hs.
    + split; [intros _; eauto | done].
    + split; [discriminate | intros He; by destruct Hn].
  - destruct Hgen as [(t & Ht & Hs) | [Hn Hs]]; rewrite Hs.
    + split; [discriminate | intros Hn; destruct Hn; eauto].
    + split; [intros _; exact Hn | done].
  - done.
  - destruct Hrev as [(r & Hr & Hs) | [Hn Hs]]; rewrite Hs.
    + split; [intros _; eauto | done].
    + split; [discriminate | intros He; by destruct Hn].
  - destruct Hrev as [(r & Hr & Hs) | [Hn Hs]]; rewrite Hs.
    + split; [discriminate | intros Hn; destruct Hn; eauto].
    + split; [intros _; exact Hn | done].
Qed.

Lemma tests_details_raw_output (tests : option string) :
  tests_details tests !! "raw_output"
  = Some (match tests with Some t => PStr t | None => PNone end).
Proof. unfold tests_details. apply lookup_insert_eq. Qed.

Lemma tests_details_truthy (tests : option string) :
  truthy (Some (tests_details tests)) = true.
Proof.
  unfold truthy, tests_details. apply negb_true_iff, bool_decide_eq_false.
  apply insert_non_empty.
Qed.

(** C10. [LLMClient.generate_tests] returns code only if [ast.parse]
    accepted it. When the test-generation step returns SUCCESS with
    payload [d], the [raw_output] entry of [d] is such code, and
    [save_tests], given [d], either leaves the files as they are or
    writes exactly that code to the test file path. *)
Theorem C10_saved_tests_parse (sig_details : option Details)
    (w w1 w2 : StepWorld X) (d : Details) :
  generate_tests sig_details w = (Returned STATUS_SUCCESS d, w1) ->
  (forall code file_name sigs,
      match client_generate_tests code file_name sigs with
      | Ret (Some t) => ast_parse_ok t = true
      | _ => True
      end)
  /\ exists t,
       d !! "raw_output" = Some (PStr t)
       /\ ast_parse_ok t = true
       /\ (files (save_tests (Some d) w2).2 = files w2
           \/ files (save_tests (Some d) w2).2
              = <[ test_file_path w2 := t ]> (files w2)).
Proof.
  intros Hgen. split.
  - intros code file_name sigs.
    destruct (client_generate_tests code file_name sigs)
      as [[t|]|e cause] eqn:Hc; try done.
    by apply client_tests_valid in Hc as (_ & Hok & _).
  - unfold Steps.generate_tests in Hgen.
    destruct (test_generation_call sig_details w) as [o|[t|]] eqn:Hcall.
    + injection Hgen as Ho _. apply test_generation_call_raises in Hcall.
      rewrite Ho in Hcall. discriminate.
    + apply test_generation_call_code in Hcall as [Hne Hok].
      injection Hgen as _ Hd _. subst d.
      exists t. split; [apply (tests_details_raw_output (Some t))|].
      split; [done|].
      unfold Steps.save_tests.
      rewrite tests_details_truthy. simpl.
      rewrite (tests_details_raw_output (Some t)). simpl.
      apply nonempty_true in Hne. rewrite Hne. simpl.
      destruct (target_file_path w2); [|by left].
      destruct (write_ok _); [by right | by left].
    + simpl in Hgen. discriminate.
Qed.

(** A payload that the test-generation step returns with a status other
    than FAILURE carries code that passed [ast.parse]. *)
Lemma generate_tests_returned (sig_details : option Details) (w : StepWorld X)
    (st : Status) (d : Details) :
  (generate_tests sig_details w).1 = Returned st d ->
  st <> STATUS_FAILURE ->
  exists t, d = tests_details (Some t) /\ t <> "" /\ ast_parse_ok t = true.
Proof.
  unfold Steps.generate_tests.
  destruct (test_generation_call sig_details w) as [o|[t|]] eqn:Hcall; simpl.
  - intros -> Hst. apply test_generation_call_raises in Hcall. by simpl in Hcall.
  - intros [= <- <-] _. apply test_generation_call_code in Hcall as [Hne Hok].
    by exists t.
  - by intros [= <- <-] Hst.
Qed.

(** [save_tests] writes nothing, or the string under [raw_output] of its
    argument to the test file path. *)
Lemma save_tests_writes (arg : option Details) (w : StepWorld X) :
  files (save_tests arg w).2 = files w
  \/ exists d code,
       arg = Some d /\ d !! "raw_output" = Some (PStr code)
       /\ files (save_tests arg w).2 = <[ test_file_path w := code ]> (files w).
Proof.
  unfold Steps.save_tests.
  destruct arg as [d|]; [|by left]. simpl.
  destruct (bool_decide (d = ∅)); simpl; [by left|].
  destruct (d !! "raw_output") as [v|] eqn:Hv; [|by left].
  destruct (py_truthy v); simpl; [|by left].
  destruct (target_file_path w); [|by left].
  destruct v as [|code|z|fs]; try (by left).
  destruct (write_ok _); [|by left].
  right. by exists d, code.
Qed.

Variable other_steps :
  string -> option Details -> StepWorld X -> Outcome * StepWorld X.
Variable inherited_callable : string -> bool.
Variable ag : Orchestrator.Agent.

Abbreviation workflow_invoke :=
  (Steps.workflow_invoke Float X g c backend ast_parse_ok test_prompt
     review_prompt json_loads target_dir path_name path_stem write_ok
     other_steps).

(** In every run of the pipeline over these steps, whatever [save_tests]
    is given is the payload of a test-generation step that succeeded: it
    carries code that passed [ast.parse], and that code is all that
    [save_tests] can write. *)
Lemma run_saved_tests_parse (w : StepWorld X) (k : Call) (d : Details) :
  k ∈ Orchestrator.invoked
        (Orchestrator.final
           (Orchestrator.run (StepWorld X) workflow_invoke inherited_callable
              ag w)) ->
  call_name k = "save_tests" -> call_arg k = Some d ->
  exists t, d = tests_details (Some t) /\ t <> "" /\ ast_parse_ok t = true.
Proof.
  intros Hk Hn Ha.
  destruct (OrchestratorFacts.run_saves_generated (StepWorld X) workflow_invoke
              inherited_callable ag w) as [Hfrom Hsaves].
  destruct (Hsaves k d Hk Hn Ha) as (k' & st & Hk' & Hn' & Hout & Hst).
  destruct (Hfrom k' Hk') as [w' Hw'].
  rewrite Hn' in Hw'. unfold Steps.workflow_invoke in Hw'. simpl in Hw'.
  rewrite Hout in Hw'. symmetry in Hw'.
  by apply (generate_tests_returned (call_arg k') w' st d).
Qed.

End Workflow.

(** C9 as stated fails for the review step: with the backend down no
    usable output is extracted, [generate_review] returns [None], and the
    step still reports ADVISORY, not FAILURE. *)
Lemma C9_counterexample_review_without_output :
  ModelClient.generate_review Z Scenarios.httpx_only Scenarios.default_client
    Scenarios.backend_down Scenarios.review_template Scenarios.no_json
    "x = 1" "main.py" = Ret None
  /\ recorded_status Scenarios.review_with_backend_down.1 = STATUS_ADVISORY
  /\ recorded_status Scenarios.review_with_backend_down.1 <> STATUS_FAILURE.
Proof.
  assert (H : recorded_status Scenarios.review_with_backend_down.1
              = STATUS_ADVISORY) by (vm_compute; reflexivity).
  split; [vm_compute; reflexivity|]. split; [exact H|]. by rewrite H.
Qed.

(** C10 at a backend that answers with two Python blocks. *)
Lemma C10_saved_tests_parse_witness :
  exists d,
    Scenarios.tests_with_backend_up
    = (Returned STATUS_SUCCESS d, Scenarios.staged_world)
    /\ exists t,
         d !! "raw_output" = Some (PStr t)
         /\ Scenarios.starts_with_import t = true
         /\ (files (Steps.save_tests unit "/proj" Scenarios.stem
                      Scenarios.writable (Some d) Scenarios.staged_world).2
             = files Scenarios.staged_world
             \/ files (Steps.save_tests unit "/proj" Scenarios.stem
                         Scenarios.writable (Some d) Scenarios.staged_world).2
                = <[ Steps.test_file_path unit "/proj" Scenarios.stem
                       Scenarios.staged_world := t ]>
                    (files Scenarios.staged_world)).
Proof.
  eexists. split; [vm_compute; reflexivity|].
  refine (proj2 (C10_saved_tests_parse Z unit Scenarios.httpx_only
            Scenarios.default_client Scenarios.backend_answers
            Scenarios.starts_with_import Scenarios.test_template
            "/proj" Scenarios.base_name Scenarios.stem Scenarios.writable
            None Scenarios.staged_world Scenarios.staged_world
            Scenarios.staged_world _ _)).
  vm_compute. reflexivity.
Defined.

End StepsFacts.

(** ** The process runner and the environment manager *)

Module ProcessRunnerFacts.
Import PyStr PyStrFacts ProcessRunner.

(** A prefix without white space survives trimming. *)
Lemma prefix_rstrip (p t : string) :
  no_space p = true -> String.prefix p (rstrip (p +:+ t)) = true.
Proof.
  induction p as [|a p IH]; intros Hp.
  - change ("" +:+ t) with t. by destruct (rstrip t).
  - simpl in Hp. apply andb_true_iff in Hp as [Ha Hp].
    apply negb_true_iff in Ha.
    change (String a p +:+ t) with (String a (p +:+ t)).
    rewrite (rstrip_keep a _ Ha). simpl.
    destruct (ascii_dec a a); [by apply IH | done].
Qed.

Lemma prefix_strip (a : ascii) (p t : string) :
  no_space (String a p) = true ->
  String.prefix (String a p) (strip (String a p +:+ t)) = true.
Proof.
  intros Hp. unfold strip.
  assert (Hl : lstrip (String a p +:+ t) = String a p +:+ t).
  { simpl in Hp. apply andb_true_iff in Hp as [Ha _].
    apply negb_true_iff in Ha. simpl. by rewrite Ha. }
  rewrite Hl. by apply prefix_rstrip.
Qed.

Section Runner.

Variable Float : Type.
Variable float_le0 : Float -> bool.
Variable float_str : Float -> string.
Variable World : Type.
Variable win32 : bool.
Variable is_file_x : World -> string -> bool.
Variable is_dir : World -> string -> bool.
Variable path_exists : World -> string -> bool.
Variable which : World -> string -> option string.
Variable os_environ : World -> gmap string string.
Variable resolve : string -> string.
Variable expanduser : string -> string.
Variable quote : string -> string.
Variable subprocess_run :
  list string -> string -> gmap string string -> option Float ->
  World -> Proc * World.
Variable cfg : Config Float.
Variable sys_executable : string.

Abbreviation _find_executable :=
  (ProcessRunner._find_executable Float World win32 is_file_x is_dir which
     resolve expanduser cfg).
Abbreviation spawn :=
  (ProcessRunner.spawn Float float_le0 World win32 os_environ resolve
     subprocess_run cfg).
Abbreviation run_tool :=
  (ProcessRunner.run_tool Float float_le0 float_str World win32 is_file_x
     is_dir which os_environ resolve expanduser quote subprocess_run cfg).
Abbreviation find_venv_executable :=
  (ProcessRunner.find_venv_executable World win32 is_file_x is_dir resolve).
Abbreviation setup_venv :=
  (ProcessRunner.setup_venv Float float_le0 float_str World win32 is_file_x
     is_dir path_exists which os_environ resolve expanduser quote
     subprocess_run cfg sys_executable).
Abbreviation setup_tail :=
  (ProcessRunner.setup_tail Float float_le0 float_str World win32 is_file_x
     is_dir which os_environ resolve expanduser quote subprocess_run cfg).
Abbreviation creations := (ProcessRunner.creations sys_executable).
Abbreviation venv_create_cmd := (ProcessRunner.venv_create_cmd sys_executable).

Lemma timeout_stderr_marked (cmd_str : string) (t : option Float)
    (err : string) :
  String.prefix "TimeoutExpired:"
    (strip (timeout_marker Float float_str cmd_str t +:+ nl +:+ err))
  = true.
Proof.
  unfold timeout_marker.
  change (("TimeoutExpired: Cmd '" +:+ cmd_str +:+ "' > "
           +:+ timeout_str Float float_str t +:+ "s.") +:+ nl +:+ err)
    with ("TimeoutExpired:"
          +:+ ((" Cmd '" +:+ cmd_str +:+ "' > "
                +:+ timeout_str Float float_str t +:+ "s.")
               +:+ nl +:+ err)).
  by apply prefix_strip.
Qed.


(** The world after [run_tool]: untouched, or the one left by the
    process it started, whose arguments are those of the command. *)
Lemma run_tool_world (exec_name : string) (rest : list string)
    (cwd : string) (venv_path : option string)
    (env_vars : option (gmap string string)) (timeout : option Float)
    (w : World) :
  (run_tool (exec_name :: rest) cwd venv_path env_vars timeout w).2 = w
  \/ exists exec_path env t,
       (run_tool (exec_name :: rest) cwd venv_path env_vars timeout w).2
       = (subprocess_run (exec_path :: rest) cwd env t w).2.
Proof.
  unfold ProcessRunner.run_tool.
  destruct (_find_executable exec_name venv_path w) as [exec_path|];
    [|by left].
  right. unfold ProcessRunner.spawn.
  exists exec_path,
    (proc_env World win32 os_environ resolve venv_path env_vars w),
    (effective_timeout Float float_le0 cfg timeout).
  by destruct (subprocess_run _ _ _ _ _) as [[rc out err|cmd out err|m] w'].
Qed.

Lemma find_venv_executable_path (a b : EnvironmentManager) (n : string)
    (w : World) :
  _venv_path a = _venv_path b ->
  find_venv_executable a n w = find_venv_executable b n w.
Proof. unfold ProcessRunner.find_venv_executable. by intros ->. Qed.

Lemma find_venv_executable_dir (em : EnvironmentManager) (n p : string)
    (w : World) :
  find_venv_executable em n w = Some p -> is_dir w (_venv_path em) = true.
Proof.
  unfold ProcessRunner.find_venv_executable.
  by destruct (is_dir w (_venv_path em)).
Qed.

Lemma upgrade_is_no_creation (em : EnvironmentManager) (pip : string) :
  pip_upgrade_cmd pip <> venv_create_cmd em.
Proof. discriminate. Qed.

Lemma creations_app (em : EnvironmentManager) (a b : list (list string)) :
  creations em (a ++ b) = creations em a + creations em b.
Proof.
  unfold ProcessRunner.creations. by rewrite filter_app, length_app.
Qed.

Lemma creations_upgrade (em : EnvironmentManager) (pip : string) :
  creations em [pip_upgrade_cmd pip] = 0.
Proof.
  unfold ProcessRunner.creations.
  rewrite filter_cons_False; [done|]. apply upgrade_is_no_creation.
Qed.

Lemma creations_create (em : EnvironmentManager) :
  creations em [venv_create_cmd em] = 1.
Proof.
  unfold ProcessRunner.creations. by rewrite filter_cons_True.
Qed.

(** What a [setup_tail] that raises nothing leaves behind. *)
Lemma setup_tail_ok (em : EnvironmentManager) (w : World)
    (cmds : list (list string)) (b : bool) :
  upgrade_keeps_venv Float World win32 is_file_x is_dir resolve
    subprocess_run em ->
  raised (setup_tail em w cmds b) = None ->
  exists py pip,
    find_venv_executable em "python" w = Some py
    /\ find_venv_executable em "pip" w = Some pip
    /\ manager (setup_tail em w cmds b)
       = {| _target_dir := _target_dir em; _venv_path := _venv_path em;
            _venv_python_path := Some py; _pip_path := Some pip |}
    /\ commands (setup_tail em w cmds b) = cmds ++ [pip_upgrade_cmd pip]
    /\ reused (setup_tail em w cmds b) = b
    /\ find_venv_executable em "python" (after (setup_tail em w cmds b))
       = Some py
    /\ find_venv_executable em "pip" (after (setup_tail em w cmds b))
       = Some pip.
Proof.
  intros Hkeep. unfold ProcessRunner.setup_tail.
  destruct (find_venv_executable em "python" w) as [py|] eqn:Hpy;
    [|discriminate].
  destruct (find_venv_executable em "pip" w) as [pip|] eqn:Hpip;
    [|discriminate].
  intros _. exists py, pip.
  split; [done|]. split; [done|].
  pose proof (run_tool_world pip (tail (pip_upgrade_cmd pip))
                (_target_dir em) (Some (_venv_path em)) None
                (Some (default_tool_timeout cfg)) w) as Hw.
  change (pip :: tail (pip_upgrade_cmd pip)) with (pip_upgrade_cmd pip) in Hw.
  destruct (run_tool (pip_upgrade_cmd pip) (_target_dir em)
              (Some (_venv_path em)) None
              (Some (default_tool_timeout cfg)) w) as [res w'] eqn:Hrun.
  simpl in Hw |- *.
  split; [done|]. split; [done|]. split; [done|].
  destruct Hw as [-> | (exec_path & env & t & ->)]; [done|].
  rewrite !Hkeep; auto.
Qed.

(** C8. Setting up twice creates at most once. If the first
    [setup_venv] raises nothing, the second one, run on what the first
    left, raises nothing, takes the branch for an existing environment,
    issues no creation command and finds the same [python] and [pip];
    over both calls the environment is created exactly once when it was
    absent at the start, and never when it was present. The file system
    is assumed to count a directory as existing, and the upgrade of the
    packaging tools to leave the environment's [python] and [pip] in
    place. *)
Theorem C8_setup_venv_idempotent (em : EnvironmentManager) (w : World) :
  dir_exists World is_dir path_exists ->
  upgrade_keeps_venv Float World win32 is_file_x is_dir resolve
    subprocess_run em ->
  raised (setup_venv em w) = None ->
  raised (setup_venv (manager (setup_venv em w)) (after (setup_venv em w)))
  = None
  /\ reused (setup_venv (manager (setup_venv em w))
               (after (setup_venv em w))) = true
  /\ creations em
       (commands (setup_venv (manager (setup_venv em w))
                    (after (setup_venv em w)))) = 0
  /\ creations em
       (commands (setup_venv em w)
        ++ commands (setup_venv (manager (setup_venv em w))
                       (after (setup_venv em w))))
     = (if path_exists w (_venv_path em) then 0 else 1)
  /\ manager (setup_venv (manager (setup_venv em w))
                (after (setup_venv em w)))
     = manager (setup_venv em w).
Proof.
  intros Hdir Hkeep Hfirst.
  (* the first call, reduced to its tail *)
  assert (H1 : exists w1 cmds b,
            setup_venv em w = setup_tail em w1 cmds b
            /\ creations em cmds
               = (if path_exists w (_venv_path em) then 0 else 1)).
  { unfold ProcessRunner.setup_venv in *.
    destruct (path_exists w (_venv_path em)); cbn [negb] in *.
    - by exists w, [], true.
    - destruct (run_tool _ _ _ _ _ _) as [[res|e] w1].
      + destruct (returncode res =? 0)%Z; cbn [negb raised] in *;
          [|discriminate].
        exists w1, [venv_create_cmd em], false.
        split; [done|]. apply creations_create.
      + destruct e; discriminate. }
  destruct H1 as (w1 & cmds & b & Heq & Hcount).
  rewrite Heq in Hfirst |- *.
  destruct (setup_tail_ok em w1 cmds b Hkeep Hfirst)
    as (py & pip & _ & _ & Hm & Hcmds & _ & Hpy & Hpip).
  set (s1 := setup_tail em w1 cmds b) in *.
  assert (Hpath : _venv_path (manager s1) = _venv_path em)
    by (by rewrite Hm).
  (* the second call finds the directory *)
  assert (Hex : path_exists (after s1) (_venv_path (manager s1)) = true).
  { rewrite Hpath. apply Hdir.
    by apply (find_venv_executable_dir em "python" py). }
  assert (Hkeep2 : upgrade_keeps_venv Float World win32 is_file_x is_dir
                     resolve subprocess_run (manager s1)).
  { intros exec_path pip0 cwd env t w0 n Hn.
    rewrite !(find_venv_executable_path (manager s1) em) by done.
    by apply Hkeep. }
  assert (H2 : setup_venv (manager s1) (after s1)
               = setup_tail (manager s1) (after s1) [] true).
  { unfold ProcessRunner.setup_venv. by rewrite Hex. }
  rewrite H2.
  assert (Hr2 : raised (setup_tail (manager s1) (after s1) [] true) = None).
  { unfold ProcessRunner.setup_tail.
    rewrite !(find_venv_executable_path (manager s1) em) by done.
    rewrite Hpy, Hpip.
    by destruct (run_tool _ _ _ _ _ _). }
  destruct (setup_tail_ok (manager s1) (after s1) [] true Hkeep2 Hr2)
    as (py2 & pip2 & Hpy2 & Hpip2 & Hm2 & Hcmds2 & Hre2 & _).
  rewrite (find_venv_executable_path (manager s1) em) in Hpy2 by done.
  rewrite (find_venv_executable_path (manager s1) em) in Hpip2 by done.
  rewrite Hpy in Hpy2. rewrite Hpip in Hpip2.
  injection Hpy2 as <-. injection Hpip2 as <-.
  split; [done|]. split; [done|].
  rewrite Hcmds2, Hcmds. simpl.
  split; [apply creations_upgrade|].
  split.
  - rewrite !creations_app, !creations_upgrade, Hcount. lia.
  - rewrite Hm2, Hm. done.
Qed.

End Runner.

(** C8 on a machine where the environment is absent at first: the first
    setup creates it, the second reuses it. *)
Lemma C8_setup_venv_idempotent_witness :
  dir_exists bool Scenarios.m_is_dir Scenarios.m_path_exists
  /\ upgrade_keeps_venv Z bool false Scenarios.m_is_file_x Scenarios.m_is_dir
       Scenarios.m_id Scenarios.m_subprocess_run Scenarios.m_manager
  /\ raised (Scenarios.m_setup_venv Scenarios.m_manager false) = None
  /\ raised (Scenarios.m_setup_venv
               (manager (Scenarios.m_setup_venv Scenarios.m_manager false))
               (after (Scenarios.m_setup_venv Scenarios.m_manager false)))
     = None
  /\ reused (Scenarios.m_setup_venv
               (manager (Scenarios.m_setup_venv Scenarios.m_manager false))
               (after (Scenarios.m_setup_venv Scenarios.m_manager false)))
     = true
  /\ ProcessRunner.creations "/usr/bin/python3" Scenarios.m_manager
       (commands (Scenarios.m_setup_venv Scenarios.m_manager false)
        ++ commands
             (Scenarios.m_setup_venv
                (manager (Scenarios.m_setup_venv Scenarios.m_manager false))
                (after (Scenarios.m_setup_venv Scenarios.m_manager false))))
     = 1.
Proof.
  assert (Hdir : dir_exists bool Scenarios.m_is_dir Scenarios.m_path_exists).
  { intros w p Hd. unfold Scenarios.m_path_exists. by rewrite Hd. }
  assert (Hkeep : upgrade_keeps_venv Z bool false Scenarios.m_is_file_x
                    Scenarios.m_is_dir Scenarios.m_id
                    Scenarios.m_subprocess_run Scenarios.m_manager).
  { intros exec_path pip cwd env t w n Hn. reflexivity. }
  assert (Hfirst : raised (Scenarios.m_setup_venv Scenarios.m_manager false)
                   = None) by (vm_compute; reflexivity).
  split; [exact Hdir|]. split; [exact Hkeep|]. split; [exact Hfirst|].
  destruct (C8_setup_venv_idempotent Z (fun t => (t <=? 0)%Z) pretty bool
              false Scenarios.m_is_file_x Scenarios.m_is_dir
              Scenarios.m_path_exists Scenarios.m_which Scenarios.m_environ
              Scenarios.m_id Scenarios.m_id Scenarios.m_id
              Scenarios.m_subprocess_run Scenarios.m_cfg "/usr/bin/python3"
              Scenarios.m_manager false Hdir Hkeep Hfirst)
    as (H1 & H2 & _ & H4 & _).
  split; [exact H1|]. split; [exact H2|]. exact H4.
Defined.

End ProcessRunnerFacts.

(** ** The loop of [run] against the configured list *)

Module PipelineFacts.
Import Orchestrator OrchestratorFacts Pipeline.

Section Run.

Variable World : Type.
Variable invoke : string -> option Details -> World -> Outcome * World.
Variable inherited_callable : string -> bool.
Variable ag : Agent.

Abbreviation RunState := (RunState World).
Abbreviation _execute_step := (_execute_step World invoke).
Abbreviation run_loop := (run_loop World invoke inherited_callable ag).
Abbreviation run := (run World invoke inherited_callable ag).
Abbreviation called := (called inherited_callable ag).

Lemma last_cons_some {A : Type} (x y : A) (l : list A) :
  last l = Some y -> last (x :: l) = Some y.
Proof. destruct l; [discriminate | done]. Qed.

Lemma only_last_singleton {A : Type} (P : A -> Prop) (x : A) :
  only_last P [x].
Proof.
  intros pre y post Heq _. destruct pre as [|z pre]; [by injection Heq|].
  injection Heq as _ Heq. by destruct pre.
Qed.

Lemma only_last_cons {A : Type} (P : A -> Prop) (x : A) (l : list A) :
  ~ P x -> only_last P l -> only_last P (x :: l).
Proof.
  intros Hx Hl pre y post Heq Hy. destruct pre as [|z pre].
  - injection Heq as -> _. contradiction.
  - injection Heq as _ Heq. by apply (Hl pre y post).
Qed.

Lemma only_last_fmap {A B : Type} (f : A -> B) (P : B -> Prop) (l : list A) :
  only_last P (f <$> l) -> only_last (fun x => P (f x)) l.
Proof.
  intros Hl pre x post -> Hx.
  rewrite fmap_app, fmap_cons in Hl.
  specialize (Hl _ _ _ eq_refl Hx). by apply fmap_nil_inv in Hl.
Qed.

Lemma filter_split {A : Type} (Q : A -> Prop) `{forall x, Decision (Q x)}
    (l a b : list A) (x : A) :
  filter Q l = a ++ x :: b ->
  exists l1 l2, l = l1 ++ x :: l2 /\ filter Q l2 = b.
Proof.
  revert a. induction l as [|y l IH]; intros a Heq.
  - by destruct a.
  - destruct (decide (Q y)) as [Hy | Hy].
    + rewrite filter_cons_True in Heq by done.
      destruct a as [|z a].
      * injection Heq as -> Heq. by exists [], l.
      * injection Heq as _ Heq. destruct (IH a Heq) as (l1 & l2 & -> & Hb).
        by exists (y :: l1), l2.
    + rewrite filter_cons_False in Heq by done.
      destruct (IH a Heq) as (l1 & l2 & -> & Hb).
      by exists (y :: l1), l2.
Qed.

Lemma only_last_filter {A : Type} (P Q : A -> Prop)
    `{forall x, Decision (Q x)} (l : list A) :
  only_last P l -> only_last P (filter Q l).
Proof.
  intros Hl pre x post Heq Hx.
  destruct (filter_split Q l pre post x Heq) as (l1 & l2 & -> & <-).
  by rewrite (Hl l1 x l2 eq_refl Hx).
Qed.

Lemma called_skipped (n : string) :
  skipped_by_mode ag n = true -> called n <> true.
Proof.
  unfold Pipeline.called. intros ->. rewrite andb_false_r. discriminate.
Qed.

(** The loop records the configured names one by one, up to the place
    where it is left, and calls the step function for those of them
    that are valid and not skipped by the mode flags. A loop that ends
    without failure has gone through the whole list or, in review-only
    mode, up to a review; in that mode nothing follows a review. *)
Lemma run_loop_names (names : list string) :
  forall s : RunState, clean s ->
  exists k,
    name <$> steps (run_loop names s) = (name <$> steps s) ++ take k names
    /\ call_name <$> invoked (run_loop names s)
       = (call_name <$> invoked s)
         ++ filter (fun n => called n = true) (take k names)
    /\ (overall_success (run_loop names s) = true ->
        take k names = names
        \/ (review_only ag = true
            /\ last (take k names) = Some "review_code"))
    /\ (review_only ag = true ->
        only_last (fun n => n = "review_code") (take k names)).
Proof.
  induction names as [|n rest IH]; intros s Hc.
  - exists 0. simpl. rewrite !app_nil_r. split; [done|]. split; [done|].
    split; [intros _; by left|]. intros _ pre x post Heq. by destruct pre.
  - simpl.
    destruct (callable_step inherited_callable n) eqn:Hcall; simpl.
    2: { exists 1. change (take 1 (n :: rest)) with [n]. simpl.
         rewrite fmap_app. split; [done|]. split; [|split].
         - rewrite filter_cons_False, filter_nil, app_nil_r; [done|].
           unfold Pipeline.called. by rewrite Hcall.
         - discriminate.
         - intros _. apply only_last_singleton. }
    destruct (String.eqb n "run_precommit" && review_only ag) eqn:Hrp.
    { apply andb_true_iff in Hrp as [Hn Hro].
      apply String.eqb_eq in Hn. subst n.
      destruct (IH (_add_step_result_custom World "run_precommit"
                      STATUS_SKIPPED (msg "Skipped: --review-only active.")
                      None s)) as (k & Hn & Hi & Ho & Hl).
      { destruct Hc as [Hc1 Hc2]. split; [done|].
        apply Forall_passes_snoc. split; [done|]. by unfold passes. }
      exists (S k). simpl in Hn, Hi.
      change (take (S k) (?x :: rest)) with (x :: take k rest).
      rewrite Hn, Hi, fmap_app, <- app_assoc. split; [done|].
      split; [|split].
      - rewrite filter_cons_False; [done|]. apply called_skipped.
        unfold skipped_by_mode. by rewrite Hro.
      - intros Hs. destruct (Ho Hs) as [-> | [H1 H2]]; [by left|].
        right. split; [done|]. by apply last_cons_some.
      - intros _. apply only_last_cons; [discriminate | by apply Hl]. }
    destruct (String.eqb n "commit_changes" && negb (do_commit ag)) eqn:Hcc.
    { apply andb_true_iff in Hcc as [Hn Hdc].
      apply String.eqb_eq in Hn. subst n.
      destruct (IH (set_commit_attempted World false
                      (_add_step_result_custom World "commit_changes"
                         STATUS_SKIPPED
                         (msg ("Skipped: " +:+ skip_reason ag +:+ "."))
                         None s))) as (k & Hn & Hi & Ho & Hl).
      { destruct Hc as [Hc1 Hc2]. split; [done|]. simpl.
        apply Forall_passes_snoc. split; [done|]. by unfold passes. }
      exists (S k). simpl in Hn, Hi.
      change (take (S k) (?x :: rest)) with (x :: take k rest).
      rewrite Hn, Hi, fmap_app, <- app_assoc. split; [done|].
      split; [|split].
      - rewrite filter_cons_False; [done|]. apply called_skipped.
        unfold skipped_by_mode. by rewrite Hdc.
      - intros Hs. destruct (Ho Hs) as [-> | [H1 H2]]; [by left|].
        right. split; [done|]. by apply last_cons_some.
      - intros Hro. apply only_last_cons; [discriminate | by apply Hl]. }
    assert (Hcalled : called n = true).
    { unfold Pipeline.called, skipped_by_mode.
      by rewrite Hcall, Hrp, Hcc. }
    destruct (execute_step_clean World invoke n (dependency_arg World n s) s Hc)
      as (r & c & Hsteps & Hname & Hinv & Hcn & _ & _ & _ & Htrue & Hfalse).
    destruct (_execute_step n (dependency_arg World n s) s)
      as [ok s1] eqn:Hex. simpl in *.
    assert (Hone :
      name <$> steps s1 = (name <$> steps s) ++ [n]
      /\ call_name <$> invoked s1
         = (call_name <$> invoked s)
           ++ filter (fun n => called n = true) [n]).
    { rewrite Hsteps, Hinv, !fmap_app. simpl. rewrite Hname, Hcn.
      split; [done|]. by rewrite filter_cons_True, filter_nil. }
    destruct Hone as [Hn1 Hi1].
    destruct ok; simpl.
    + destruct (Htrue eq_refl) as [Hr Hc1].
      destruct (String.eqb n "review_code" && review_only ag) eqn:Hrv.
      * apply andb_true_iff in Hrv as [Hn Hro].
        apply String.eqb_eq in Hn.
        exists 1. rewrite Hsteps, last_snoc_result.
        apply status_eqb_false in Hr. rewrite Hr.
        change (take 1 (n :: rest)) with [n].
        split; [done|]. split; [done|].
        split; [|intros _; apply only_last_singleton].
        intros _. right. split; [done|]. by rewrite Hn.
      * destruct (IH s1 Hc1) as (k & Hn & Hi & Ho & Hl).
        exists (S k). change (take (S k) (n :: rest)) with (n :: take k rest).
        rewrite Hn, Hi, Hn1, Hi1, <- !app_assoc.
        split; [done|]. split; [|split].
        -- change (n :: take k rest) with ([n] ++ take k rest).
           by rewrite filter_app.
        -- intros Hs. destruct (Ho Hs) as [-> | [H1 H2]]; [by left|].
           right. split; [done|]. by apply last_cons_some.
        -- intros Hro. apply only_last_cons; [|by apply Hl].
           intros ->. by rewrite Hro in Hrv.
    + exists 1. change (take 1 (n :: rest)) with [n].
      split; [done|]. split; [done|].
      split; [|intros _; apply only_last_singleton].
      destruct (Hfalse eq_refl) as [_ Ho]. rewrite Ho. discriminate.
Qed.

(** X1. When steps are configured, the names of the recorded results are
    an initial part of the configured list, in its order, and the step
    functions called are, in the same order, the recorded names that are
    valid and not skipped by the mode flags. *)
Theorem run_follows_configuration (w : World) :
  get_validation_steps ag <> [] ->
  name <$> report_steps (run w) `prefix_of` get_validation_steps ag
  /\ call_name <$> invoked (final (run w))
     = filter (fun n => called n = true) (name <$> report_steps (run w)).
Proof.
  intros Hcfg. unfold Orchestrator.run.
  destruct (get_validation_steps ag) as [|n rest] eqn:Hnames; [done|].
  cbn [report_steps final _generate_and_print_final_report].
  destruct (run_loop_names (n :: rest) _ (initial_clean World ag w))
    as (k & Hn & Hi & _ & _).
  rewrite Hn, Hi. simpl. split; [apply prefix_take | done].
Qed.

(** X2. A run that exits with code 0 has recorded a result for every
    configured step, in the configured order, unless it is a
    review-only run that ended with the review. *)
Theorem successful_run_covers_configuration (w : World) :
  exit_code (run w) = 0%Z ->
  name <$> report_steps (run w) = get_validation_steps ag
  \/ (review_only ag = true
      /\ last (name <$> report_steps (run w)) = Some "review_code").
Proof.
  unfold Orchestrator.run.
  destruct (get_validation_steps ag) as [|n rest] eqn:Hnames; [done|].
  cbn [report_steps exit_code _generate_and_print_final_report].
  destruct (run_loop_names (n :: rest) _ (initial_clean World ag w))
    as (k & Hn & _ & Ho & _).
  intros Hexit. rewrite Hn. simpl (name <$> _).
  change ([] ++ ?l) with l. apply Ho.
  by destruct (overall_success _).
Qed.

(** X3. In review-only mode a call of [review_code] is the last call of
    the run and a result recorded for [review_code] is the last result:
    the loop is left after the review whatever its outcome. *)
Theorem review_only_ends_with_review (w : World) :
  review_only ag = true ->
  only_last (fun c => call_name c = "review_code") (invoked (final (run w)))
  /\ only_last (fun r => name r = "review_code") (report_steps (run w)).
Proof.
  intros Hro. unfold Orchestrator.run.
  destruct (get_validation_steps ag) as [|n rest] eqn:Hnames.
  - simpl. split.
    + intros pre x post Heq. by destruct pre.
    + intros pre x post Heq Hx. destruct pre as [|y pre].
      * by injection Heq as <- <-.
      * injection Heq as _ Heq. by destruct pre.
  - cbn [report_steps final _generate_and_print_final_report].
    destruct (run_loop_names (n :: rest) _ (initial_clean World ag w))
      as (k & Hn & Hi & _ & Hl).
    specialize (Hl Hro). split.
    + apply (only_last_fmap call_name (fun n => n = "review_code")).
      rewrite Hi. by apply (only_last_filter _ _ (take k (n :: rest))).
    + apply (only_last_fmap name (fun n => n = "review_code")).
      rewrite Hn. exact Hl.
Qed.

Lemma elem_of_app_singleton {A : Type} (l : list A) (x y : A) :
  y ∈ l ++ [x] <-> y ∈ l \/ y = x.
Proof. rewrite elem_of_app, list_elem_of_singleton. done. Qed.

(** X4. Without commit intent, as under [--no-commit], the step function
    [commit_changes] is never called, whatever is recorded under its name
    is the SKIPPED result with the reason of the skip, and the report
    says that no commit was attempted. *)
Theorem no_commit_intent_never_commits (w : World) :
  do_commit ag = false ->
  (forall c, c ∈ invoked (final (run w)) -> call_name c <> "commit_changes")
  /\ (forall r, r ∈ report_steps (run w) -> name r = "commit_changes" ->
        status r = STATUS_SKIPPED
        /\ details r = Some (msg ("Skipped: " +:+ skip_reason ag +:+ ".")))
  /\ report_commit_attempted (run w) = false.
Proof.
  intros Hdc. unfold Orchestrator.run.
  destruct (get_validation_steps ag) as [|n rest] eqn:Hnames.
  - cbn. rewrite Hdc. split; [intros c Hc; by apply elem_of_nil in Hc|].
    split; [|done]. intros r Hr Hn.
    apply list_elem_of_singleton in Hr. by subst r.
  - cbn [report_steps final report_commit_attempted
           _generate_and_print_final_report].
    rewrite Hdc. split; [|split; [|done]].
    + destruct (run_loop_names (n :: rest) _ (initial_clean World ag w))
        as (k & _ & Hi & _ & _).
      intros c Hc Hn. apply (list_elem_of_fmap_2 call_name) in Hc.
      rewrite Hi, Hn in Hc. change ((call_name <$> _) ++ ?l) with l in Hc.
      apply list_elem_of_filter in Hc as [Hc _].
      apply (called_skipped "commit_changes"); [|done].
      unfold skipped_by_mode. by rewrite Hdc.
    + assert (Hsnoc : forall (s s' : RunState) r0,
                (forall r, r ∈ steps s -> name r = "commit_changes" ->
                   status r = STATUS_SKIPPED
                   /\ details r
                      = Some (msg ("Skipped: " +:+ skip_reason ag +:+ "."))) ->
                steps s' = steps s ++ [r0] ->
                (name r0 = "commit_changes" ->
                   status r0 = STATUS_SKIPPED
                   /\ details r0
                      = Some (msg ("Skipped: " +:+ skip_reason ag +:+ "."))) ->
                forall r, r ∈ steps s' -> name r = "commit_changes" ->
                  status r = STATUS_SKIPPED
                  /\ details r
                     = Some (msg ("Skipped: " +:+ skip_reason ag +:+ "."))).
      { intros s s' r0 Hs Hsteps Hr0 r Hr. rewrite Hsteps in Hr.
        apply elem_of_app_singleton in Hr as [Hr | ->]; [by apply Hs | done]. }
      assert (Hexec : forall (s : RunState) n0,
                clean s ->
                (forall r, r ∈ steps s -> name r = "commit_changes" ->
                   status r = STATUS_SKIPPED
                   /\ details r
                      = Some (msg ("Skipped: " +:+ skip_reason ag +:+ "."))) ->
                ~ (n0 = "commit_changes" /\ do_commit ag = false) ->
                forall r,
                  r ∈ steps (_execute_step n0 (dependency_arg World n0 s) s).2 ->
                  name r = "commit_changes" ->
                  status r = STATUS_SKIPPED
                  /\ details r
                     = Some (msg ("Skipped: " +:+ skip_reason ag +:+ "."))).
      { intros s n0 Hc Hs Hn0.
        destruct (execute_step_clean World invoke n0
                    (dependency_arg World n0 s) s Hc)
          as (r0 & c & Hsteps & Hname & _).
        apply (Hsnoc s _ r0 Hs Hsteps). rewrite Hname. intros ->.
        by destruct Hn0. }
      apply (run_loop_rule World invoke inherited_callable ag
               (fun s => forall r, r ∈ steps s -> name r = "commit_changes" ->
                  status r = STATUS_SKIPPED
                  /\ details r
                     = Some (msg ("Skipped: " +:+ skip_reason ag +:+ ".")))
               (fun s => forall r, r ∈ steps s -> name r = "commit_changes" ->
                  status r = STATUS_SKIPPED
                  /\ details r
                     = Some (msg ("Skipped: " +:+ skip_reason ag +:+ "."))));
        [ | | | | | | apply initial_clean | ].
      * by intros s _ Hs.
      * intros s n0 _ Hs Hcall.
        eapply Hsnoc; [exact Hs | reflexivity |]. simpl. intros ->.
        by rewrite (mutating_is_method inherited_callable "commit_changes")
          in Hcall by (by right).
      * intros s _ Hs _. eapply Hsnoc; [exact Hs | reflexivity | done].
      * intros s _ Hs _. eapply Hsnoc; [exact Hs | reflexivity | done].
      * intros s n0 Hc Hs _ _ Hn0 _. by apply Hexec.
      * intros s n0 Hc Hs _ _ Hn0 _. by apply Hexec.
      * intros r Hr. by apply elem_of_nil in Hr.
Qed.

Lemma snoc_split {A : Type} (l pre post : list A) (x c : A) :
  l ++ [c] = pre ++ x :: post ->
  (post = [] /\ pre = l /\ x = c)
  \/ exists post', post = post' ++ [c] /\ l = pre ++ x :: post'.
Proof.
  intros Heq. destruct post as [|y post _] using rev_ind.
  - left. by apply app_inj_tail in Heq as [-> ->].
  - right. exists post.
    rewrite app_comm_cons, app_assoc in Heq.
    by apply app_inj_tail in Heq as [-> ->].
Qed.

Lemma producer_dependency (n : string) (s : RunState) (d : Details) :
  dependency_arg World n s = Some d ->
  exists p r,
    producer n = Some p /\ step_outputs s !! p = Some r /\ details r = Some d.
Proof.
  unfold dependency_arg, producer, output_details.
  destruct (String.eqb n "generate_tests").
  { destruct (step_outputs s !! "extract_signatures") as [r|] eqn:Hr;
      [|discriminate]. intros Hd. by exists "extract_signatures", r. }
  destruct (String.eqb n "save_tests").
  { destruct (step_outputs s !! "generate_tests") as [r|] eqn:Hr;
      [|discriminate]. intros Hd. by exists "generate_tests", r. }
  destruct (String.eqb n "execute_tests"); [|discriminate].
  destruct (step_outputs s !! "save_tests") as [r|] eqn:Hr;
    [|discriminate]. intros Hd. by exists "save_tests", r.
Qed.

Lemma execute_step_arguments (n : string) (s : RunState) :
  clean s -> arguments_produced (invoked s) -> outputs_known s ->
  arguments_produced (invoked (_execute_step n (dependency_arg World n s) s).2)
  /\ ((_execute_step n (dependency_arg World n s) s).1 = true ->
      outputs_known (_execute_step n (dependency_arg World n s) s).2).
Proof.
  intros Hc Hargs Hknown.
  destruct (execute_step_outputs World invoke n (dependency_arg World n s) s Hc)
    as (c & Hinv & Hname & Harg & _ & Hcases).
  rewrite Hinv. split.
  - intros pre x post d Heq Hd.
    apply snoc_split in Heq as [(-> & -> & ->) | (post' & -> & Heq)];
      [|by apply (Hargs pre x post' d)].
    rewrite Harg in Hd.
    destruct (truthy (dependency_arg World n s)) eqn:Ht; [|discriminate].
    rewrite Hd in Ht. simpl in Ht. apply negb_true_iff in Ht.
    apply bool_decide_eq_false in Ht. split; [exact Ht|].
    destruct (producer_dependency n s d Hd) as (p & r & Hp & Hr & Hdr).
    destruct (Hknown p r Hr) as (c' & st & d' & Hc' & Hcn & Hout & Hst & Hd').
    exists p, c', st. rewrite Hname. split; [done|]. split; [done|].
    split; [done|]. split; [congruence | done].
  - intros Hok p r Hr.
    destruct Hcases as [(st & d & Hret & Hb & Hso) | [Hb _]]; [|congruence].
    rewrite Hso in Hr. rewrite Hinv.
    destruct (decide (n = p)) as [<- | Hne].
    + rewrite lookup_insert_eq in Hr. injection Hr as <-.
      exists c, st, d. split; [apply elem_of_app_singleton; by right|].
      split; [done|]. split; [done|]. split; [|done].
      rewrite Hb in Hok. by apply negb_true_iff, status_eqb_false in Hok.
    + rewrite lookup_insert_ne in Hr by done.
      destruct (Hknown p r Hr) as (c' & st' & d' & Hc' & H').
      exists c', st', d'. split; [apply elem_of_app_singleton; by left | done].
Qed.

(** X5. In every run an argument is handed only to [generate_tests],
    [save_tests] and [execute_tests]; it is never empty, and it is the
    payload that an earlier call of the producing step
    ([extract_signatures], [generate_tests], [save_tests]) returned with
    a status other than FAILURE. *)
Theorem run_arguments_produced (w : World) :
  arguments_produced (invoked (final (run w))).
Proof.
  unfold Orchestrator.run.
  destruct (get_validation_steps ag) as [|n rest] eqn:Hnames.
  - simpl. intros pre c post d Heq. by destruct pre.
  - cbn [final _generate_and_print_final_report].
    apply (run_loop_rule World invoke inherited_callable ag
             (fun s => arguments_produced (invoked s) /\ outputs_known s)
             (fun s => arguments_produced (invoked s)));
      [ | | | | | | apply initial_clean | ].
    + by intros s _ [H1 _].
    + by intros s n0 _ [H1 _] _.
    + by intros s _ H _.
    + by intros s _ H _.
    + intros s n0 Hc [H1 H2] _ _ _ Hok.
      destruct (execute_step_arguments n0 s Hc H1 H2) as [? ?]. auto.
    + intros s n0 Hc [H1 H2] _ _ _ _.
      by destruct (execute_step_arguments n0 s Hc H1 H2) as [? _].
    + split.
      * intros pre c post d Heq. by destruct pre.
      * intros p r Hr. simpl in Hr. by rewrite lookup_empty in Hr.
Qed.

End Run.
Lemma run_follows_configuration_witness :
  get_validation_steps Cases.plain_agent <> []
  /\ name <$> report_steps (Cases.run_of Cases.plain_agent)
       `prefix_of` get_validation_steps Cases.plain_agent
  /\ call_name <$> invoked (final (Cases.run_of Cases.plain_agent))
     = filter (fun n => called Scenarios.no_inherited Cases.plain_agent n = true)
         (name <$> report_steps (Cases.run_of Cases.plain_agent)).
Proof.
  split; [discriminate|].
  apply (run_follows_configuration unit Scenarios.all_pass
           Scenarios.no_inherited Cases.plain_agent tt).
  discriminate.
Defined.

Lemma successful_run_covers_configuration_witness :
  exit_code (Cases.run_of Cases.plain_agent) = 0%Z
  /\ (name <$> report_steps (Cases.run_of Cases.plain_agent)
      = get_validation_steps Cases.plain_agent
      \/ (review_only Cases.plain_agent = true
          /\ last (name <$> report_steps (Cases.run_of Cases.plain_agent))
             = Some "review_code")).
Proof.
  split; [reflexivity|].
  apply (successful_run_covers_configuration unit
           Scenarios.all_pass Scenarios.no_inherited Cases.plain_agent tt).
  reflexivity.
Defined.

Lemma review_only_ends_with_review_witness :
  review_only Cases.review_only_agent = true
  /\ only_last (fun c => call_name c = "review_code")
       (invoked (final (Cases.run_of Cases.review_only_agent)))
  /\ only_last (fun r => name r = "review_code")
       (report_steps (Cases.run_of Cases.review_only_agent)).
Proof.
  split; [reflexivity|].
  apply (review_only_ends_with_review unit Scenarios.all_pass
           Scenarios.no_inherited Cases.review_only_agent tt).
  reflexivity.
Defined.

Lemma no_commit_intent_never_commits_witness :
  do_commit Cases.no_commit_agent = false
  /\ (forall c, c ∈ invoked (final (Cases.run_of Cases.no_commit_agent)) ->
        call_name c <> "commit_changes")
  /\ (forall r, r ∈ report_steps (Cases.run_of Cases.no_commit_agent) ->
        name r = "commit_changes" ->
        status r = STATUS_SKIPPED
        /\ details r = Some (msg "Skipped: --no-commit active."))
  /\ report_commit_attempted (Cases.run_of Cases.no_commit_agent) = false.
Proof.
  split; [reflexivity|].
  apply (no_commit_intent_never_commits unit Scenarios.all_pass
           Scenarios.no_inherited Cases.no_commit_agent tt).
  reflexivity.
Defined.

End PipelineFacts.

(** ** The retry loop of the model client *)

Module RetryFacts.
Import PyStr ModelClient.

Section Loop.

Variable Float : Type.
Variable g : Globals.
Variable c : LLMClient Float.
Variable backend : nat -> Attempt.

Abbreviation try_block := (try_block Float g c backend).
Abbreviation attempts := (attempts Float g c backend).
Abbreviation _call_api := (_call_api Float g c backend).

(** Only an attempt that posted a request can be retried. *)
Lemma retry_has_posted (i : nat) (e : PyExc) (cause : option PyExc)
    (posted : bool) :
  try_block i = (Raise e cause, posted) -> except_clauses g e = HRetry ->
  posted = true.
Proof.
  unfold ModelClient.try_block, except_clauses.
  destruct (http_client c || bool_decide (HTTP_LIB g = Some Requests)).
  - destruct (backend i) as [[[|a err]|] [r|] | e0]; intros H; by injection H.
  - intros H. injection H as <- _ <-.
    by destruct (negb (httpx_bound g)), (negb (requests_bound g)).
Qed.

Lemma attempts_bounds (n : nat) :
  forall attempt last_exc (t : Trace Float),
  exists k,
    sleeps (attempts n attempt last_exc t).2
    = sleeps t ++ replicate k (_retry_delay c)
    /\ posts t + k <= posts (attempts n attempt last_exc t).2
    /\ posts (attempts n attempt last_exc t).2 <= posts t + n
    /\ (Z.of_nat k <= Z.max 0 (_retries c - Z.of_nat attempt))%Z.
Proof.
  induction n as [|n IH]; intros attempt last_exc t.
  - exists 0. simpl. rewrite app_nil_r. repeat split; lia.
  - simpl. destruct (try_block attempt) as [r posted] eqn:Htry.
    destruct r as [json_resp | e cause].
    { exists 0. simpl. rewrite app_nil_r.
      destruct posted; repeat split; lia. }
    destruct (except_clauses g e) eqn:Hh.
    + pose proof (retry_has_posted attempt e cause posted Htry Hh) as ->.
      destruct (Z.of_nat attempt <? _retries c)%Z eqn:Hlt.
      * destruct (IH (S attempt) (Some e)
                    (sleep Float (_retry_delay c) (count_post Float true t)))
          as (k & Hs & Hp1 & Hp2 & Hk).
        exists (S k). rewrite Hs. simpl in *.
        rewrite <- app_assoc. split; [done|].
        apply Z.ltb_lt in Hlt. repeat split; lia.
      * destruct (IH (S attempt) (Some e) (count_post Float true t))
          as (k & Hs & Hp1 & Hp2 & Hk).
        exists k. rewrite Hs. simpl in *. split; [done|].
        apply Z.ltb_ge in Hlt. repeat split; lia.
    + exists 0. simpl. rewrite app_nil_r.
      destruct posted; repeat split; lia.
    + exists 0. simpl. rewrite app_nil_r.
      destruct posted; repeat split; lia.
Qed.

(** X6. Whatever the module state, the client settings and the
    backend, one call of [_call_api] posts at most [_retries + 1]
    requests, sleeps at most [_retries] times, never more often than it
    has posted, and always for [_retry_delay]. With a negative retry
    count the loop body never runs: given an HTTP library, the call
    raises [ScribeApiError] with the text of [None], without cause and
    without a request. *)
Theorem call_api_bounds :
  posts _call_api.2 <= Z.to_nat (_retries c + 1)
  /\ length (sleeps _call_api.2) <= posts _call_api.2
  /\ (Z.of_nat (length (sleeps _call_api.2)) <= Z.max 0 (_retries c))%Z
  /\ Forall (fun d => d = _retry_delay c) (sleeps _call_api.2)
  /\ (HTTP_LIB_AVAILABLE g = true -> (_retries c < 0)%Z ->
      _call_api
      = (Raise (ScribeApiError "Ollama call failed definitively: None") None,
         {| posts := 0; sleeps := [] |})).
Proof.
  assert (Hmain :
    posts _call_api.2 <= Z.to_nat (_retries c + 1)
    /\ length (sleeps _call_api.2) <= posts _call_api.2
    /\ (Z.of_nat (length (sleeps _call_api.2)) <= Z.max 0 (_retries c))%Z
    /\ Forall (fun d => d = _retry_delay c) (sleeps _call_api.2)).
  { unfold ModelClient._call_api.
    destruct (negb (HTTP_LIB_AVAILABLE g)).
    - simpl. split; [lia|]. split; [lia|]. split; [lia|]. by apply Forall_nil.
    - destruct (attempts_bounds (Z.to_nat (_retries c + 1)) 0 None
                  {| posts := 0; sleeps := [] |}) as (k & Hs & Hp1 & Hp2 & Hk).
      rewrite Hs. simpl in *. rewrite length_replicate.
      split; [lia|]. split; [lia|]. split; [lia|].
      apply Forall_forall. intros x Hx.
      by apply elem_of_replicate in Hx as [-> _]. }
  destruct Hmain as (H1 & H2 & H3 & H4).
  split; [done|]. split; [done|]. split; [done|]. split; [done|].
  intros Hlib Hneg. unfold ModelClient._call_api. rewrite Hlib. simpl.
  replace (Z.to_nat (_retries c + 1)) with 0 by lia. reflexivity.
Qed.

Lemma attempts_returned (n : nat) :
  forall attempt last_exc (t : Trace Float) (r : string),
  (attempts n attempt last_exc t).1 = Ret r ->
  exists i err,
    attempt <= i < attempt + n
    /\ backend i = Answered err (Some r)
    /\ (err = None \/ err = Some "")
    /\ posts (attempts n attempt last_exc t).2 = posts t + S (i - attempt).
Proof.
  induction n as [|n IH]; intros attempt last_exc t r; [discriminate|].
  simpl. destruct (try_block attempt) as [res posted] eqn:Htry.
  destruct res as [json_resp | e cause].
  - simpl. intros [= ->]. revert Htry. unfold ModelClient.try_block.
    destruct (http_client c || bool_decide (HTTP_LIB g = Some Requests));
      [|discriminate].
    destruct (backend attempt) as [[[|a err]|] [r0|] | e0] eqn:Hb;
      intros [= <- <-].
    + exists attempt, (Some ""). rewrite Hb. simpl.
      repeat split; try lia; auto.
    + exists attempt, None. rewrite Hb. simpl.
      repeat split; try lia; auto.
  - destruct (except_clauses g e) eqn:Hh; [|discriminate..].
    pose proof (retry_has_posted attempt e cause posted Htry Hh) as ->.
    intros Hret.
    destruct (IH _ _ _ _ Hret) as (i & err & Hi & Hb & Herr & Hp).
    exists i, err. split; [lia|]. split; [done|]. split; [done|].
    rewrite Hp. destruct (Z.of_nat attempt <? _retries c)%Z; simpl; lia.
Qed.

(** X7. What [_call_api] returns is the [response] entry of the answer to
    one of its attempts, an answer without error text; the attempts
    before it were all posted, and none after it. *)
Theorem call_api_returns_an_answer (r : string) :
  _call_api.1 = Ret r ->
  exists i err,
    (Z.of_nat i <= _retries c)%Z
    /\ backend i = Answered err (Some r)
    /\ (err = None \/ err = Some "")
    /\ posts _call_api.2 = S i.
Proof.
  unfold ModelClient._call_api.
  destruct (negb (HTTP_LIB_AVAILABLE g)); [discriminate|].
  intros Hret.
  destruct (attempts_returned _ _ _ _ _ Hret) as (i & err & Hi & Hb & He & Hp).
  exists i, err. split; [lia|]. split; [done|]. split; [done|].
  rewrite Hp. simpl. lia.
Qed.

End Loop.

Lemma call_api_returns_an_answer_witness :
  (_call_api Z Scenarios.both_bound Scenarios.default_client
     Cases.answers_second).1 = Ret "ok"
  /\ exists i err,
       (Z.of_nat i <= _retries Scenarios.default_client)%Z
       /\ Cases.answers_second i = Answered err (Some "ok")
       /\ (err = None \/ err = Some "")
       /\ posts (_call_api Z Scenarios.both_bound Scenarios.default_client
                   Cases.answers_second).2 = S i.
Proof.
  split; [reflexivity|].
  apply (call_api_returns_an_answer Z Scenarios.both_bound
           Scenarios.default_client Cases.answers_second "ok").
  reflexivity.
Defined.

End RetryFacts.

(** ** What leaves the generation methods of the model client *)

Module GenerationFacts.
Import PyStr ModelClient.

Section Generation.

Variable Float : Type.
Variable g : Globals.
Variable c : LLMClient Float.
Variable backend : string -> option string -> nat -> Attempt.
Variable ast_parse_ok : string -> bool.
Variable test_prompt : string -> string -> string -> Formatted.
Variable review_prompt : string -> string -> Formatted.
Variable json_loads : string -> ReviewJson.


End Generation.

End GenerationFacts.

(** ** The scan for fenced blocks *)

Module FenceScanFacts.
Import PyStr PyText Fence FenceScan.

Lemma after_prefix_Some (pat s rest : string) :
  after_prefix pat s = Some rest -> s = pat +:+ rest.
Proof.
  revert s. induction pat as [|a pat IH]; intros s; simpl.
  - by intros [= ->].
  - destruct s as [|b s]; [discriminate|].
    destruct (Ascii.eqb a b) eqn:Hab; [|discriminate].
    apply Ascii.eqb_eq in Hab as ->. intros H. by rewrite (IH s H).
Qed.

Lemma after_prefix_app (pat s rest t : string) :
  after_prefix pat s = Some rest ->
  after_prefix pat (s +:+ t) = Some (rest +:+ t).
Proof.
  revert s. induction pat as [|a pat IH]; intros s; simpl.
  - by intros [= ->].
  - destruct s as [|b s]; [discriminate|]. simpl.
    destruct (Ascii.eqb a b); [apply IH | discriminate].
Qed.

Lemma after_prefix_ci_Some (pat s rest : string) :
  after_prefix_ci pat s = Some rest -> exists p, s = p +:+ rest.
Proof.
  revert s. induction pat as [|a pat IH]; intros s; simpl.
  - intros [= ->]. by exists "".
  - destruct s as [|b s]; [discriminate|].
    destruct (Ascii.eqb a (lower b)); [|discriminate].
    intros H. destruct (IH s H) as [p ->]. by exists (String b p).
Qed.

Lemma lower_backtick (a : ascii) :
  Ascii.eqb "`" (lower a) = true -> a = "`"%char.
Proof.
  destruct a as [[] [] [] [] [] [] [] []]; vm_compute; congruence.
Qed.

(** An opening fence of either pattern starts with three backticks. *)
Lemma open_python_backticks (s body : string) :
  open_python s = Some body -> after_prefix "```" s <> None.
Proof.
  unfold open_python.
  change ("```python" +:+ nl)
    with (String "`" (String "`" (String "`" ("python" +:+ nl)))).
  intros H. destruct s as [|a s]; [discriminate|]. cbn [after_prefix_ci] in H.
  destruct (Ascii.eqb "`" (lower a)) eqn:Ha; [|discriminate].
  destruct s as [|b s]; [discriminate|]. cbn [after_prefix_ci] in H.
  destruct (Ascii.eqb "`" (lower b)) eqn:Hb; [|discriminate].
  destruct s as [|c s]; [discriminate|]. cbn [after_prefix_ci] in H.
  destruct (Ascii.eqb "`" (lower c)) eqn:Hc; [|discriminate].
  apply lower_backtick in Ha as ->. apply lower_backtick in Hb as ->.
  apply lower_backtick in Hc as ->. done.
Qed.

Lemma contains_false (needle : string) (c : ascii) (r : string) :
  contains needle (String c r) = false ->
  after_prefix needle (String c r) = None /\ contains needle r = false.
Proof.
  cbn [contains]. by destruct (after_prefix needle (String c r)).
Qed.

Lemma findall_python_no_fence (s : string) :
  contains "```" s = false -> forall skip, findall_python_from skip s = [].
Proof.
  induction s as [|c r IH]; intros Hs skip; [done|].
  apply contains_false in Hs as [Hp Hr]. cbn [findall_python_from].
  destruct skip as [|k]; [|by apply IH].
  destruct (open_python (String c r)) as [body|] eqn:Ho; [|by apply IH].
  by apply open_python_backticks in Ho.
Qed.

Lemma findall_generic_no_fence (s : string) :
  contains "```" s = false -> forall skip, findall_generic_from skip s = [].
Proof.
  induction s as [|c r IH]; intros Hs skip; [done|].
  apply contains_false in Hs as [Hp Hr]. cbn [findall_generic_from].
  destruct skip as [|k]; [|by apply IH].
  unfold open_generic. rewrite Hp. by apply IH.
Qed.

(** X9. A response without three backticks in a row holds no
    fenced block of either kind: the whole response, trimmed, is taken
    as the code. *)
Theorem extract_without_fence (llm_resp : string) :
  contains "```" llm_resp = false ->
  findall_python llm_resp = [] /\ findall_generic llm_resp = []
  /\ _extract_code_from_response llm_resp = strip llm_resp.
Proof.
  intros Hs. unfold _extract_code_from_response, findall_python,
    findall_generic.
  rewrite (findall_python_no_fence _ Hs), (findall_generic_no_fence _ Hs).
  done.
Qed.

Lemma find_close_empty : find_close "" = None.
Proof. reflexivity. Qed.

(** The lazy group stops at the first closing fence: what it holds is
    followed by that fence and holds no closing fence itself. *)
Lemma find_close_first (s : string) :
  forall content rest,
  find_close s = Some (content, rest) ->
  s = content +:+ close_fence +:+ rest /\ find_close content = None.
Proof.
  induction s as [|c r IH]; intros content rest.
  - cbn. discriminate.
  - cbn [find_close].
    destruct (after_prefix close_fence (String c r)) as [rest'|] eqn:Hp.
    + intros [= <- <-]. split; [|done]. by apply after_prefix_Some in Hp.
    + destruct (find_close r) as [[content' rest']|] eqn:Hr; [|discriminate].
      intros [= <- <-]. destruct (IH _ _ eq_refl) as [Heq Hnone].
      split; [by rewrite Heq|].
      cbn [find_close]. rewrite Hnone.
      destruct (after_prefix close_fence (String c content')) as [x|] eqn:Hx;
        [|done].
      apply (after_prefix_app _ _ _ (close_fence +:+ rest')) in Hx.
      change (String c content' +:+ close_fence +:+ rest')
        with (String c (content' +:+ close_fence +:+ rest')) in Hx.
      rewrite <- Heq in Hx. congruence.
Qed.

Lemma enclosed_python_cons (c : ascii) (r b : string) :
  enclosed_python r b -> enclosed_python (String c r) b.
Proof.
  intros (pre & opening & post & -> & Ho & Hb).
  by exists (String c pre), opening, post.
Qed.

Lemma findall_python_enclosed (s : string) :
  forall skip b, b ∈ findall_python_from skip s -> enclosed_python s b.
Proof.
  induction s as [|c r IH]; intros skip b Hb.
  - by apply elem_of_nil in Hb.
  - cbn [findall_python_from] in Hb.
    destruct skip as [|k]; [|by eapply enclosed_python_cons, IH].
    destruct (open_python (String c r)) as [body|] eqn:Ho;
      [|by eapply enclosed_python_cons, IH].
    destruct (find_close body) as [[content rest]|] eqn:Hc;
      [|by eapply enclosed_python_cons, IH].
    apply elem_of_cons in Hb as [-> | Hb];
      [|by eapply enclosed_python_cons, IH].
    destruct (find_close_first _ _ _ Hc) as [Hbody Hnone].
    destruct (after_prefix_ci_Some _ _ _ Ho) as [p Hp].
    exists "", p, rest. rewrite <- Hbody. split; [done|].
    split; [|done]. by rewrite <- Hp.
Qed.

(** X10. Every block that the scan for Python blocks returns
    stands in the response between an opening Python fence and a
    closing fence, and holds no closing fence itself: a block ends at
    the first closing fence after its opening. *)
Theorem python_blocks_are_enclosed (llm_resp b : string) :
  b ∈ findall_python llm_resp ->
  exists pre opening post,
    llm_resp = pre +:+ opening +:+ b +:+ close_fence +:+ post
    /\ open_python (opening +:+ b +:+ close_fence +:+ post)
       = Some (b +:+ close_fence +:+ post)
    /\ find_close b = None.
Proof. apply findall_python_enclosed. Qed.

Lemma extract_without_fence_witness :
  contains "```" " x = 1 " = false
  /\ findall_python " x = 1 " = [] /\ findall_generic " x = 1 " = []
  /\ _extract_code_from_response " x = 1 " = strip " x = 1 ".
Proof.
  split; [reflexivity|].
  apply (extract_without_fence " x = 1 "). reflexivity.
Defined.

Lemma python_blocks_are_enclosed_witness :
  "x = 1" ∈ findall_python Scenarios.blank_first_block
  /\ exists pre opening post,
       Scenarios.blank_first_block
       = pre +:+ opening +:+ "x = 1" +:+ close_fence +:+ post
       /\ open_python (opening +:+ "x = 1" +:+ close_fence +:+ post)
          = Some ("x = 1" +:+ close_fence +:+ post)
       /\ find_close "x = 1" = None.
Proof.
  assert (H : "x = 1" ∈ findall_python Scenarios.blank_first_block)
    by (apply (bool_decide_unpack _); vm_compute; exact I).
  split; [exact H|].
  exact (python_blocks_are_enclosed
           Scenarios.blank_first_block "x = 1" H).
Defined.

End FenceScanFacts.

(** ** The scans against the text *)

Module FenceTextFacts.
Import PyStr PyText Fence FenceText FenceScanFacts.

Lemma append_assoc (a b c : string) : (a +:+ b) +:+ c = a +:+ b +:+ c.
Proof.
  induction a as [|x a IH]; [done|].
  change (String x (a +:+ b) +:+ c = String x (a +:+ b +:+ c)).
  change (String x ((a +:+ b) +:+ c) = String x (a +:+ b +:+ c)).
  by rewrite IH.
Qed.

Lemma append_length (a b : string) :
  String.length (a +:+ b) = String.length a + String.length b.
Proof. induction a as [|c a IH]; simpl; [done|]. by rewrite IH. Qed.

Lemma append_nil_inv (p q : string) : "" = p +:+ q -> p = "" /\ q = "".
Proof.
  destruct p as [|a p]; [change ("" +:+ q) with q; by intros <-|].
  change (String a p +:+ q) with (String a (p +:+ q)). discriminate.
Qed.

Lemma append_cons (c : ascii) (a b : string) :
  String c a +:+ b = String c (a +:+ b).
Proof. reflexivity. Qed.

Lemma append_nil (b : string) : "" +:+ b = b.
Proof. reflexivity. Qed.

Lemma take_append (p q : string) : take (String.length p) (p +:+ q) = p.
Proof.
  induction p as [|a p IH]; [by destruct q|].
  rewrite append_cons. cbn [String.length take]. by rewrite IH.
Qed.

Lemma close_fence_chars :
  close_fence = String LF (String "`" (String "`" (String "`" ""))).
Proof. reflexivity. Qed.

Lemma find_close_unfold (s : string) :
  find_close s
  = match after_prefix close_fence s with
    | Some rest => Some ("", rest)
    | None =>
        match s with
        | "" => None
        | String c r =>
            match find_close r with
            | Some (content, rest) => Some (String c content, rest)
            | None => None
            end
        end
    end.
Proof. by destruct s. Qed.

Lemma after_prefix_same (pat x : string) :
  after_prefix pat (pat +:+ x) = Some x.
Proof.
  induction pat as [|a pat IH]; [done|].
  rewrite append_cons. cbn [after_prefix]. by rewrite Ascii.eqb_refl.
Qed.

(** A text with a closing fence has a first one. *)
Lemma find_close_occurs (b : string) :
  occurs close_fence b -> find_close b <> None.
Proof.
  intros (p & q & ->). induction p as [|c p IH].
  - rewrite append_nil, find_close_unfold, after_prefix_same. done.
  - rewrite append_cons, find_close_unfold.
    destruct (after_prefix close_fence (String c (p +:+ close_fence +:+ q)));
      [done|].
    destruct (find_close (p +:+ close_fence +:+ q)) as [[content rest]|];
      done.
Qed.

Lemma find_close_none (b : string) :
  find_close b = None <-> ~ occurs close_fence b.
Proof.
  split.
  - intros Hn Ho. by apply find_close_occurs in Ho.
  - intros Hn. destruct (find_close b) as [[content rest]|] eqn:Hc; [|done].
    destruct Hn. apply find_close_first in Hc as [-> _].
    by exists content, rest.
Qed.

Lemma occurs_tail (c : ascii) (b : string) :
  occurs close_fence b -> occurs close_fence (String c b).
Proof. intros (p & q & ->). by exists (String c p), q. Qed.

(** A closing fence that starts inside the content lies inside it: the
    line feed of the fence that follows the content is no backtick. *)
Lemma close_inside (body rest x : string) :
  body <> "" ->
  after_prefix close_fence (body +:+ close_fence +:+ rest) = Some x ->
  occurs close_fence body.
Proof.
  intros Hne H. rewrite close_fence_chars in *.
  destruct body as [|c [|c1 [|c2 [|c3 b]]]]; [done| | | |];
    rewrite !append_cons, ?append_nil in H; cbn [after_prefix] in H;
    (destruct (Ascii.eqb LF c) eqn:H0; [|discriminate]).
  - vm_compute in H. discriminate.
  - destruct (Ascii.eqb "`" c1); [|discriminate].
    vm_compute in H. discriminate.
  - destruct (Ascii.eqb "`" c1); [|discriminate].
    destruct (Ascii.eqb "`" c2); [|discriminate].
    vm_compute in H. discriminate.
  - destruct (Ascii.eqb "`" c1) eqn:H1; [|discriminate].
    destruct (Ascii.eqb "`" c2) eqn:H2; [|discriminate].
    destruct (Ascii.eqb "`" c3) eqn:H3; [|discriminate].
    apply Ascii.eqb_eq in H0 as <-. apply Ascii.eqb_eq in H1 as <-.
    apply Ascii.eqb_eq in H2 as <-. apply Ascii.eqb_eq in H3 as <-.
    by exists "", b.
Qed.

(** The lazy group ends at the closing fence that follows a content
    without closing fence. *)
Lemma find_close_app (body rest : string) :
  ~ occurs close_fence body ->
  find_close (body +:+ close_fence +:+ rest) = Some (body, rest).
Proof.
  induction body as [|c b IH]; intros Hn.
  - by rewrite append_nil, find_close_unfold, after_prefix_same.
  - destruct (after_prefix close_fence (String c b +:+ close_fence +:+ rest))
      as [x|] eqn:Hp.
    { destruct Hn. by apply (close_inside (String c b) rest x). }
    rewrite find_close_unfold, Hp, append_cons, IH; [done|].
    intros Ho. by apply Hn, occurs_tail.
Qed.

Section Scan.

Variable opening : string -> Prop.
Variable opener : string -> option (nat * string).

Hypothesis opener_sound :
  forall s n x, opener s = Some (n, x) ->
    exists o, opening o /\ s = o +:+ x /\ String.length o = S n.
Hypothesis opener_complete :
  forall o x, opening o ->
    exists n, opener (o +:+ x) = Some (n, x) /\ String.length o = S n.

Lemma starts_block_scan (s : string) :
  starts_block opening s
  <-> exists n x content rest,
        opener s = Some (n, x) /\ find_close x = Some (content, rest).
Proof.
  split.
  - intros (o & body & rest & Hop & Hn & ->).
    destruct (opener_complete o (body +:+ close_fence +:+ rest) Hop)
      as (n & Ho & _).
    exists n, (body +:+ close_fence +:+ rest), body, rest.
    split; [done|]. by apply find_close_app.
  - intros (n & x & content & rest & Ho & Hc).
    destruct (opener_sound s n x Ho) as (o & Hop & -> & _).
    apply find_close_first in Hc as [-> Hnone].
    exists o, content, rest. split; [done|]. split; [|done].
    by apply find_close_none.
Qed.

Lemma starts_block_nonempty : ~ starts_block opening "".
Proof.
  intros (o & body & rest & Hop & _ & Heq).
  destruct (opener_complete o "" Hop) as (n & _ & Hlen).
  destruct o; [done | discriminate].
Qed.

Lemma scan_skip (p q : string) :
  scan opener (String.length p) (p +:+ q) = scan opener 0 q.
Proof.
  induction p as [|a p IH]; [done|].
  rewrite append_cons. cbn [String.length scan]. done.
Qed.

Lemma scan_no_block (s : string) :
  (forall p q, s = p +:+ q -> ~ starts_block opening q) ->
  scan opener 0 s = [].
Proof.
  induction s as [|c r IH]; intros H; [done|].
  assert (Hr : scan opener 0 r = []).
  { apply IH. intros p q ->. by apply (H (String c p) q). }
  cbn [scan].
  destruct (opener (String c r)) as [[n x]|] eqn:Ho; [|done].
  destruct (find_close x) as [[content rest]|] eqn:Hc; [|done].
  destruct (H "" (String c r) eq_refl).
  apply starts_block_scan. by exists n, x, content, rest.
Qed.

Lemma scan_block (gap o body rest : string) :
  opening o ->
  ~ occurs close_fence body ->
  (forall p q, gap = p +:+ q -> q <> "" ->
     ~ starts_block opening (q +:+ o +:+ body +:+ close_fence +:+ rest)) ->
  scan opener 0 (gap +:+ o +:+ body +:+ close_fence +:+ rest)
  = (o, body) :: scan opener 0 rest.
Proof.
  intros Hop Hn. induction gap as [|c gap IH]; intros Hgap.
  - change ("" +:+ o +:+ body +:+ close_fence +:+ rest)
      with (o +:+ body +:+ close_fence +:+ rest).
    destruct (opener_complete o (body +:+ close_fence +:+ rest) Hop)
      as (n & Ho & Hlen).
    destruct o as [|a o]; [discriminate|]. injection Hlen as <-.
    change (String a o +:+ body +:+ close_fence +:+ rest)
      with (String a (o +:+ body +:+ close_fence +:+ rest)) in *.
    cbn [scan]. rewrite Ho, (find_close_app body rest Hn).
    cbn [take]. rewrite take_append. f_equal.
    assert (Hk : String.length o + String.length body + 4
                 = String.length (o +:+ body +:+ close_fence)).
    { rewrite !append_length.
      change (String.length close_fence) with 4. lia. }
    rewrite Hk, <- (append_assoc body close_fence rest),
      <- (append_assoc o (body +:+ close_fence) rest).
    apply scan_skip.
  - change (String c gap +:+ o +:+ body +:+ close_fence +:+ rest)
      with (String c (gap +:+ o +:+ body +:+ close_fence +:+ rest)).
    assert (Hrest :
      scan opener 0 (gap +:+ o +:+ body +:+ close_fence +:+ rest)
      = (o, body) :: scan opener 0 rest).
    { apply IH. intros p q -> Hq. by apply (Hgap (String c p) q). }
    cbn [scan].
    destruct (opener (String c (gap +:+ o +:+ body +:+ close_fence +:+ rest)))
      as [[n x]|] eqn:Ho; [|done].
    destruct (find_close x) as [[content rest']|] eqn:Hc; [|done].
    destruct (Hgap "" (String c gap) eq_refl); [done|].
    apply starts_block_scan. by exists n, x, content, rest'.
Qed.

(** The scan returns the blocks of the text. *)
Lemma blocks_scan (s : string) (l : list (string * string)) :
  blocks opening s l -> scan opener 0 s = l.
Proof.
  induction 1 as [s Hs | gap o body rest more Hop Hn Hgap _ IH].
  - by apply scan_no_block.
  - rewrite (scan_block gap o body rest Hop Hn Hgap). by rewrite IH.
Qed.

(** The leftmost place where a block starts, if there is one. *)
Lemma leftmost_block (s : string) :
  (forall p q, s = p +:+ q -> ~ starts_block opening q)
  \/ exists gap q,
       s = gap +:+ q /\ starts_block opening q
       /\ forall p q', gap = p +:+ q' -> q' <> "" ->
            ~ starts_block opening (q' +:+ q).
Proof.
  induction s as [|c r IH].
  - left. intros p q Heq. apply append_nil_inv in Heq as [_ ->].
    apply starts_block_nonempty.
  - assert (Hdec : starts_block opening (String c r)
                   \/ ~ starts_block opening (String c r)).
    { destruct (opener (String c r)) as [[n x]|] eqn:Ho.
      - destruct (find_close x) as [[content rest]|] eqn:Hc.
        + left. apply starts_block_scan. by exists n, x, content, rest.
        + right. intros Hs. apply starts_block_scan in Hs
            as (n' & x' & content & rest & Ho' & Hc'). congruence.
      - right. intros Hs. apply starts_block_scan in Hs
          as (n' & x' & content & rest & Ho' & Hc'). congruence. }
    destruct Hdec as [Hs | Hs].
    + right. exists "", (String c r). split; [done|]. split; [done|].
      intros p q' Heq. by apply append_nil_inv in Heq as [_ ->].
    + destruct IH as [Hnone | (gap & q & -> & Hq & Hgap)].
      * left. intros [|a p] q Heq.
        -- rewrite append_nil in Heq. by rewrite <- Heq.
        -- rewrite append_cons in Heq. injection Heq as _ ->.
           by apply (Hnone p q).
      * right. exists (String c gap), q. split; [done|]. split; [done|].
        intros [|a p] q' Heq Hne.
        -- rewrite append_nil in Heq. by rewrite <- Heq.
        -- rewrite append_cons in Heq. injection Heq as _ ->.
           by apply (Hgap p q').
Qed.

(** Every text has its list of blocks. *)
Lemma blocks_total (s : string) : exists l, blocks opening s l.
Proof.
  remember (String.length s) as k eqn:Hk. revert s Hk.
  induction k as [k IH] using lt_wf_ind. intros s ->.
  destruct (leftmost_block s)
    as [Hnone | (gap & q & -> & (o & body & rest & Hop & Hn & ->) & Hgap)].
  - exists []. by constructor.
  - destruct (IH (String.length rest)) with (s := rest) as [more Hmore];
      [|done|].
    + destruct (opener_complete o "" Hop) as (n & _ & Hlen).
      rewrite !append_length, Hlen. cbn. lia.
    + exists ((o, body) :: more). by constructor.
Qed.

(** The blocks of a text are what the scan returns, and nothing else. *)
Lemma blocks_iff_scan (s : string) (l : list (string * string)) :
  blocks opening s l <-> scan opener 0 s = l.
Proof.
  split; [apply blocks_scan|]. intros <-.
  destruct (blocks_total s) as [l Hl].
  by rewrite (blocks_scan s l Hl).
Qed.

End Scan.

(** *** The opening fences of the two patterns *)

(** On the letters of [python] the folding of the pattern and
    [str.lower] agree. *)
Lemma lower_agree (a c : ascii) :
  a = "p"%char \/ a = "y"%char \/ a = "t"%char \/ a = "h"%char
  \/ a = "o"%char \/ a = "n"%char ->
  Ascii.eqb a (lower c) = Ascii.eqb a (lower_char c).
Proof.
  intros [-> | [-> | [-> | [-> | [-> | ->]]]]];
    destruct c as [[] [] [] [] [] [] [] []]; vm_compute; reflexivity.
Qed.

Lemma lower_line_feed (a : ascii) :
  Ascii.eqb LF (lower a) = true -> a = LF.
Proof.
  destruct a as [[] [] [] [] [] [] [] []]; vm_compute; congruence.
Qed.

Lemma lower_letter (a c : ascii) :
  a = "p"%char \/ a = "y"%char \/ a = "t"%char \/ a = "h"%char
  \/ a = "o"%char \/ a = "n"%char ->
  Ascii.eqb a (lower c) = true <-> lower_char c = a.
Proof.
  intros Ha. rewrite (lower_agree a c Ha). split.
  - intros H. by apply Ascii.eqb_eq in H.
  - intros <-. apply Ascii.eqb_refl.
Qed.

Ltac fold_step H c Hc :=
  lazymatch type of H with
  | match ?s with "" => _ | String _ _ => _ end = Some _ =>
      destruct s as [|c s]; [discriminate H|];
      cbv beta iota in H;
      lazymatch type of H with
      | (if Ascii.eqb ?a (lower c) then _ else _) = Some _ =>
          destruct (Ascii.eqb a (lower c)) eqn:Hc; [|discriminate H]
      end
  end.

Lemma python_opener_sound (s : string) (n : nat) (x : string) :
  python_opener s = Some (n, x) ->
  exists o, python_opening o /\ s = o +:+ x /\ String.length o = S n.
Proof.
  unfold python_opener, open_python.
  destruct (after_prefix_ci ("```python" +:+ nl) s) as [body|] eqn:H;
    [|discriminate].
  intros [= <- <-].
  change ("```python" +:+ nl)
    with (String "`" (String "`" (String "`" (String "p" (String "y"
           (String "t" (String "h" (String "o" (String "n"
              (String LF "")))))))))) in H.
  cbn [after_prefix_ci] in H.
  fold_step H c1 H1. fold_step H c2 H2. fold_step H c3 H3.
  fold_step H c4 H4. fold_step H c5 H5. fold_step H c6 H6.
  fold_step H c7 H7. fold_step H c8 H8. fold_step H c9 H9.
  fold_step H c10 H10.
  injection H as ->.
  apply lower_backtick in H1 as ->. apply lower_backtick in H2 as ->.
  apply lower_backtick in H3 as ->. apply lower_line_feed in H10 as ->.
  apply lower_letter in H4; [|tauto]. apply lower_letter in H5; [|tauto].
  apply lower_letter in H6; [|tauto]. apply lower_letter in H7; [|tauto].
  apply lower_letter in H8; [|tauto]. apply lower_letter in H9; [|tauto].
  exists (String "`" (String "`" (String "`" (String c4 (String c5
            (String c6 (String c7 (String c8 (String c9
               (String LF "")))))))))).
  split; [|by split].
  exists (String c4 (String c5 (String c6 (String c7 (String c8
            (String c9 "")))))).
  split; [done|]. cbn [lower_str]. by rewrite H4, H5, H6, H7, H8, H9.
Qed.

Lemma python_opener_complete (o x : string) :
  python_opening o ->
  exists n, python_opener (o +:+ x) = Some (n, x) /\ String.length o = S n.
Proof.
  intros (tag & -> & Htag). exists 9.
  destruct tag as [|c4 [|c5 [|c6 [|c7 [|c8 [|c9 [|c10 t]]]]]]];
    try discriminate.
  cbn [lower_str] in Htag. injection Htag as H4 H5 H6 H7 H8 H9.
  split; [|done].
  unfold python_opener, open_python.
  change ("```python" +:+ nl)
    with (String "`" (String "`" (String "`" (String "p" (String "y"
           (String "t" (String "h" (String "o" (String "n"
              (String LF "")))))))))).
  change (("```" +:+ String c4 (String c5 (String c6 (String c7 (String c8
             (String c9 ""))))) +:+ nl) +:+ x)
    with (String "`" (String "`" (String "`" (String c4 (String c5
           (String c6 (String c7 (String c8 (String c9
              (String LF x)))))))))).
  cbn [after_prefix_ci].
  change (Ascii.eqb "`" (lower "`")) with true.
  change (Ascii.eqb LF (lower LF)) with true.
  rewrite (proj2 (lower_letter "p" c4 ltac:(tauto)) H4).
  rewrite (proj2 (lower_letter "y" c5 ltac:(tauto)) H5).
  rewrite (proj2 (lower_letter "t" c6 ltac:(tauto)) H6).
  rewrite (proj2 (lower_letter "h" c7 ltac:(tauto)) H7).
  rewrite (proj2 (lower_letter "o" c8 ltac:(tauto)) H8).
  rewrite (proj2 (lower_letter "n" c9 ltac:(tauto)) H9).
  done.
Qed.

(** The greedy run of tag characters. *)
Lemma span_tag_split (r : string) :
  forall t r', span_tag r = (t, r') -> r = t +:+ r' /\ all_tag_chars t = true.
Proof.
  induction r as [|c r IH]; intros t r'.
  - by intros [= <- <-].
  - cbn [span_tag]. destruct (is_tag_char c) eqn:Hc.
    + destruct (span_tag r) as [t0 r0]. intros [= <- <-].
      destruct (IH t0 r0 eq_refl) as [-> Ht].
      split; [done|]. cbn [all_tag_chars]. by rewrite Hc, Ht.
    + by intros [= <- <-].
Qed.

Lemma span_tag_whole (t x : string) :
  all_tag_chars t = true -> span_tag (t +:+ String LF x) = (t, String LF x).
Proof.
  induction t as [|c t IH]; intros Ht.
  - rewrite append_nil. done.
  - cbn [all_tag_chars] in Ht. apply andb_true_iff in Ht as [Hc Ht].
    rewrite append_cons. cbn [span_tag]. by rewrite Hc, (IH Ht).
Qed.

Lemma generic_opener_sound (s : string) (n : nat) (x : string) :
  generic_opener s = Some (n, x) ->
  exists o, generic_opening o /\ s = o +:+ x /\ String.length o = S n.
Proof.
  unfold generic_opener, open_generic.
  destruct (after_prefix "```" s) as [r|] eqn:Hp; [|discriminate].
  destruct (span_tag r) as [tag r'] eqn:Hs.
  destruct (after_prefix nl r') as [body|] eqn:Hn; [|discriminate].
  intros [= <- <-].
  apply after_prefix_Some in Hp as ->. apply after_prefix_Some in Hn as ->.
  apply span_tag_split in Hs as [-> Htag].
  exists ("```" +:+ tag +:+ nl). split; [by exists tag|]. split.
  - by rewrite !append_assoc.
  - rewrite !append_length. cbn. lia.
Qed.

Lemma generic_opener_complete (o x : string) :
  generic_opening o ->
  exists n, generic_opener (o +:+ x) = Some (n, x) /\ String.length o = S n.
Proof.
  intros (tag & -> & Htag). exists (2 + String.length tag + 1). split.
  - unfold generic_opener, open_generic.
    rewrite !append_assoc, after_prefix_same.
    change (nl +:+ x) with (String LF x).
    rewrite (span_tag_whole tag x Htag).
    change (String LF x) with (nl +:+ x). by rewrite after_prefix_same.
  - rewrite !append_length. cbn. lia.
Qed.

(** The two scans of the code are instances of the one scan. *)
Lemma findall_python_scan (s : string) :
  forall skip, findall_python_from skip s = (scan python_opener skip s).*2.
Proof.
  induction s as [|c r IH]; intros skip; [done|].
  cbn [findall_python_from scan]. destruct skip as [|k]; [|apply IH].
  unfold python_opener.
  destruct (open_python (String c r)) as [body|]; [|apply IH].
  destruct (find_close body) as [[content rest]|]; [|apply IH].
  rewrite fmap_cons. cbn [snd]. by rewrite IH.
Qed.

Lemma findall_generic_scan (s : string) :
  forall skip,
    (findall_generic_from skip s).*2 = (scan generic_opener skip s).*2.
Proof.
  induction s as [|c r IH]; intros skip; [done|].
  cbn [findall_generic_from scan]. destruct skip as [|k]; [|apply IH].
  unfold generic_opener.
  destruct (open_generic (String c r)) as [[tag body]|]; [|apply IH].
  destruct (find_close body) as [[content rest]|]; [|apply IH].
  rewrite !fmap_cons. cbn [snd]. by rewrite IH.
Qed.

(** The blocks tagged for Python and the blocks of any tag, as the text
    has them, are what the two scans of the code return. *)
Lemma python_blocks_scan (s : string) (l : list (string * string)) :
  blocks python_opening s l <-> scan python_opener 0 s = l.
Proof.
  apply blocks_iff_scan;
    [apply python_opener_sound | apply python_opener_complete].
Qed.

Lemma generic_blocks_scan (s : string) (l : list (string * string)) :
  blocks generic_opening s l <-> scan generic_opener 0 s = l.
Proof.
  apply blocks_iff_scan;
    [apply generic_opener_sound | apply generic_opener_complete].
Qed.

Lemma python_blocks_found (s : string) (l : list (string * string)) :
  blocks python_opening s l -> findall_python s = l.*2.
Proof.
  intros H. apply python_blocks_scan in H as <-. apply findall_python_scan.
Qed.

Lemma generic_blocks_found (s : string) (l : list (string * string)) :
  blocks generic_opening s l -> findall_generic s = l.*2.
Proof.
  intros H. apply generic_blocks_scan in H as <-.
  apply findall_generic_scan.
Qed.



(** A fence with a space between the tag and the line feed is no
    opening fence of either pattern: the response holds no block and is
    taken whole. *)
Example no_block_with_space_after_tag :
  blocks python_opening Cases.space_after_tag []
  /\ blocks generic_opening Cases.space_after_tag []
  /\ _extract_code_from_response Cases.space_after_tag
     = Cases.space_after_tag.
Proof.
  split; [apply python_blocks_scan; vm_compute; reflexivity|].
  split; [apply generic_blocks_scan; vm_compute; reflexivity|].
  vm_compute. reflexivity.
Qed.

(** The tag is read in any letter case, and the blocks are found in
    the middle of prose. *)
Example python_blocks_of_two_python_blocks :
  blocks python_opening Scenarios.two_python_blocks
    [("```python" +:+ nl, "  import pytest ");
     ("```Python" +:+ nl, nl +:+ "def test_a(): pass")].
Proof. apply python_blocks_scan. vm_compute. reflexivity. Qed.

End FenceTextFacts.

(** ** The environment of a tool and the outcomes of [setup_venv] *)

Module EnvironmentFacts.
Import PyStr ProcessRunner ProcessRunnerFacts.

Section Runner.

Variable Float : Type.
Variable float_le0 : Float -> bool.
Variable float_str : Float -> string.
Variable World : Type.
Variable win32 : bool.
Variable is_file_x : World -> string -> bool.
Variable is_dir : World -> string -> bool.
Variable path_exists : World -> string -> bool.
Variable which : World -> string -> option string.
Variable os_environ : World -> gmap string string.
Variable resolve : string -> string.
Variable expanduser : string -> string.
Variable quote : string -> string.
Variable subprocess_run :
  list string -> string -> gmap string string -> option Float ->
  World -> Proc * World.
Variable cfg : Config Float.
Variable sys_executable : string.

Abbreviation proc_env :=
  (ProcessRunner.proc_env World win32 os_environ resolve).
Abbreviation run_tool :=
  (ProcessRunner.run_tool Float float_le0 float_str World win32 is_file_x
     is_dir which os_environ resolve expanduser quote subprocess_run cfg).
Abbreviation find_venv_executable :=
  (ProcessRunner.find_venv_executable World win32 is_file_x is_dir resolve).
Abbreviation setup_venv :=
  (ProcessRunner.setup_venv Float float_le0 float_str World win32 is_file_x
     is_dir path_exists which os_environ resolve expanduser quote
     subprocess_run cfg sys_executable).
Abbreviation setup_tail :=
  (ProcessRunner.setup_tail Float float_le0 float_str World win32 is_file_x
     is_dir which os_environ resolve expanduser quote subprocess_run cfg).
Abbreviation venv_create_cmd := (ProcessRunner.venv_create_cmd sys_executable).

(** X11. The environment of a tool that runs in a virtual
    environment. What the caller passes wins over everything. Apart
    from that, [VIRTUAL_ENV] is the resolved environment path, [PATH]
    is the inherited one behind the environment's executables
    directory, [PYTHONHOME] and [PYTHONPATH] are not inherited, and
    every other variable is. *)
Theorem venv_activation (vp : string)
    (env_vars : option (gmap string string)) (w : World) :
  let env := proc_env (Some vp) env_vars w in
  let given := default ∅ env_vars in
  (forall k v, given !! k = Some v -> env !! k = Some v)
  /\ (given !! "VIRTUAL_ENV" = None ->
      env !! "VIRTUAL_ENV" = Some (resolve vp))
  /\ (given !! "PATH" = None ->
      env !! "PATH"
      = Some (bin_dir_of win32 (resolve vp) +:+ pathsep win32
              +:+ default "" (os_environ w !! "PATH")))
  /\ env !! "PYTHONHOME" = given !! "PYTHONHOME"
  /\ env !! "PYTHONPATH" = given !! "PYTHONPATH"
  /\ (forall k,
        k <> "VIRTUAL_ENV" -> k <> "PATH" -> k <> "PYTHONHOME" ->
        k <> "PYTHONPATH" -> given !! k = None ->
        env !! k = os_environ w !! k).
Proof.
  intros env given.
  assert (Henv : forall k,
            env !! k
            = match given !! k with
              | Some v => Some v
              | None =>
                  delete "PYTHONPATH"
                    (delete "PYTHONHOME"
                       (<[ "PATH" := bin_dir_of win32 (resolve vp)
                                     +:+ pathsep win32
                                     +:+ default "" (os_environ w !! "PATH") ]>
                          (<[ "VIRTUAL_ENV" := resolve vp ]> (os_environ w))))
                  !! k
              end).
  { intros k. subst env given. unfold ProcessRunner.proc_env.
    destruct env_vars as [ev|]; simpl.
    - destruct (ev !! k) as [v|] eqn:Hk.
      + by apply lookup_union_Some_l.
      + by rewrite lookup_union_r.
    - by rewrite lookup_empty. }
  split; [intros k v Hk; by rewrite Henv, Hk|].
  split; [intros Hk; rewrite Henv, Hk;
          rewrite !lookup_delete_ne, lookup_insert_ne, lookup_insert_eq;
          done|].
  split; [intros Hk; rewrite Henv, Hk;
          rewrite !lookup_delete_ne, lookup_insert_eq; done|].
  split; [rewrite Henv; destruct (given !! "PYTHONHOME"); [done|];
          by rewrite lookup_delete_ne, lookup_delete_eq|].
  split; [rewrite Henv; destruct (given !! "PYTHONPATH"); [done|];
          by rewrite lookup_delete_eq|].
  intros k H1 H2 H3 H4 Hk. rewrite Henv, Hk.
  by rewrite !lookup_delete_ne, !lookup_insert_ne.
Qed.

End Runner.

End EnvironmentFacts.

(** ** The runner and the environment manager when a path query raises *)

Module FallibleFacts.
Import PyStr PyQuery ProcessRunner Fallible.

Section Machine.

Variable Float : Type.
Variable float_le0 : Float -> bool.
Variable float_str : Float -> string.
Variable World : Type.
Variable win32 : bool.
Variable is_file_x : World -> string -> Query bool.
Variable is_dir : World -> string -> Query bool.
Variable path_exists : World -> string -> Query bool.
Variable resolve : World -> string -> Query string.
Variable expanduser : World -> string -> Query string.
Variable which : World -> string -> option string.
Variable os_environ : World -> gmap string string.
Variable quote : string -> string.
Variable subprocess_run :
  list string -> string -> gmap string string -> option Float ->
  World -> Proc * World.
Variable cfg : Config Float.
Variable sys_executable : string.

Abbreviation thrown :=
  (Fallible.thrown World is_file_x is_dir resolve expanduser).
Abbreviation find_in_bin :=
  (Fallible.find_in_bin World win32 is_file_x resolve).
Abbreviation configured_tool :=
  (Fallible.configured_tool Float World is_file_x resolve expanduser cfg).
Abbreviation venv_tool :=
  (Fallible.venv_tool World win32 is_file_x is_dir resolve).
Abbreviation _find_executable :=
  (Fallible._find_executable Float World win32 is_file_x is_dir resolve
     expanduser which cfg).
Abbreviation proc_env := (Fallible.proc_env World win32 resolve os_environ).
Abbreviation run_tool :=
  (Fallible.run_tool Float float_le0 float_str World win32 is_file_x is_dir
     resolve expanduser which os_environ quote subprocess_run cfg).
Abbreviation find_venv_executable :=
  (Fallible.find_venv_executable World win32 is_file_x is_dir resolve).
Abbreviation setup_tail :=
  (Fallible.setup_tail Float float_le0 float_str World win32 is_file_x is_dir
     resolve expanduser which os_environ quote subprocess_run cfg).
Abbreviation setup_venv :=
  (Fallible.setup_venv Float float_le0 float_str World win32 is_file_x is_dir
     path_exists resolve expanduser which os_environ quote subprocess_run
     cfg sys_executable).

Lemma thrown_is_file_x (w : World) (p : string) (e : PyError) :
  is_file_x w p = Throws e -> thrown e.
Proof. intros H. left. by exists w, p. Qed.

Lemma thrown_is_dir (w : World) (p : string) (e : PyError) :
  is_dir w p = Throws e -> thrown e.
Proof. intros H. right. left. by exists w, p. Qed.

Lemma thrown_resolve (w : World) (p : string) (e : PyError) :
  resolve w p = Throws e -> thrown e.
Proof. intros H. right. right. left. by exists w, p. Qed.

Lemma thrown_expanduser (w : World) (p : string) (e : PyError) :
  expanduser w p = Throws e -> thrown e.
Proof. intros H. right. right. right. by exists w, p. Qed.

Lemma find_in_bin_throws (w : World) (d n : string) (sfxs : list string)
    (e : PyError) :
  find_in_bin w d n sfxs = Throws e -> thrown e.
Proof.
  induction sfxs as [|sfx rest IH]; [done|]. cbn [Fallible.find_in_bin].
  destruct (is_file_x w _) as [[|]|e0] eqn:Hx.
  - destruct (resolve w _) as [p|e1] eqn:Hr; [done|].
    intros [= <-]. by eapply thrown_resolve.
  - done.
  - intros [= <-]. by eapply thrown_is_file_x.
Qed.

Lemma configured_tool_throws (n : string) (w : World) (e : PyError) :
  configured_tool n w = Throws e -> thrown e.
Proof.
  unfold Fallible.configured_tool.
  destruct (tool_paths cfg !! n) as [s|]; [|done].
  destruct (nonempty (strip s)); [|done].
  destruct (expanduser w s) as [p|e0] eqn:He;
    [|intros [= <-]; by eapply thrown_expanduser].
  destruct (is_file_x w p) as [[|]|e0] eqn:Hx;
    [| done | intros [= <-]; by eapply thrown_is_file_x].
  destruct (resolve w p) as [q|e1] eqn:Hr; [done|].
  intros [= <-]. by eapply thrown_resolve.
Qed.

Lemma venv_tool_throws (n : string) (vp : option string) (w : World)
    (e : PyError) :
  venv_tool n vp w = Throws e -> thrown e.
Proof.
  unfold Fallible.venv_tool. destruct vp as [vp|]; [|done].
  destruct (resolve w vp) as [p|e0] eqn:Hr;
    [|intros [= <-]; by eapply thrown_resolve].
  destruct (is_dir w p) as [[|]|e0] eqn:Hd;
    [| done | intros [= <-]; by eapply thrown_is_dir].
  apply find_in_bin_throws.
Qed.

(** What [_find_executable] raises is its own [FileNotFoundError], when
    the three places give nothing, or what a query raised. *)
Lemma find_executable_throws (n : string) (vp : option string) (w : World)
    (e : PyError) :
  _find_executable n vp w = Throws e ->
  (e = not_found n /\ which w n = None) \/ thrown e.
Proof.
  unfold Fallible._find_executable.
  destruct (configured_tool n w) as [[p|]|e0] eqn:Hc;
    [done | | intros [= <-]; right; by eapply configured_tool_throws].
  destruct (venv_tool n vp w) as [[p|]|e0] eqn:Hv;
    [done | | intros [= <-]; right; by eapply venv_tool_throws].
  destruct (which w n) as [s|]; [|intros [= <-]; by left].
  intros H. right. by eapply thrown_resolve.
Qed.

Lemma proc_env_throws (vp : option string)
    (ev : option (gmap string string)) (w : World) (e : PyError) :
  proc_env vp ev w = Throws e -> thrown e.
Proof.
  unfold Fallible.proc_env. destruct vp as [vp|]; [|done].
  destruct (resolve w vp) as [p|e0] eqn:Hr; [done|].
  intros [= <-]. by eapply thrown_resolve.
Qed.

(** What [run_tool] raises: [ScribeToolError] for an executable that is
    not found and for a process that cannot be started, and whatever a
    path query raised, which is no [FileNotFoundError] when it comes
    from the search for the executable. Nothing was run in the first
    and in the last case. *)
Lemma run_tool_raises (command_args : list string) (cwd : string)
    (vp : option string) (ev : option (gmap string string))
    (t : option Float) (w : World) (x : Raised) :
  (run_tool command_args cwd vp ev t w).1 = Fails x ->
  exists exec_name rest,
    command_args = exec_name :: rest
    /\ match x with
       | Classified e =>
           (e = ScribeToolError
                  ("Executable '" +:+ exec_name +:+ "' not found.")
            /\ (run_tool command_args cwd vp ev t w).2 = w)
           \/ exists m,
                e = ScribeToolError
                      ("OS error executing '" +:+ exec_name +:+ "': " +:+ m)
       | Unclassified e =>
           thrown e /\ (run_tool command_args cwd vp ev t w).2 = w
       end.
Proof.
  unfold Fallible.run_tool. destruct command_args as [|exec_name rest];
    [done|].
  intros H. exists exec_name, rest. split; [done|]. revert H.
  destruct (_find_executable exec_name vp w) as [p|e] eqn:Hf.
  - destruct (proc_env vp ev w) as [env|e] eqn:Hp.
    + destruct (subprocess_run _ _ _ _ _) as [[rc out err|c out err|m] w'];
        [done..|].
      intros [= <-]. right. by exists m.
    + intros [= <-]. split; [by eapply proc_env_throws | done].
  - destruct (is_file_not_found e) eqn:Hn.
    + intros [= <-]. by left.
    + intros [= <-]. split; [|done].
      destruct (find_executable_throws _ _ _ _ Hf) as [[-> _]|]; [|done].
      by cbv in Hn.
Qed.

(** Every classified error of [run_tool] is a [ScribeToolError]. *)
Lemma run_tool_classified (command_args : list string) (cwd : string)
    (vp : option string) (ev : option (gmap string string))
    (t : option Float) (w : World) (e : ScribeErr) :
  (run_tool command_args cwd vp ev t w).1 = Fails (Classified e) ->
  exists m, e = ScribeToolError m.
Proof.
  intros H. destruct (run_tool_raises _ _ _ _ _ _ _ H)
    as (n & rest & _ & [[-> _] | [m ->]]); by eexists.
Qed.

Lemma run_tool_unclassified (command_args : list string) (cwd : string)
    (vp : option string) (ev : option (gmap string string))
    (t : option Float) (w : World) (e : PyError) :
  (run_tool command_args cwd vp ev t w).1 = Fails (Unclassified e) ->
  thrown e.
Proof.
  intros H. by destruct (run_tool_raises _ _ _ _ _ _ _ H)
    as (n & rest & _ & [? _]).
Qed.

Lemma find_venv_executable_throws (em : EnvironmentManager) (n : string)
    (w : World) (e : PyError) :
  find_venv_executable em n w = Throws e -> thrown e.
Proof.
  unfold Fallible.find_venv_executable.
  destruct (is_dir w (_venv_path em)) as [[|]|e0] eqn:Hd;
    [| done | intros [= <-]; by eapply thrown_is_dir].
  apply find_in_bin_throws.
Qed.

(** The part of [setup_venv] after the creation: it hands the upgrade
    of the packaging tools to the runner once, when both executables
    are found, and then returns whatever the exit code is and also
    when the runner raises [ScribeToolError]. *)
Lemma setup_tail_outcomes (em : EnvironmentManager) (w : World)
    (log : list Handed) :
  match result (setup_tail em w log) with
  | Done _ =>
      exists py pip,
        find_venv_executable em "python" w = Val (Some py)
        /\ find_venv_executable em "pip" w = Val (Some pip)
        /\ _venv_python_path (self (setup_tail em w log)) = Some py
        /\ _pip_path (self (setup_tail em w log)) = Some pip
        /\ handed (setup_tail em w log)
           = log ++ [(pip_upgrade_cmd pip,
                      (run_tool (pip_upgrade_cmd pip) (_target_dir em)
                         (Some (_venv_path em)) None
                         (Some (default_tool_timeout cfg)) w).1)]
        /\ forall e,
             (run_tool (pip_upgrade_cmd pip) (_target_dir em)
                (Some (_venv_path em)) None
                (Some (default_tool_timeout cfg)) w).1
             <> Fails (Unclassified e)
  | Fails (Classified e) =>
      e = ScribeEnvironmentError ("Python/pip not in venv: " +:+ _venv_path em)
      /\ handed (setup_tail em w log) = log
      /\ world_after (setup_tail em w log) = w
      /\ (find_venv_executable em "python" w = Val None
          \/ find_venv_executable em "pip" w = Val None)
  | Fails (Unclassified e) =>
      thrown e
      /\ (handed (setup_tail em w log) = log
          \/ exists pip,
               handed (setup_tail em w log)
               = log ++ [(pip_upgrade_cmd pip, Fails (Unclassified e))])
  end.
Proof.
  unfold Fallible.setup_tail.
  destruct (find_venv_executable em "python" w) as [py|e] eqn:Hpy.
  2: { cbn. split; [by eapply find_venv_executable_throws | by left]. }
  destruct (find_venv_executable em "pip" w) as [pip|e] eqn:Hpip.
  2: { cbn. split; [by eapply find_venv_executable_throws | by left]. }
  destruct py as [py|], pip as [pip|];
    cbn [result self handed world_after];
    try (by repeat split; auto).
  remember (run_tool (pip_upgrade_cmd pip) (_target_dir em)
              (Some (_venv_path em)) None (Some (default_tool_timeout cfg)) w)
    as rt eqn:Hrt.
  destruct rt as [r w']. cbn [fst snd].
  assert (Hr : (run_tool (pip_upgrade_cmd pip) (_target_dir em)
                  (Some (_venv_path em)) None
                  (Some (default_tool_timeout cfg)) w).1 = r)
    by (by rewrite <- Hrt).
  destruct r as [res|[e|e]]; cbn [Fallible.after_upgrade].
  - exists py, pip. rewrite Hr. by repeat split.
  - destruct (run_tool_classified _ _ _ _ _ _ _ Hr) as [m ->].
    exists py, pip. rewrite Hr. by repeat split.
  - split; [by eapply run_tool_unclassified|]. right. by exists pip.
Qed.

(** X12. [setup_venv] returns, raises [ScribeEnvironmentError], or lets
    through the exception of a path query; it never raises
    [ScribeToolError]. An exception of the query whether the
    environment exists leaves the method before anything is run.
    Otherwise the creation command is handed to the runner exactly when
    the environment does not exist, and first. The method returns only
    if the creation, when it ran, exited with code 0, both executables
    were found and are recorded in the manager, and the upgrade of the
    packaging tools was handed to the runner once, with the [pip]
    found; its exit code and a [ScribeToolError] of the runner do not
    matter. After a [ScribeEnvironmentError] no command follows the
    creation. *)
Theorem setup_venv_outcomes (em : EnvironmentManager) (w : World) :
  match path_exists w (_venv_path em) with
  | Throws e =>
      setup_venv em w
      = {| result := Fails (Unclassified e); self := em; world_after := w;
           handed := [] |}
  | Val existing =>
      exists created rest,
        handed (setup_venv em w) = created ++ rest
        /\ created
           = (if existing then []
              else [(venv_create_cmd sys_executable em,
                     (run_tool (venv_create_cmd sys_executable em)
                        (_target_dir em) None None
                        (Some (default_tool_timeout cfg)) w).1)])
        /\ match result (setup_venv em w) with
           | Done _ =>
               (forall c, c ∈ created ->
                  exists res, c.2 = Done res /\ returncode res = 0%Z)
               /\ exists py pip r,
                    _venv_python_path (self (setup_venv em w)) = Some py
                    /\ _pip_path (self (setup_venv em w)) = Some pip
                    /\ rest = [(pip_upgrade_cmd pip, r)]
                    /\ forall e, r <> Fails (Unclassified e)
           | Fails (Classified e) =>
               (exists m, e = ScribeEnvironmentError m) /\ rest = []
           | Fails (Unclassified e) =>
               thrown e
               /\ (rest = []
                   \/ exists pip,
                        rest = [(pip_upgrade_cmd pip,
                                 Fails (Unclassified e))])
           end
  end.
Proof.
  unfold Fallible.setup_venv.
  destruct (path_exists w (_venv_path em)) as [[|]|e] eqn:Hex; [| |done].
  - exists []. pose proof (setup_tail_outcomes em w []) as H.
    destruct (result (setup_tail em w [])) as [[]|[e|e]].
    + destruct H as (py & pip & _ & _ & Hpy & Hpip & Hh & Hne).
      eexists. split; [exact Hh|]. split; [done|].
      split; [by intros c ?%elem_of_nil|]. exists py, pip. eexists. split; [exact Hpy|]. split; [exact Hpip|].
        split; [reflexivity | exact Hne].
    + destruct H as (-> & Hh & _). exists []. split; [done|].
      split; [done|]. split; [by eexists | done].
    + destruct H as (Ht & [Hh | [pip Hh]]).
      * exists []. by repeat split; auto.
      * eexists. split; [exact Hh|]. split; [done|]. split; [done|].
        right. by exists pip.
  - destruct (run_tool (venv_create_cmd sys_executable em) (_target_dir em)
                None None (Some (default_tool_timeout cfg)) w)
      as [r w'] eqn:Hrun.
    assert (Hr : (run_tool (venv_create_cmd sys_executable em)
                    (_target_dir em) None None
                    (Some (default_tool_timeout cfg)) w).1 = r)
      by (by rewrite Hrun).
    cbn [fst snd]. exists [(venv_create_cmd sys_executable em, r)].
    destruct r as [res|[e|e]]; cbn [Fallible.after_creation].
    + destruct (returncode res =? 0)%Z eqn:Hrc; cbn [negb].
      2: { cbn. exists []. split; [done|]. split; [done|].
           split; [by eexists | done]. }
      pose proof (setup_tail_outcomes em w'
                    [(venv_create_cmd sys_executable em, Done res)]) as H.
      destruct (result (setup_tail em w' _)) as [[]|[e|e]].
      * destruct H as (py & pip & _ & _ & Hpy & Hpip & Hh & Hne).
        eexists. split; [exact Hh|]. split; [done|]. split.
        { intros c ->%list_elem_of_singleton. exists res. split; [done|].
          by apply Z.eqb_eq. }
        exists py, pip. eexists. split; [exact Hpy|]. split; [exact Hpip|].
        split; [reflexivity | exact Hne].
      * destruct H as (-> & Hh & _). exists []. rewrite app_nil_r.
        split; [done|]. split; [done|]. split; [by eexists | done].
      * destruct H as (Ht & [Hh | [pip Hh]]).
        -- exists []. rewrite app_nil_r. by repeat split; auto.
        -- eexists. split; [exact Hh|]. split; [done|]. split; [done|].
           right. by exists pip.
    + destruct (run_tool_classified _ _ _ _ _ _ _ Hr) as [m ->]. cbn.
      exists []. split; [done|]. split; [done|]. split; [by eexists | done].
    + cbn. exists []. split; [done|]. split; [done|].
      split; [by eapply run_tool_unclassified | by left].
Qed.

End Machine.

(** *** When every query returns *)

Section Returning.

Variable Float : Type.
Variable float_le0 : Float -> bool.
Variable float_str : Float -> string.
Variable World : Type.
Variable win32 : bool.
Variable is_file_x : World -> string -> bool.
Variable is_dir : World -> string -> bool.
Variable path_exists : World -> string -> bool.
Variable which : World -> string -> option string.
Variable os_environ : World -> gmap string string.
Variable resolve : string -> string.
Variable expanduser : string -> string.
Variable quote : string -> string.
Variable subprocess_run :
  list string -> string -> gmap string string -> option Float ->
  World -> Proc * World.
Variable cfg : Config Float.
Variable sys_executable : string.

Abbreviation asked f := (fun (w : World) (p : string) => Val (f w p)).
Abbreviation path_op f := (fun (_ : World) (p : string) => Val (f p)).

Lemma find_in_bin_returns (w : World) (d n : string) (sfxs : list string) :
  Fallible.find_in_bin World win32 (asked is_file_x) (path_op resolve)
    w d n sfxs
  = Val (resolve
           <$> head (filter (fun p => is_file_x w p = true)
                       ((fun sfx => path_join win32 d (n +:+ sfx))
                          <$> sfxs))).
Proof.
  induction sfxs as [|sfx rest IH]; [done|].
  cbn [Fallible.find_in_bin fmap list_fmap]. rewrite filter_cons.
  destruct (is_file_x w _) eqn:Hx.
  - by rewrite decide_True.
  - rewrite decide_False; [done | congruence].
Qed.

(** With queries that return, [_find_executable] finds what the
    runner of [ProcessRunner] finds, and raises its
    [FileNotFoundError] where that one finds nothing. *)
Lemma find_executable_returns (n : string) (vp : option string)
    (w : World) :
  Fallible._find_executable Float World win32 (asked is_file_x)
    (asked is_dir) (path_op resolve) (path_op expanduser) which cfg n vp w
  = match ProcessRunner._find_executable Float World win32 is_file_x is_dir
            which resolve expanduser cfg n vp w with
    | Some p => Val p
    | None => Throws (not_found n)
    end.
Proof.
  unfold Fallible._find_executable, ProcessRunner._find_executable,
    Fallible.configured_tool, Fallible.venv_tool.
  destruct (tool_paths cfg !! n) as [s|];
    [destruct (nonempty (strip s)); [destruct (is_file_x w _); [done|] |] |].
  all: destruct vp as [vp|];
    [destruct (is_dir w _);
       [rewrite find_in_bin_returns; unfold ProcessRunner.find_in_bin;
        destruct (head _); [done|] |] |].
  all: by destruct (which w n).
Qed.

Lemma proc_env_returns (vp : option string)
    (ev : option (gmap string string)) (w : World) :
  Fallible.proc_env World win32 (path_op resolve) os_environ vp ev w
  = Val (ProcessRunner.proc_env World win32 os_environ resolve vp ev w).
Proof. unfold Fallible.proc_env, ProcessRunner.proc_env. by destruct vp. Qed.

(** With queries that return, [run_tool] is the [run_tool] of
    [ProcessRunner]. *)
Lemma run_tool_returns (command_args : list string) (cwd : string)
    (vp : option string) (ev : option (gmap string string))
    (t : option Float) (w : World) :
  Fallible.run_tool Float float_le0 float_str World win32 (asked is_file_x)
    (asked is_dir) (path_op resolve) (path_op expanduser) which os_environ
    quote subprocess_run cfg command_args cwd vp ev t w
  = (of_res
       (ProcessRunner.run_tool Float float_le0 float_str World win32
          is_file_x is_dir which os_environ resolve expanduser quote
          subprocess_run cfg command_args cwd vp ev t w).1,
     (ProcessRunner.run_tool Float float_le0 float_str World win32
        is_file_x is_dir which os_environ resolve expanduser quote
        subprocess_run cfg command_args cwd vp ev t w).2).
Proof.
  unfold Fallible.run_tool, ProcessRunner.run_tool, ProcessRunner.spawn.
  destruct command_args as [|exec_name rest]; [done|].
  rewrite find_executable_returns.
  destruct (ProcessRunner._find_executable _ _ _ _ _ _ _ _ _ _ _ _);
    [|done].
  rewrite proc_env_returns.
  by destruct (subprocess_run _ _ _ _ _) as [[rc out err|c out err|m] w'].
Qed.

Lemma find_venv_executable_returns (em : EnvironmentManager) (n : string)
    (w : World) :
  Fallible.find_venv_executable World win32 (asked is_file_x) (asked is_dir)
    (path_op resolve) em n w
  = Val (ProcessRunner.find_venv_executable World win32 is_file_x is_dir
           resolve em n w).
Proof.
  unfold Fallible.find_venv_executable, ProcessRunner.find_venv_executable.
  destruct (is_dir w _); [|done]. by rewrite find_in_bin_returns.
Qed.

(** With queries that return, [setup_venv] raises, leaves and runs
    what the [setup_venv] of [ProcessRunner] does. *)
Lemma setup_venv_returns (em : EnvironmentManager) (w : World) :
  let new :=
    Fallible.setup_venv Float float_le0 float_str World win32
      (asked is_file_x) (asked is_dir) (asked path_exists) (path_op resolve)
      (path_op expanduser) which os_environ quote subprocess_run cfg
      sys_executable em w in
  let old :=
    ProcessRunner.setup_venv Float float_le0 float_str World win32 is_file_x
      is_dir path_exists which os_environ resolve expanduser quote
      subprocess_run cfg sys_executable em w in
  result new
  = match raised old with
    | None => Done tt
    | Some e => Fails (Classified e)
    end
  /\ self new = manager old
  /\ world_after new = after old
  /\ (handed new).*1 = commands old.
Proof.
  assert (Htail : forall w0 log b,
    let new :=
      Fallible.setup_tail Float float_le0 float_str World win32
        (asked is_file_x) (asked is_dir) (path_op resolve)
        (path_op expanduser) which os_environ quote subprocess_run cfg
        em w0 log in
    let old :=
      ProcessRunner.setup_tail Float float_le0 float_str World win32
        is_file_x is_dir which os_environ resolve expanduser quote
        subprocess_run cfg em w0 (log.*1) b in
    result new
    = match raised old with
      | None => Done tt
      | Some e => Fails (Classified e)
      end
    /\ self new = manager old
    /\ world_after new = after old
    /\ (handed new).*1 = commands old).
  { intros w0 log b. unfold Fallible.setup_tail, ProcessRunner.setup_tail.
    rewrite !find_venv_executable_returns.
    destruct (ProcessRunner.find_venv_executable _ _ _ _ _ em "python" w0)
      as [py|];
      destruct (ProcessRunner.find_venv_executable _ _ _ _ _ em "pip" w0)
        as [pip|]; try done.
    rewrite run_tool_returns.
    destruct (ProcessRunner.run_tool _ _ _ _ _ _ _ _ _ _ _ _ _ _ _ _ _ _ _ _)
      as [[res|[m|m]] w'] eqn:Hrun; cbn.
    - by rewrite fmap_app.
    - by rewrite fmap_app.
    - exfalso. clear -Hrun. revert Hrun.
      unfold ProcessRunner.run_tool. cbn [pip_upgrade_cmd].
      destruct (ProcessRunner._find_executable _ _ _ _ _ _ _ _ _ _ _ _);
        [|done].
      by destruct (ProcessRunner.spawn _ _ _ _ _ _ _ _ _ _ _ _ _ _)
        as [[rc out err|c out err|m'] w'']. }
  intros new old. subst new old.
  unfold Fallible.setup_venv, ProcessRunner.setup_venv.
  destruct (path_exists w (_venv_path em)); cbn [negb].
  - apply (Htail w [] true).
  - rewrite run_tool_returns.
    destruct (ProcessRunner.run_tool _ _ _ _ _ _ _ _ _ _ _ _ _ _ _ _ _ _ _ _)
      as [[res|[m|m]] w'] eqn:Hrun; cbn; [|done..].
    destruct (returncode res =? 0)%Z; cbn; [|done].
    apply (Htail w' [(venv_create_cmd sys_executable em, Done res)] false).
Qed.

End Returning.

End FallibleFacts.

(** ** Installing the dependencies *)

Module DependenciesFacts.
Import PyQuery ProcessRunner Fallible Dependencies.

Section Installer.

Variable Float : Type.
Variable float_le0 : Float -> bool.
Variable float_str : Float -> string.
Variable World : Type.
Variable win32 : bool.
Variable is_file_x : World -> string -> Query bool.
Variable is_file : World -> string -> Query bool.
Variable is_dir : World -> string -> Query bool.
Variable resolve : World -> string -> Query string.
Variable expanduser : World -> string -> Query string.
Variable which : World -> string -> option string.
Variable os_environ : World -> gmap string string.
Variable quote : string -> string.
Variable subprocess_run :
  list string -> string -> gmap string string -> option Float ->
  World -> Proc * World.
Variable cfg : Config Float.

Abbreviation thrown :=
  (Fallible.thrown World is_file_x is_dir resolve expanduser).
Abbreviation pip_run :=
  (Dependencies.pip_run Float float_le0 float_str World win32 is_file_x
     is_dir resolve expanduser which os_environ quote subprocess_run cfg).
Abbreviation chained :=
  (Dependencies.chained Float float_le0 float_str World win32 is_file_x
     is_dir resolve expanduser which os_environ quote subprocess_run cfg).
Abbreviation try_groups :=
  (Dependencies.try_groups Float float_le0 float_str World win32 is_file_x
     is_dir resolve expanduser which os_environ quote subprocess_run cfg).
Abbreviation install_branch :=
  (Dependencies.install_branch Float float_le0 float_str World win32
     is_file_x is_file is_dir resolve expanduser which os_environ quote
     subprocess_run cfg).
Abbreviation closing_check :=
  (Dependencies.closing_check World win32 is_file).
Abbreviation install_dependencies :=
  (Dependencies.install_dependencies Float float_le0 float_str World win32
     is_file_x is_file is_dir resolve expanduser which os_environ quote
     subprocess_run cfg).

(** What a call of the runner for [pip] did: it exited with code 0, it
    did not install, or a query raised. *)
Lemma pip_run_cases (em : EnvironmentManager) (cmd : list string)
    (w : World) :
  installed (pip_run em cmd w).1
  \/ not_installed (pip_run em cmd w).1
  \/ exists e, (pip_run em cmd w).1 = Fails (Unclassified e) /\ thrown e.
Proof.
  destruct (pip_run em cmd w).1 as [res|[e|e]] eqn:Hr.
  - destruct (decide (returncode res = 0%Z)) as [Hz|Hz].
    + left. by exists res.
    + right. left. left. by exists res.
  - destruct (FallibleFacts.run_tool_classified _ _ _ _ _ _ _ _ _ _ _ _ _
                _ _ _ _ _ _ _ _ Hr) as [m ->].
    right. left. right. by exists m.
  - right. right. exists e. split; [done|].
    by eapply FallibleFacts.run_tool_unclassified.
Qed.

(** The log with which the loop starts is kept in front of what the
    loop adds, and changes nothing else. *)
Lemma try_groups_log (em : EnvironmentManager) (pip : string)
    (grps : list string) (w : World) (log : list Handed) :
  try_groups em pip grps w log
  = {| result := result (try_groups em pip grps w []);
       self := em;
       world_after := world_after (try_groups em pip grps w []);
       handed := log ++ handed (try_groups em pip grps w []) |}.
Proof.
  revert w log. induction grps as [|grp rest IH]; intros w log.
  { cbn. by rewrite app_nil_r. }
  cbn [Dependencies.try_groups].
  destruct (pip_run em (editable_install_cmd pip grp) w) as [r w'].
  cbn [fst snd]. destruct r as [res|[[m|m]|e]]; try done.
  - destruct (returncode res =? 0)%Z; [done|].
    rewrite (IH w' (log ++ _)), (IH w' ([] ++ _)). cbn.
    by rewrite <- app_assoc.
  - rewrite (IH w' (log ++ _)), (IH w' ([] ++ _)). cbn.
    by rewrite <- app_assoc.
Qed.

(** The loop over the groups: every command but the last did not
    install; the loop ends with [inst] set at the first command that
    exits with code 0, without it after the last group, and with the
    exception of a query where one is raised. *)
Lemma try_groups_attempts (em : EnvironmentManager) (pip : string)
    (grps : list string) (w : World) :
  grps <> [] ->
  chained em w (handed (try_groups em pip grps w []))
  /\ exists earlier r_last,
       (handed (try_groups em pip grps w [])).*1
       = editable_install_cmd pip <$> take (S (length earlier)) grps
       /\ length earlier < length grps
       /\ (handed (try_groups em pip grps w [])).*2 = earlier ++ [r_last]
       /\ Forall not_installed earlier
       /\ match result (try_groups em pip grps w []) with
          | Done true => installed r_last
          | Done false =>
              S (length earlier) = length grps /\ not_installed r_last
          | Fails (Unclassified e) =>
              r_last = Fails (Unclassified e) /\ thrown e
          | Fails (Classified _) => False
          end.
Proof.
  revert w. induction grps as [|grp rest IH]; intros w Hne; [done|].
  cbn [Dependencies.try_groups].
  pose proof (pip_run_cases em (editable_install_cmd pip grp) w) as Hc.
  assert (Hlast : forall inst : Run bool,
    match inst with
    | Done true => installed (pip_run em (editable_install_cmd pip grp) w).1
    | Done false =>
        1 = length (grp :: rest)
        /\ not_installed (pip_run em (editable_install_cmd pip grp) w).1
    | Fails (Unclassified e) =>
        (pip_run em (editable_install_cmd pip grp) w).1
        = Fails (Unclassified e) /\ thrown e
    | Fails (Classified _) => False
    end ->
    chained em w [(editable_install_cmd pip grp,
                   (pip_run em (editable_install_cmd pip grp) w).1)]
    /\ exists earlier r_last,
         [editable_install_cmd pip grp]
         = editable_install_cmd pip <$> take (S (length earlier)) (grp :: rest)
         /\ length earlier < length (grp :: rest)
         /\ [(pip_run em (editable_install_cmd pip grp) w).1]
            = earlier ++ [r_last]
         /\ Forall not_installed earlier
         /\ match inst with
            | Done true => installed r_last
            | Done false =>
                S (length earlier) = length (grp :: rest)
                /\ not_installed r_last
            | Fails (Unclassified e) =>
                r_last = Fails (Unclassified e) /\ thrown e
            | Fails (Classified _) => False
            end).
  { intros inst Hi. split; [done|].
    exists [], (pip_run em (editable_install_cmd pip grp) w).1.
    split; [done|]. split; [cbn; lia|]. split; [done|]. by split. }
  assert (Hnext :
    not_installed (pip_run em (editable_install_cmd pip grp) w).1 ->
    let r :=
      try_groups em pip rest (pip_run em (editable_install_cmd pip grp) w).2
        ([] ++ [(editable_install_cmd pip grp,
                 (pip_run em (editable_install_cmd pip grp) w).1)]) in
    chained em w (handed r)
    /\ exists earlier r_last,
         (handed r).*1
         = editable_install_cmd pip <$> take (S (length earlier)) (grp :: rest)
         /\ length earlier < length (grp :: rest)
         /\ (handed r).*2 = earlier ++ [r_last]
         /\ Forall not_installed earlier
         /\ match result r with
            | Done true => installed r_last
            | Done false =>
                S (length earlier) = length (grp :: rest)
                /\ not_installed r_last
            | Fails (Unclassified e) =>
                r_last = Fails (Unclassified e) /\ thrown e
            | Fails (Classified _) => False
            end).
  { intros Hn r. subst r. destruct rest as [|grp' rest'].
    { cbn [Dependencies.try_groups result handed app].
      apply (Hlast (Done false)). by split. }
    rewrite try_groups_log. cbn [result handed app].
    destruct (IH (pip_run em (editable_install_cmd pip grp) w).2)
      as (Hch & earlier & r_last & Hcmds & Hlen & Hout & Hall & Hres);
      [done|].
    split; [by split|].
    exists ((pip_run em (editable_install_cmd pip grp) w).1 :: earlier),
      r_last.
    split; [cbn [fmap list_fmap fst length take]; by rewrite Hcmds|].
    split; [cbn [length] in *; lia|].
    split; [cbn [fmap list_fmap snd app]; by rewrite Hout|].
    split; [by constructor|].
    destruct (result _) as [[|]|[?|?]]; [done| |done..].
    cbn [length] in *. split; [lia | tauto]. }
  destruct (pip_run em (editable_install_cmd pip grp) w) as [r w'].
  cbn [fst snd] in *. destruct r as [res|[[m|m]|e]].
  - destruct (returncode res =? 0)%Z eqn:Hrc.
    + apply (Hlast (Done true)). exists res. split; [done|].
      by apply Z.eqb_eq.
    + apply Hnext. left. exists res. split; [done|]. by apply Z.eqb_neq.
  - apply Hnext. right. by exists m.
  - destruct Hc as [(res & [=] & _) | [[(res & [=] & _) | (m' & [=])]
                     | (e & [=] & _)]].
  - apply (Hlast (Fails (Unclassified e))). split; [done|].
    destruct Hc as [(res & [=] & _) | [[(res & [=] & _) | (m' & [=])]
                     | (e' & [= <-] & Ht)]]. done.
Qed.

(** X13. With the environment's [pip] set, [install_dependencies] asks
    for [pyproject.toml] first. With that file it hands the editable
    install of the optional-dependency groups to the runner in their
    order, one command each, every command in the world that the one
    before left: each command before the last one handed over ended
    with an exit code other than 0 or with a [ScribeToolError]; the
    method returns exactly at a command that exits with code 0, raises
    [ScribeEnvironmentError] when the fifth command too has not
    installed, and lets the exception of a path query through. Only
    without a [pyproject.toml] is a [requirements.txt] installed, with a
    single command, and then the method returns exactly when the
    command exits with code 0. With neither file nothing is run and
    the method returns. *)
Theorem install_dependencies_attempts (em : EnvironmentManager)
    (pip : string) (w : World) :
  _pip_path em = Some pip ->
  match is_file w (pyproject_path win32 em) with
  | Throws e =>
      install_dependencies em w
      = {| result := Fails (Unclassified e); self := em; world_after := w;
           handed := [] |}
  | Val true =>
      exists k earlier r_last,
        k < 5
        /\ length earlier = k
        /\ chained em w (handed (install_dependencies em w))
        /\ (handed (install_dependencies em w)).*1
           = editable_install_cmd pip <$> take (S k) groups
        /\ (handed (install_dependencies em w)).*2 = earlier ++ [r_last]
        /\ Forall not_installed earlier
        /\ match result (install_dependencies em w) with
           | Done _ => installed r_last
           | Fails (Classified e) =>
               e = ScribeEnvironmentError
                     "All pyproject.toml install attempts failed."
               /\ k = 4 /\ not_installed r_last
           | Fails (Unclassified e) => r_last = Fails (Unclassified e)
           end
  | Val false =>
      match is_file w (requirements_path win32 em) with
      | Throws e =>
          install_dependencies em w
          = {| result := Fails (Unclassified e); self := em;
               world_after := w; handed := [] |}
      | Val true =>
          handed (install_dependencies em w)
          = [(requirements_install_cmd pip (requirements_path win32 em),
              (pip_run em
                 (requirements_install_cmd pip (requirements_path win32 em))
                 w).1)]
          /\ (result (install_dependencies em w) = Done tt
              <-> installed
                    (pip_run em
                       (requirements_install_cmd pip
                          (requirements_path win32 em)) w).1)
      | Val false =>
          install_dependencies em w
          = {| result := Done tt; self := em; world_after := w;
               handed := [] |}
      end
  end.
Proof.
  intros Hpip. unfold Dependencies.install_dependencies,
    Dependencies.install_branch. rewrite Hpip.
  destruct (is_file w (pyproject_path win32 em)) as [[|]|e] eqn:Hpy;
    [| |done].
  - destruct (try_groups_attempts em pip groups w)
      as (Hch & earlier & r_last & Hcmds & Hlen & Hout & Hall & Hres);
      [done|].
    exists (length earlier), earlier, r_last.
    split; [exact Hlen|]. split; [done|].
    destruct (result (try_groups em pip groups w [])) as [[|]|[e|e]] eqn:Hr;
      cbn [result handed world_after]; rewrite ?Hr;
      cbn [Dependencies.closing_check];
      [| |done|]; repeat (split; [done|]).
    + done.
    + destruct Hres as [Hk Hn]. cbn [length groups] in Hk.
      split; [lia | done].
    + by destruct Hres.
  - destruct (is_file w (requirements_path win32 em)) as [[|]|e] eqn:Hrq;
      [| |done].
    + cbn [result handed world_after]. split; [done|].
      destruct (pip_run em _ w) as [r w'] eqn:Hrun. cbn [fst snd].
      destruct r as [res|[[m|m]|e]]; cbn [Dependencies.after_requirements].
      * destruct (returncode res =? 0)%Z eqn:Hrc; cbn [negb].
        -- cbn. split; [|done]. intros _. exists res. split; [done|].
           by apply Z.eqb_eq.
        -- split; [done|]. intros (res' & [= <-] & Hz).
           apply Z.eqb_neq in Hrc. done.
      * split; [done|]. by intros (res & [=] & _).
      * split; [done|]. by intros (res & [=] & _).
      * split; [done|]. by intros (res & [=] & _).
    + cbn [result handed world_after Dependencies.closing_check].
      by rewrite Hpy, Hrq.
Qed.

(** X14. What [install_dependencies] raises is a
    [ScribeEnvironmentError] or the exception of a path query, never a
    [ScribeToolError]: the errors of the runner are swallowed in the
    loop over the groups and converted for [requirements.txt]. The
    closing check of the method never fires: its message is raised in
    no world. *)
Theorem install_dependencies_errors (em : EnvironmentManager) (w : World)
    (x : Raised) :
  result (install_dependencies em w) = Fails x ->
  match x with
  | Classified e =>
      exists m, e = ScribeEnvironmentError m /\ m <> "Dep install fail."
  | Unclassified e =>
      thrown e
      \/ is_file w (pyproject_path win32 em) = Throws e
      \/ is_file w (requirements_path win32 em) = Throws e
  end.
Proof.
  unfold Dependencies.install_dependencies, Dependencies.install_branch.
  destruct (_pip_path em) as [pip|];
    [|intros [= <-]; eexists; by split].
  destruct (is_file w (pyproject_path win32 em)) as [[|]|e] eqn:Hpy.
  - destruct (try_groups_attempts em pip groups w)
      as (_ & earlier & r_last & _ & _ & _ & _ & Hres); [done|].
    destruct (result (try_groups em pip groups w [])) as [[|]|[e|e]] eqn:Hr;
      cbn [result handed world_after]; rewrite ?Hr;
      cbn [Dependencies.closing_check]; [done| |done|].
    + intros [= <-]. eexists. by split.
    + intros [= <-]. left. by destruct Hres.
  - destruct (is_file w (requirements_path win32 em)) as [[|]|e] eqn:Hrq.
    + cbn [result handed world_after].
      destruct (pip_run_cases em
                  (requirements_install_cmd pip (requirements_path win32 em))
                  w)
        as [(res & Hr & Hz) | [[(res & Hr & Hz) | (m & Hr)]
            | (e & Hr & Ht)]]; rewrite Hr;
        cbn [Dependencies.after_requirements].
      * apply Z.eqb_eq in Hz. by rewrite Hz.
      * apply Z.eqb_neq in Hz. rewrite Hz. cbn [negb].
        intros [= <-]. eexists. by split.
      * intros [= <-]. eexists. by split.
      * intros [= <-]. by left.
    + cbn [result handed world_after Dependencies.closing_check].
      by rewrite Hpy, Hrq.
    + cbn [result]. intros [= <-]. right. by right.
  - cbn [result]. intros [= <-]. right. by left.
Qed.

End Installer.

Lemma install_dependencies_attempts_witness :
  _pip_path Cases.ready_manager = Some "/proj/.venv/bin/pip"
  /\ exists k earlier r_last,
       k < 5
       /\ length earlier = k
       /\ Dependencies.chained Z (fun t => (t <=? 0)%Z) pretty unit false
            (Cases.returns Cases.nowhere)
            (Cases.returns Cases.nowhere) Cases.same Cases.same
            Cases.on_path Cases.plain_environ Scenarios.m_id
            (Cases.always_exits 0 "") Scenarios.m_cfg Cases.ready_manager tt
            (handed (Cases.install_with Cases.same
                       (Cases.always_exits 0 "")))
       /\ (handed (Cases.install_with Cases.same
                     (Cases.always_exits 0 ""))).*1
          = editable_install_cmd "/proj/.venv/bin/pip" <$> take (S k) groups
       /\ (handed (Cases.install_with Cases.same
                     (Cases.always_exits 0 ""))).*2
          = earlier ++ [r_last]
       /\ Forall not_installed earlier
       /\ match result (Cases.install_with Cases.same
                          (Cases.always_exits 0 "")) with
          | Done _ => installed r_last
          | Fails (Classified e) =>
              e = ScribeEnvironmentError
                    "All pyproject.toml install attempts failed."
              /\ k = 4 /\ not_installed r_last
          | Fails (Unclassified e) => r_last = Fails (Unclassified e)
          end.
Proof.
  split; [reflexivity|].
  exact (install_dependencies_attempts Z
           (fun t => (t <=? 0)%Z) pretty unit false
           (Cases.returns Cases.nowhere)
           (Cases.returns (Cases.only "/proj/pyproject.toml"))
           (Cases.returns Cases.nowhere) Cases.same Cases.same
           Cases.on_path Cases.plain_environ Scenarios.m_id
           (Cases.always_exits 0 "") Scenarios.m_cfg
           Cases.ready_manager "/proj/.venv/bin/pip" tt eq_refl).
Defined.

Lemma install_dependencies_errors_witness :
  result (Cases.install_with Cases.same Cases.always_hangs)
  = Fails (Classified
             (ScribeEnvironmentError
                "All pyproject.toml install attempts failed."))
  /\ exists m,
       ScribeEnvironmentError "All pyproject.toml install attempts failed."
       = ScribeEnvironmentError m
       /\ m <> "Dep install fail.".
Proof.
  split; [reflexivity|].
  exact (install_dependencies_errors Z
           (fun t => (t <=? 0)%Z) pretty unit false
           (Cases.returns Cases.nowhere)
           (Cases.returns (Cases.only "/proj/pyproject.toml"))
           (Cases.returns Cases.nowhere) Cases.same Cases.same
           Cases.on_path Cases.plain_environ Scenarios.m_id
           Cases.always_hangs Scenarios.m_cfg Cases.ready_manager tt _
           eq_refl).
Defined.

(** On the machine where every install succeeds one command is run, for
    the largest group. *)
Example install_first_group :
  Cases.install_with Cases.same (Cases.always_exits 0 "")
  = {| result := Done tt; self := Cases.ready_manager; world_after := tt;
       handed :=
         [(editable_install_cmd "/proj/.venv/bin/pip"
             "[dev,test,lint,format]",
           Done {| args := ["/proj/.venv/bin/pip"; "install";
                            "--disable-pip-version-check"; "-e";
                            ".[dev,test,lint,format]"];
                   returncode := 0; stdout := ""; stderr := "" |})] |}.
Proof. reflexivity. Qed.

(** On the machine where every install exits with code 1 all five
    commands are run and the method raises. *)
Example install_all_groups_fail :
  result (Cases.install_with Cases.same (Cases.always_exits 1 ""))
  = Fails (Classified
             (ScribeEnvironmentError
                "All pyproject.toml install attempts failed."))
  /\ (handed (Cases.install_with Cases.same
                (Cases.always_exits 1 ""))).*1
     = editable_install_cmd "/proj/.venv/bin/pip" <$> groups.
Proof. split; reflexivity. Qed.

(** When the environment directory lies on a loop of symbolic links,
    the [RuntimeError] of [Path.resolve] leaves [run_tool] and
    [install_dependencies] as it is, after the first command was handed
    over and before any process is started. *)
Example install_lets_a_runtime_error_through :
  Cases.install_with Cases.looping_venv (Cases.always_exits 0 "")
  = {| result :=
         Fails (Unclassified
                  {| err_class := "RuntimeError";
                     err_text := "Symlink loop from '/proj/.venv'" |});
       self := Cases.ready_manager; world_after := tt;
       handed :=
         [(editable_install_cmd "/proj/.venv/bin/pip"
             "[dev,test,lint,format]",
           Fails (Unclassified
                    {| err_class := "RuntimeError";
                       err_text := "Symlink loop from '/proj/.venv'" |}))] |}.
Proof. reflexivity. Qed.

End DependenciesFacts.

(** ** The check of the target directory *)

Module TargetDirFacts.
Import PyQuery Config TargetDir.

Section Validate.

Variable World : Type.
Variable is_dir : World -> string -> Query bool.
Variable expanduser : World -> string -> Query string.
Variable resolve : World -> string -> Query string.
Variable resolve_strict : World -> string -> Query string.
Variable list_repr : list string -> string.
Variable not_a_path : Value -> string.
Variable config : Dict.

Abbreviation resolve_base :=
  (TargetDir.resolve_base World expanduser resolve not_a_path).
Abbreviation resolve_bases :=
  (TargetDir.resolve_bases World expanduser resolve not_a_path).
Abbreviation _validate_target_dir :=
  (TargetDir._validate_target_dir World is_dir expanduser resolve
     resolve_strict list_repr not_a_path config).

(** An element of the list gives a base exactly when it is a string
    that can be expanded and resolved. *)
Lemma resolve_base_val (w : World) (p : Value) (b : string) :
  resolve_base w p = Val b
  <-> exists s expanded,
        p = VStr s /\ expanduser w s = Val expanded
        /\ resolve w expanded = Val b.
Proof.
  unfold TargetDir.resolve_base. split.
  - destruct p as [| s | | | |]; try done.
    destruct (expanduser w s) as [ex|e] eqn:He; [|done].
    intros Hr. by exists s, ex.
  - intros (s & ex & -> & He & Hr). by rewrite He.
Qed.

(** The list comprehension gives a list exactly when every element
    gives a base, and then the bases in the order of the elements. *)
Lemma resolve_bases_val (w : World) (l : list Value) (bases : list string) :
  resolve_bases w l = Val bases
  <-> Forall2 (fun p b => resolve_base w p = Val b) l bases.
Proof.
  revert bases. induction l as [|p l IH]; intros bases; cbn.
  - split; [intros [= <-]; constructor | by intros ->%Forall2_nil_inv_l].
  - destruct (resolve_base w p) as [b|e] eqn:Hb.
    + destruct (resolve_bases w l) as [bs|e] eqn:Hbs.
      * split.
        -- intros [= <-]. constructor; [done|]. by apply IH.
        -- intros (b' & bs' & Hb' & Hbs' & ->)%Forall2_cons_inv_l.
           apply IH in Hbs'. congruence.
      * split; [done|].
        intros (b' & bs' & Hb' & Hbs' & ->)%Forall2_cons_inv_l.
        apply IH in Hbs'. congruence.
    + split; [done|].
      intros (b' & bs' & Hb' & Hbs' & ->)%Forall2_cons_inv_l. congruence.
Qed.

(** X17. [_validate_target_dir] accepts a path exactly when it can be
    expanded and resolves to an existing directory, and either no base
    is configured, which lifts the restriction, or every configured
    base is a string that can be expanded and resolved and the text of
    the resolved directory starts with the text of one of the resolved
    bases. One base that is no string, or that cannot be expanded or
    resolved, rejects every directory. The comparison is one of texts,
    not of path components. What is accepted is the resolved
    directory. *)
Theorem validate_target_dir_accepts (dir_path_str t : string) (w : World) :
  _validate_target_dir dir_path_str w = Accepted t
  <-> exists expanded,
        expanduser w dir_path_str = Val expanded
        /\ resolve_strict w expanded = Val t
        /\ is_dir w t = Val true
        /\ (get_list config "allowed_target_bases" (Some []) = []
            \/ exists bases b,
                 Forall2
                   (fun p base =>
                      exists s expanded_base,
                        p = VStr s
                        /\ expanduser w s = Val expanded_base
                        /\ resolve w expanded_base = Val base)
                   (get_list config "allowed_target_bases" (Some [])) bases
                 /\ b ∈ bases
                 /\ String.prefix b t = true).
Proof.
  assert (Hbases : forall l bases,
    Forall2
      (fun p base =>
         exists s expanded_base,
           p = VStr s /\ expanduser w s = Val expanded_base
           /\ resolve w expanded_base = Val base) l bases
    <-> resolve_bases w l = Val bases).
  { intros l bases. rewrite resolve_bases_val. split; intros H;
      (eapply Forall2_impl; [exact H|]); intros p b Hp;
      by apply resolve_base_val. }
  unfold TargetDir._validate_target_dir, handled, rejected.
  destruct (expanduser w dir_path_str) as [ex|e] eqn:He.
  2: { split; [by destruct (is_file_not_found e)|]. by intros (? & [=] & _). }
  destruct (resolve_strict w ex) as [t0|e] eqn:Hs.
  2: { split; [by destruct (is_file_not_found e)|].
       intros (? & [= <-] & ? & _). congruence. }
  destruct (is_dir w t0) as [[|]|e] eqn:Hd.
  2: { split; [done|]. intros (? & [= <-] & ? & ? & _). congruence. }
  2: { split; [by destruct (is_file_not_found e)|].
       intros (? & [= <-] & ? & ? & _). congruence. }
  destruct (get_list config "allowed_target_bases" (Some [])) as [|v l] eqn:Hl.
  { split.
    - intros [= ->]. exists ex. auto.
    - intros (? & [= <-] & ? & _). congruence. }
  destruct (resolve_bases w (v :: l)) as [bases|e] eqn:Hm.
  2: { split; [by destruct (is_file_not_found e)|].
       intros (? & _ & _ & _ & [? | (bs & b & Hf & _)]); [done|].
       apply Hbases in Hf. congruence. }
  destruct (existsb (fun b => String.prefix b t0) bases) eqn:Hp.
  - apply existsb_exists in Hp as (b & Hb & Hp).
    apply list_elem_of_In in Hb. split.
    + intros [= ->]. exists ex. split; [done|]. split; [done|].
      split; [done|]. right. exists bases, b. split; [|done].
      by apply Hbases.
    + intros (? & [= <-] & ? & _). congruence.
  - split; [done|].
    intros (? & [= <-] & Hs' & _ & [? | (bs & b & Hf & Hb & Hpre)]); [done|].
    apply Hbases in Hf.
    assert (bs = bases) as -> by congruence.
    assert (t0 = t) as -> by congruence.
    assert (existsb (fun b => String.prefix b t) bases = true); [|congruence].
    apply existsb_exists. exists b. split; [|done]. by apply list_elem_of_In.
Qed.

(** A base that cannot be resolved rejects the directory with the text
    of the exception, whether or not the directory lies under another
    base. *)
Lemma validate_target_dir_base_raises (dir_path_str expanded t : string)
    (w : World) (e : PyError) :
  expanduser w dir_path_str = Val expanded ->
  resolve_strict w expanded = Val t ->
  is_dir w t = Val true ->
  resolve_bases w (get_list config "allowed_target_bases" (Some []))
  = Throws e ->
  _validate_target_dir dir_path_str w = handled dir_path_str e.
Proof.
  intros He Hs Hd Hb. unfold TargetDir._validate_target_dir.
  rewrite He, Hs, Hd.
  destruct (get_list config "allowed_target_bases" (Some [])); [done|].
  by rewrite Hb.
Qed.

End Validate.

(** An allowed base under the home directory of a user that does not
    exist rejects an existing directory. *)
Example base_without_home_rejected :
  Cases.base_without_home
  = ScribeInputError
      "Error validating target dir '/proj': Could not determine home directory.".
Proof. reflexivity. Qed.

End TargetDirFacts.

(** ** Merging configurations *)

Module ConfigFacts.
Import Config.

Lemma depth_lookup (d : Dict) (k : string) (v : Value) :
  d !! k = Some v -> depth v < depth (VDict d).
Proof.
  intros Hk. cbn [depth]. apply Nat.lt_succ_r.
  rewrite (map_fold_delete_L _ _ k (depth v)).
  - lia.
  - intros. lia.
  - by rewrite lookup_fmap, Hk.
Qed.

(** Induction on a value through its tables. *)
Lemma value_table_ind (P : Value -> Prop) :
  (forall v, (forall d k v', v = VDict d -> d !! k = Some v' -> P v') -> P v) ->
  forall v, P v.
Proof.
  intros H v. remember (depth v) as n eqn:Hn. revert v Hn.
  induction (lt_wf n) as [n _ IH]. intros v ->. apply H.
  intros d k v' -> Hk. apply (IH (depth v')); [by apply (depth_lookup d k) | done].
Qed.

Lemma lookup_merge_configs (base updates : Dict) (k : string) :
  _merge_configs base updates !! k
  = match updates !! k with
    | Some v => Some (merge_value (base !! k) v)
    | None => base !! k
    end.
Proof.
  unfold _merge_configs. destruct (updates !! k) as [v|] eqn:Hk.
  - apply lookup_union_Some_l. by rewrite map_lookup_imap, Hk.
  - rewrite lookup_union_r; [done|]. by rewrite map_lookup_imap, Hk.
Qed.

Lemma merge_value_tables (base updates : Dict) :
  merge_value (Some (VDict base)) (VDict updates)
  = VDict (_merge_configs base updates).
Proof. reflexivity. Qed.

Lemma merge_value_None (v : Value) : merge_value None v = v.
Proof. by destruct v. Qed.

Lemma merge_value_leaf (old : option Value) (v : Value) :
  (forall d, v <> VDict d) -> merge_value old v = v.
Proof. intros Hv. destruct v; try done. by destruct (Hv d). Qed.

Lemma merge_value_self (v : Value) : merge_value (Some v) v = v.
Proof.
  induction v as [v IH] using value_table_ind. destruct v; try done.
  rewrite merge_value_tables. f_equal. apply map_eq. intros k.
  rewrite lookup_merge_configs. destruct (d !! k) as [v'|] eqn:Hk; [|done].
  f_equal. by eapply IH.
Qed.

Lemma merge_value_idem (v : Value) :
  forall old, merge_value (Some (merge_value old v)) v = merge_value old v.
Proof.
  induction v as [v IH] using value_table_ind. intros old.
  destruct v; try done.
  assert (Hself : merge_value (Some (VDict d)) (VDict d) = VDict d)
    by apply merge_value_self.
  destruct old as [[| | | | |base]|]; try exact Hself.
  rewrite !merge_value_tables. f_equal. apply map_eq. intros k.
  rewrite !lookup_merge_configs. destruct (d !! k) as [v'|] eqn:Hk; [|done].
  f_equal. apply (IH d k v' eq_refl Hk).
Qed.

(** X15. Merging a configuration file into the defaults:
    merging nothing changes nothing, merging into nothing gives the
    file, merging the same file a second time changes nothing, the keys
    of the result are those of the defaults and of the file, and an
    entry of the file that is no table replaces whatever the defaults
    held under its key. *)
Theorem merge_configs_laws (base updates : Dict) :
  _merge_configs base ∅ = base
  /\ _merge_configs ∅ updates = updates
  /\ _merge_configs (_merge_configs base updates) updates
     = _merge_configs base updates
  /\ (forall k,
        is_Some (_merge_configs base updates !! k)
        <-> is_Some (base !! k) \/ is_Some (updates !! k))
  /\ (forall k v,
        updates !! k = Some v -> (forall d, v <> VDict d) ->
        _merge_configs base updates !! k = Some v).
Proof.
  split; [|split; [|split; [|split]]].
  - apply map_eq. intros k. by rewrite lookup_merge_configs, lookup_empty.
  - apply map_eq. intros k. rewrite lookup_merge_configs, lookup_empty.
    destruct (updates !! k); [|done]. by rewrite merge_value_None.
  - apply map_eq. intros k. rewrite !lookup_merge_configs.
    destruct (updates !! k) as [v|]; [|done]. by rewrite merge_value_idem.
  - intros k. rewrite lookup_merge_configs.
    destruct (updates !! k) as [v|]; split; intros H; eauto.
    + by destruct H as [H | H]; [|by apply is_Some_None in H].
  - intros k v Hk Hv. rewrite lookup_merge_configs, Hk.
    by rewrite merge_value_leaf.
Qed.

Lemma merge_keeps_file_settings (path : list string) :
  forall (base updates : Dict) (v : Value),
  get_path path (VDict updates) = Some v -> (forall d, v <> VDict d) ->
  get_path path (VDict (_merge_configs base updates)) = Some v.
Proof.
  induction path as [|k path IH]; intros base updates v Hp Hv.
  - injection Hp as <-. by destruct (Hv updates).
  - cbn [get_path] in *. rewrite lookup_merge_configs.
    destruct (updates !! k) as [u|] eqn:Hk; [|done].
    destruct u as [| | | | |du]; try exact Hp.
    destruct (base !! k) as [[| | | | |db]|]; try exact Hp.
    rewrite merge_value_tables. by apply IH.
Qed.

Lemma merge_keeps_defaults (path : list string) :
  forall (base updates : Dict) (v : Value),
  get_path path (VDict base) = Some v ->
  get_path path (VDict updates) = None ->
  (forall q w, q `prefix_of` path -> get_path q (VDict updates) = Some w ->
     exists d, w = VDict d) ->
  get_path path (VDict (_merge_configs base updates)) = Some v.
Proof.
  induction path as [|k path IH]; intros base updates v Hb Hu Hq; [done|].
  cbn [get_path] in *. rewrite lookup_merge_configs.
  destruct (updates !! k) as [u|] eqn:Hk; [|done].
  destruct (Hq [k] u) as [du ->].
  { by apply prefix_cons, prefix_nil. }
  { cbn [get_path]. by rewrite Hk. }
  destruct (base !! k) as [vb|] eqn:Hbk; [|done].
  destruct path as [|j path]; [done|].
  destruct vb as [| | | | |db]; try done.
  rewrite merge_value_tables. apply IH; [done | done |].
  intros q w Hpre Hw. apply (Hq (k :: q) w); [by apply prefix_cons|].
  cbn [get_path]. by rewrite Hk.
Qed.

(** X16. Merged tables keep both sides at every depth. A
    setting of the file that is no table is found in the result at the
    same path, whatever the defaults held there. A setting of the
    defaults is found in the result at its path when the file holds
    nothing at that path and nothing but tables on the way to it. *)
Theorem merge_configs_by_path (base updates : Dict) :
  (forall path v,
     get_path path (VDict updates) = Some v -> (forall d, v <> VDict d) ->
     get_path path (VDict (_merge_configs base updates)) = Some v)
  /\ (forall path v,
        get_path path (VDict base) = Some v ->
        get_path path (VDict updates) = None ->
        (forall q w,
           q `prefix_of` path -> get_path q (VDict updates) = Some w ->
           exists d, w = VDict d) ->
        get_path path (VDict (_merge_configs base updates)) = Some v).
Proof.
  split; intros path v.
  - apply merge_keeps_file_settings.
  - apply merge_keeps_defaults.
Qed.

End ConfigFacts.

(** ** Lengths of slices and of decimal numbers *)

Module PyTextFacts.
Import PyStr PyText.

Lemma length_app (a b : string) :
  String.length (a +:+ b) = String.length a + String.length b.
Proof. induction a as [|c a IH]; simpl; [done|]. by rewrite IH. Qed.

Lemma length_take (k : nat) (s : string) :
  String.length (take k s) = min k (String.length s).
Proof.
  revert s. induction k as [|k IH]; intros [|c s]; simpl; try done.
  by rewrite IH.
Qed.

Lemma length_drop (k : nat) (s : string) :
  String.length (drop k s) = String.length s - k.
Proof.
  revert s. induction k as [|k IH]; intros [|c s]; simpl; try done.
Qed.

Lemma take_drop (k : nat) (s : string) : take k s +:+ drop k s = s.
Proof.
  revert s. induction k as [|k IH]; intros [|c s]; try done.
  cbn [take drop]. change (String c (take k s) +:+ drop k s)
    with (String c (take k s +:+ drop k s)). by rewrite IH.
Qed.

(** A number below [10 ^ k] is written with at most [k] digits. *)
Lemma pretty_N_go_length (k : nat) :
  forall (x : N) (s : string),
  (x < 10 ^ N.of_nat k)%N ->
  String.length (pretty_N_go x s) <= String.length s + k.
Proof.
  induction k as [|k IH]; intros x s Hx.
  - assert (x = 0%N) as -> by (simpl in Hx; lia).
    rewrite pretty_N_go_0. lia.
  - destruct (decide (x = 0%N)) as [-> | Hne].
    + rewrite pretty_N_go_0. lia.
    + rewrite pretty_N_go_step by lia.
      etrans; [apply IH|simpl; lia].
      rewrite Nat2N.inj_succ, N.pow_succ_r' in Hx.
      apply N.Div0.div_lt_upper_bound. lia.
Qed.

Lemma pow10_above (m : nat) :
  3 <= m -> (N.of_nat m + 416 < 10 ^ N.of_nat m)%N.
Proof.
  induction m as [|m IH]; [lia|]. intros Hm.
  destruct (decide (m = 2)) as [-> | Hne]; [by vm_compute|].
  rewrite Nat2N.inj_succ, N.pow_succ_r'. lia.
Qed.

(** The decimal text of a length above 500 is short. *)
Lemma length_pretty_nat (n : nat) :
  500 < n -> String.length (pretty n) + 416 <= n.
Proof.
  intros Hn. unfold pretty, pretty_nat, pretty, pretty_N.
  destruct (decide (N.of_nat n = 0%N)); [lia|].
  pose proof (pretty_N_go_length (n - 416) (N.of_nat n) "") as H.
  pose proof (pow10_above (n - 416)) as Hp.
  simpl in H. lia.
Qed.

End PyTextFacts.

(** ** The tool steps *)

Module ToolStepsFacts.
Import PyStr PyText PyTextFacts ProcessRunner ToolSteps.

(** X18. The summary that [_truncate_output] makes with its
    default lengths is never longer than the text it is given. A text
    of at most 500 characters is returned as it is, white space
    included: the method does not trim. *)
Theorem truncate_output_bounds (s : string) :
  String.length (_truncate_output (Some s) 500 200 200) <= String.length s
  /\ (String.length s <= 500 -> _truncate_output (Some s) 500 200 200 = s)
  /\ (500 < String.length s ->
      String.prefix (take 200 s) (_truncate_output (Some s) 500 200 200)
      = true)
  /\ _truncate_output None 500 200 200 = "".
Proof.
  unfold _truncate_output.
  destruct s as [|c s]; [by repeat split; intros; simpl in *; try lia|].
  cbn [nonempty negb].
  destruct (500 <? String.length (String c s)) eqn:Hlen.
  - apply Nat.ltb_lt in Hlen.
    split; [|split; [lia|split; [|done]]].
    + rewrite !length_app, length_take. unfold last_chars.
      cbn [Nat.eqb]. rewrite length_drop.
      pose proof (length_pretty_nat _ Hlen).
      change (String.length nl) with 1.
      change (String.length "...(") with 4.
      change (String.length " chars)...") with 10. lia.
    + intros _. generalize (take 200 (String c s)). intros p.
      induction p as [|a p IH]; [done|]. simpl.
      by destruct (ascii_dec a a).
  - apply Nat.ltb_ge in Hlen. split; [done|]. split; [done|].
    split; [lia | done].
Qed.

Section Tools.

Variable Float : Type.
Variable float_le0 : Float -> bool.
Variable float_str : Float -> string.
Variable World : Type.
Variable win32 : bool.
Variable is_file_x : World -> string -> bool.
Variable is_dir : World -> string -> bool.
Variable which : World -> string -> option string.
Variable os_environ : World -> gmap string string.
Variable resolve : string -> string.
Variable expanduser : string -> string.
Variable quote : string -> string.
Variable subprocess_run :
  list string -> string -> gmap string string -> option Float ->
  World -> Proc * World.
Variable cfg : Config Float.
Variable is_file : World -> string -> bool.
Variable settings : Config.Dict.
Variable target_dir : string.
Variable target_file_path : option string.
Variable venv_path : string.
Variable git_exe : option string.
Variable path_name : string -> string.
Variable commit_message : string -> ModelClient.Formatted.

Abbreviation State := (AgentState World).
Abbreviation run_tool :=
  (ProcessRunner.run_tool Float float_le0 float_str World win32 is_file_x
     is_dir which os_environ resolve expanduser quote subprocess_run cfg).
Abbreviation tool :=
  (ToolSteps.tool Float float_le0 float_str World win32 is_file_x is_dir
     which os_environ resolve expanduser quote subprocess_run cfg target_dir).
Abbreviation format_code :=
  (ToolSteps.format_code Float float_le0 float_str World win32 is_file_x
     is_dir which os_environ resolve expanduser quote subprocess_run cfg
     target_dir target_file_path venv_path).
Abbreviation lint_code :=
  (ToolSteps.lint_code Float float_le0 float_str World win32 is_file_x
     is_dir which os_environ resolve expanduser quote subprocess_run cfg
     settings target_dir target_file_path venv_path).
Abbreviation type_check :=
  (ToolSteps.type_check Float float_le0 float_str World win32 is_file_x
     is_dir which os_environ resolve expanduser quote subprocess_run cfg
     settings target_dir target_file_path venv_path).
Abbreviation execute_tests :=
  (ToolSteps.execute_tests Float float_le0 float_str World win32 is_file_x
     is_dir which os_environ resolve expanduser quote subprocess_run cfg
     is_file settings target_dir venv_path).
Abbreviation run_precommit :=
  (ToolSteps.run_precommit Float float_le0 float_str World win32 is_file_x
     is_dir which os_environ resolve expanduser quote subprocess_run cfg
     is_file target_dir target_file_path venv_path).
Abbreviation commit_changes :=
  (ToolSteps.commit_changes Float float_le0 float_str World win32 is_file_x
     is_dir which os_environ resolve expanduser quote subprocess_run cfg
     target_dir target_file_path git_exe path_name commit_message).
Abbreviation after_commit :=
  (ToolSteps.after_commit Float float_le0 float_str World win32 is_file_x
     is_dir which os_environ resolve expanduser quote subprocess_run cfg
     target_dir).
Abbreviation tests_env :=
  (ToolSteps.tests_env World win32 os_environ resolve target_dir).
Abbreviation lint_cmd := (ToolSteps.lint_cmd target_file_path).
Abbreviation type_check_cmd := (ToolSteps.type_check_cmd target_file_path).
Abbreviation git_status_cmd := (ToolSteps.git_status_cmd target_file_path).
Abbreviation git_add_cmd := (ToolSteps.git_add_cmd target_file_path).

(** X19. The status that the lint step and the type-check
    step are recorded with. SUCCESS means that the tool ran and exited
    with code 0; WARNING means that it exited with code 1 and the
    configured switch of the step is not on (a switch that is missing
    counts as off). Everything else is a FAILURE: code 1 with the
    switch on, any other code (the -1 of a timeout among them), and an
    error of the runner. Either step hands one command to the runner
    and leaves the report entries alone. *)
Theorem check_steps_status (s : State) :
  (recorded_status (lint_code s).1 = STATUS_SUCCESS
   <-> exists res, (tool lint_cmd (Some venv_path) None s).1 = Ok res
                   /\ returncode res = 0%Z)
  /\ (recorded_status (lint_code s).1 = STATUS_WARNING
      <-> exists res,
            (tool lint_cmd (Some venv_path) None s).1 = Ok res
            /\ returncode res = 1%Z
            /\ Config.get_bool settings "fail_on_lint_critical" false = false)
  /\ (recorded_status (lint_code s).1 = STATUS_SUCCESS
      \/ recorded_status (lint_code s).1 = STATUS_WARNING
      \/ recorded_status (lint_code s).1 = STATUS_FAILURE)
  /\ (lint_code s).2 = (tool lint_cmd (Some venv_path) None s).2
  /\ (recorded_status (type_check s).1 = STATUS_SUCCESS
      <-> exists res,
            (tool type_check_cmd (Some venv_path) None s).1 = Ok res
            /\ returncode res = 0%Z)
  /\ (recorded_status (type_check s).1 = STATUS_WARNING
      <-> exists res,
            (tool type_check_cmd (Some venv_path) None s).1 = Ok res
            /\ returncode res = 1%Z
            /\ Config.get_bool settings "fail_on_mypy_error" false = false)
  /\ (recorded_status (type_check s).1 = STATUS_SUCCESS
      \/ recorded_status (type_check s).1 = STATUS_WARNING
      \/ recorded_status (type_check s).1 = STATUS_FAILURE)
  /\ (type_check s).2 = (tool type_check_cmd (Some venv_path) None s).2.
Proof.
  assert (Hstep : forall (cmd : list string) (b : bool) (step : Outcome * State),
    (forall e s', tool cmd (Some venv_path) None s = (Err e, s') ->
       step = (raise_of e, s')) ->
    (forall res s', tool cmd (Some venv_path) None s = (Ok res, s') ->
       step.2 = s'
       /\ exists raised,
            recorded_status raised = STATUS_FAILURE
            /\ recorded_status step.1
               = recorded_status
                   (if (returncode res =? 0)%Z then Returned STATUS_SUCCESS ∅
                    else if (returncode res =? 1)%Z
                         then Returned
                                (if b then STATUS_FAILURE else STATUS_WARNING) ∅
                         else raised)) ->
    (recorded_status step.1 = STATUS_SUCCESS
     <-> exists res, (tool cmd (Some venv_path) None s).1 = Ok res
                     /\ returncode res = 0%Z)
    /\ (recorded_status step.1 = STATUS_WARNING
        <-> exists res, (tool cmd (Some venv_path) None s).1 = Ok res
                        /\ returncode res = 1%Z /\ b = false)
    /\ (recorded_status step.1 = STATUS_SUCCESS
        \/ recorded_status step.1 = STATUS_WARNING
        \/ recorded_status step.1 = STATUS_FAILURE)
    /\ step.2 = (tool cmd (Some venv_path) None s).2).
  { intros cmd b step Herr Hok.
    destruct (tool cmd (Some venv_path) None s) as [[res | e] s'] eqn:Ht.
    - destruct (Hok res s' eq_refl) as (Hs & raised & Hr & Hst).
      rewrite Hst. cbn [fst snd].
      destruct (returncode res =? 0)%Z eqn:H0;
        [apply Z.eqb_eq in H0|apply Z.eqb_neq in H0].
      { simpl. split; [split; [by exists res | done]|].
        split; [split; [done|]|auto]. intros (r & [= <-] & H1 & _). lia. }
      destruct (returncode res =? 1)%Z eqn:H1;
        [apply Z.eqb_eq in H1|apply Z.eqb_neq in H1].
      { destruct b; simpl.
        - split; [split; [done|]|]. { intros (r & [= <-] & ?). lia. }
          split; [split; [done|]|auto]. by intros (r & _ & _ & ?).
        - split; [split; [done|]|]. { intros (r & [= <-] & ?). lia. }
          split; [split; [by exists res|done]|auto]. }
      rewrite Hr. split; [split; [done|]|]. { intros (r & [= <-] & ?). lia. }
      split; [split; [done|]|auto]. intros (r & [= <-] & ? & _). lia.
    - rewrite (Herr e s' eq_refl). cbn [fst snd].
      split; [split; [done|]|]. { by intros (r & ? & _). }
      split; [split; [done|]|auto]. by intros (r & ? & _). }
  pose proof (Hstep lint_cmd
                (Config.get_bool settings "fail_on_lint_critical" false)
                (lint_code s)) as Hl.
  pose proof (Hstep type_check_cmd
                (Config.get_bool settings "fail_on_mypy_error" false)
                (type_check s)) as Ht.
  assert (Hl' := fun a b => Hl a b). assert (Ht' := fun a b => Ht a b).
  clear Hstep Hl Ht.
  split; [|split; [|split; [|split; [|split; [|split; [|split]]]]]];
    try (apply Hl'); try (apply Ht');
    unfold ToolSteps.lint_code, ToolSteps.type_check;
    try (intros e s' ->; reflexivity);
    intros res s' ->; (split; [by repeat case_match|]);
    eexists (RaisedScribe _ ∅); (split; [reflexivity|]);
    by repeat case_match.
Qed.

(** A machine on which every process runs into its timeout. *)
Lemma tool_on_hanging_machine (s : State) (n : string) (rest : list string)
    (venv : option string) (env_vars : option (gmap string string)) :
  (forall cmd cwd env t,
     exists c o e,
       (subprocess_run cmd cwd env t (machine s)).1 = TimeoutExpired c o e) ->
  (exists e, (tool (n :: rest) venv env_vars s).1 = Err e)
  \/ (exists res, (tool (n :: rest) venv env_vars s).1 = Ok res
                  /\ returncode res = (-1)%Z).
Proof.
  intros Hhang. unfold ToolSteps.tool, ProcessRunner.run_tool. cbn [fst].
  destruct (_find_executable _ _ _ _ _ _ _ _ _ n venv (machine s))
    as [exec_path|]; [|left; by eexists].
  unfold spawn.
  destruct (Hhang (exec_path :: rest) target_dir
              (proc_env World win32 os_environ resolve venv env_vars
                 (machine s))
              (effective_timeout Float float_le0 cfg None)) as (c & o & e & H).
  destruct (subprocess_run _ _ _ _ _) as [p w']. simpl in H. subst p.
  right. by eexists.
Qed.

(** X20. On a machine where every process runs into its
    timeout, the steps that format, lint, type-check and run the tests
    are recorded as FAILURE, whatever they are given, and the
    pre-commit step is recorded as FAILURE when the project has a
    pre-commit configuration (without one it is SKIPPED and runs
    nothing). *)
Theorem tool_timeout_fails_the_step (s : State) :
  (forall cmd cwd env t,
     exists c o e,
       (subprocess_run cmd cwd env t (machine s)).1 = TimeoutExpired c o e) ->
  recorded_status (format_code s).1 = STATUS_FAILURE
  /\ recorded_status (lint_code s).1 = STATUS_FAILURE
  /\ recorded_status (type_check s).1 = STATUS_FAILURE
  /\ (forall saved, recorded_status (execute_tests saved s).1 = STATUS_FAILURE)
  /\ recorded_status (run_precommit s).1
     = (if is_file (machine s) (precommit_config win32 target_dir)
        then STATUS_FAILURE else STATUS_SKIPPED).
Proof.
  intros Hhang.
  assert (Htool : forall n rest venv env_vars,
            (exists e s', tool (n :: rest) venv env_vars s = (Err e, s'))
            \/ (exists res s',
                  tool (n :: rest) venv env_vars s = (Ok res, s')
                  /\ returncode res = (-1)%Z)).
  { intros n rest venv env_vars.
    destruct (tool_on_hanging_machine s n rest venv env_vars Hhang)
      as [[e He] | (res & Hres & Hrc)];
      destruct (tool (n :: rest) venv env_vars s) as [r s'];
      simpl in *; subst r; [left | right]; eauto. }
  split; [|split; [|split; [|split]]].
  - unfold ToolSteps.format_code, format_cmd.
    destruct (Htool "ruff" ["format"; target_text target_file_path]
                (Some venv_path) None)
      as [(e & s' & ->) | (res & s' & -> & Hrc)]; [done|]. by rewrite Hrc.
  - unfold ToolSteps.lint_code, ToolSteps.lint_cmd.
    destruct (Htool "ruff" ["check"; "--fix"; target_text target_file_path]
                (Some venv_path) None)
      as [(e & s' & ->) | (res & s' & -> & Hrc)]; [done|]. by rewrite Hrc.
  - unfold ToolSteps.type_check, ToolSteps.type_check_cmd.
    destruct (Htool "mypy" [target_text target_file_path]
                (Some venv_path) None)
      as [(e & s' & ->) | (res & s' & -> & Hrc)]; [done|]. by rewrite Hrc.
  - intros saved. unfold ToolSteps.execute_tests.
    destruct (negb (Steps.py_truthy (saved_path saved))); [done|].
    destruct (saved_path saved) as [|p| |]; try done.
    destruct (negb (is_file (machine s) p)); [done|]. unfold pytest_cmd.
    destruct (Htool "pytest" [p; "-v"] (Some venv_path)
                (Some (tests_env (machine s))))
      as [(e & s' & ->) | (res & s' & -> & Hrc)]; [done|]. by rewrite Hrc.
  - unfold ToolSteps.run_precommit, precommit_cmd.
    destruct (is_file (machine s) (precommit_config win32 target_dir));
      [|done]. cbn [negb].
    destruct (Htool "pre-commit"
                ["run"; "--files"; target_text target_file_path]
                (Some venv_path) None)
      as [(e & s' & ->) | (res & s' & -> & Hrc)]; [done|]. by rewrite Hrc.
Qed.

(** X21. [execute_tests] runs nothing unless it is given the
    path of a file: without an argument, with the payload of a
    [save_tests] that had no code to save (WARNING), and with a path
    that is no file, it returns FAILURE and leaves the state as it
    is. *)
Theorem execute_tests_needs_saved_file (s : State) :
  execute_tests None s
  = (Returned STATUS_FAILURE {[ "message" := PStr "Test file not found: " ]},
     s)
  /\ (forall (X : Type) (test_dir : string) (path_stem : string -> string)
             (write_ok : string -> bool) (arg : option Details)
             (w w' : Steps.StepWorld X) (d : Details),
        Steps.save_tests X test_dir path_stem write_ok arg w
        = (Returned STATUS_WARNING d, w') ->
        execute_tests (Some d) s
        = (Returned STATUS_FAILURE
             {[ "message" := PStr "Test file not found: " ]}, s))
  /\ (forall saved p,
        saved_path saved = PStr p -> is_file (machine s) p = false ->
        execute_tests saved s
        = (Returned STATUS_FAILURE
             {[ "message" := PStr ("Test file not found: " +:+ p) ]}, s)).
Proof.
  split; [done|]. split.
  - intros X test_dir path_stem write_ok arg w w' d.
    unfold Steps.save_tests.
    destruct (negb (Steps.py_truthy _)).
    + intros [= <- <-]. reflexivity.
    + destruct (Steps.target_file_path w); [|discriminate].
      repeat case_match; discriminate.
  - intros saved p Hp Hf. unfold ToolSteps.execute_tests. rewrite Hp, Hf.
    destruct p; reflexivity.
Qed.

(** X22. The process that [execute_tests] starts. With the
    test file in place and [pytest] found, one process is run, in the
    target directory, on [pytest <file> -v]. Its [PYTHONPATH] starts
    with the project root and its [src] directory, followed by the
    inherited value if there is one. Because the step passes a copy of
    the whole inherited environment, the inherited [PATH],
    [VIRTUAL_ENV] and [PYTHONHOME] reach the process as they are when
    they are set: the activation of the virtual environment shows only
    in the variables that the inherited environment lacks. *)
Theorem execute_tests_environment (saved : option Details) (s : State)
    (a : ascii) (p exec_path : string) :
  saved_path saved = PStr (String a p) ->
  is_file (machine s) (String a p) = true ->
  _find_executable Float World win32 is_file_x is_dir which resolve
    expanduser cfg "pytest" (Some venv_path) (machine s) = Some exec_path ->
  let w := machine s in
  let env :=
    proc_env World win32 os_environ resolve (Some venv_path)
      (Some (tests_env w)) w in
  machine (execute_tests saved s).2
  = (subprocess_run [exec_path; String a p; "-v"] target_dir env
       (effective_timeout Float float_le0 cfg None) w).2
  /\ issued (execute_tests saved s).2
     = issued s ++ [pytest_cmd (String a p)]
  /\ env !! "PYTHONPATH"
     = Some (join (pathsep win32)
               ([resolve target_dir;
                 resolve (path_join win32 target_dir "src")]
                ++ match os_environ w !! "PYTHONPATH" with
                   | Some (String b v) => [String b v]
                   | _ => []
                   end))
  /\ env !! "PATH"
     = Some (default (bin_dir_of win32 (resolve venv_path)
                      +:+ pathsep win32 +:+ "")
               (os_environ w !! "PATH"))
  /\ env !! "VIRTUAL_ENV"
     = Some (default (resolve venv_path) (os_environ w !! "VIRTUAL_ENV"))
  /\ env !! "PYTHONHOME" = os_environ w !! "PYTHONHOME".
Proof.
  intros Hp Hf Hfind w env. subst w.
  assert (Hother : forall k, k <> "PYTHONPATH" ->
            tests_env (machine s) !! k = os_environ (machine s) !! k).
  { intros k Hk. unfold ToolSteps.tests_env. by rewrite lookup_insert_ne. }
  assert (Henv : forall k,
            env !! k
            = match tests_env (machine s) !! k with
              | Some v => Some v
              | None =>
                  delete "PYTHONPATH"
                    (delete "PYTHONHOME"
                       (<[ "PATH" := bin_dir_of win32 (resolve venv_path)
                                     +:+ pathsep win32
                                     +:+ default "" (os_environ (machine s) !! "PATH") ]>
                          (<[ "VIRTUAL_ENV" := resolve venv_path ]>
                             (os_environ (machine s)))))
                  !! k
              end).
  { intros k. subst env. unfold proc_env.
    destruct (tests_env (machine s) !! k) as [v|] eqn:Hk.
    - by apply lookup_union_Some_l.
    - by rewrite lookup_union_r. }
  split; [|split; [|split; [|split; [|split]]]].
  - unfold ToolSteps.execute_tests. rewrite Hp. cbn [Steps.py_truthy nonempty negb].
    rewrite Hf. cbn [negb].
    unfold ToolSteps.tool, pytest_cmd, ProcessRunner.run_tool.
    rewrite Hfind. unfold spawn. fold env.
    destruct (subprocess_run _ _ env _ (machine s)) as [[rc out err | c o e | m] w'];
      cbn [fst snd]; by repeat case_match.
  - unfold ToolSteps.execute_tests. rewrite Hp. cbn [Steps.py_truthy nonempty negb].
    rewrite Hf. cbn [negb].
    destruct (tool _ _ _ s) as [[res | e] s'] eqn:Ht;
      assert (Hi : issued s' = issued s ++ [pytest_cmd (String a p)])
        by (unfold ToolSteps.tool in Ht; by injection Ht as _ <-);
      [by repeat case_match | done].
  - rewrite Henv. unfold ToolSteps.tests_env. rewrite lookup_insert_eq.
    by destruct (os_environ (machine s) !! "PYTHONPATH") as [[|b v]|].
  - rewrite Henv, Hother by done.
    destruct (os_environ (machine s) !! "PATH") as [v|] eqn:Hv; [done|].
    by rewrite !lookup_delete_ne, lookup_insert_eq.
  - rewrite Henv, Hother by done.
    destruct (os_environ (machine s) !! "VIRTUAL_ENV") as [v|] eqn:Hv; [done|].
    by rewrite !lookup_delete_ne, lookup_insert_ne, lookup_insert_eq.
  - rewrite Henv, Hother by done.
    destruct (os_environ (machine s) !! "PYTHONHOME") as [v|] eqn:Hv; [done|].
    by rewrite lookup_delete_ne, lookup_delete_eq.
Qed.

Lemma tool_issued (cmd : list string) (venv : option string)
    (env_vars : option (gmap string string)) (s : State) :
  issued (tool cmd venv env_vars s).2 = issued s ++ [cmd]
  /\ commit_sha (tool cmd venv env_vars s).2 = commit_sha s.
Proof. done. Qed.

(** X23. With [git] found, [commit_changes] hands its
    commands to the runner in one order: status, add, commit,
    rev-parse, and stops somewhere on the way. The commit command is
    reached only after [git status] has printed something for the
    target file and [git add] has exited with code 0, and its message
    is the configured template applied to the name of the target file.
    A commit identifier is recorded only by a call that returns
    SUCCESS; a call that raises leaves the recorded one as it was.
    When [git status] prints nothing but white space, whatever its exit
    code, the step stops there: it returns SUCCESS with the message
    that there is nothing to commit and records [NO_CHANGES]. *)
Theorem commit_changes_protocol (s : State) (a : ascii) (git : string) :
  git_exe = Some (String a git) ->
  exists k m,
    1 <= k <= 4
    /\ issued (commit_changes s).2
       = issued s
         ++ firstn k [git_status_cmd (String a git); git_add_cmd (String a git);
                    git_commit_cmd (String a git) m;
                    git_rev_parse_cmd (String a git)]
    /\ (3 <= k ->
        exists status_res s1 add_res s2 p,
          tool (git_status_cmd (String a git)) None None s
          = (Ok status_res, s1)
          /\ strip (stdout status_res) <> ""
          /\ tool (git_add_cmd (String a git)) None None s1 = (Ok add_res, s2)
          /\ returncode add_res = 0%Z
          /\ target_file_path = Some p
          /\ commit_message (path_name p) = ModelClient.Prompt m)
    /\ (commit_sha (commit_changes s).2 = commit_sha s
        \/ (recorded_status (commit_changes s).1 = STATUS_SUCCESS
            /\ is_Some (commit_sha (commit_changes s).2)))
    /\ (forall status_res s1,
          tool (git_status_cmd (String a git)) None None s
          = (Ok status_res, s1) ->
          strip (stdout status_res) = "" ->
          k = 1
          /\ commit_changes s
             = (Returned STATUS_SUCCESS
                  {[ "message" := PStr "No changes to commit." ]},
                set_commit_sha World "NO_CHANGES" s1)).
Proof.
  intros Hgit.
  assert (Hclean : forall status_res s1,
            tool (git_status_cmd (String a git)) None None s
            = (Ok status_res, s1) ->
            strip (stdout status_res) = "" ->
            commit_changes s
            = (Returned STATUS_SUCCESS
                 {[ "message" := PStr "No changes to commit." ]},
               set_commit_sha World "NO_CHANGES" s1)).
  { intros status_res s1 Hst Hblank. unfold ToolSteps.commit_changes.
    by rewrite Hgit, Hst, Hblank. }
  cut (exists k m,
    1 <= k <= 4
    /\ issued (commit_changes s).2
       = issued s
         ++ firstn k [git_status_cmd (String a git); git_add_cmd (String a git);
                    git_commit_cmd (String a git) m;
                    git_rev_parse_cmd (String a git)]
    /\ (3 <= k ->
        exists status_res s1 add_res s2 p,
          tool (git_status_cmd (String a git)) None None s
          = (Ok status_res, s1)
          /\ strip (stdout status_res) <> ""
          /\ tool (git_add_cmd (String a git)) None None s1 = (Ok add_res, s2)
          /\ returncode add_res = 0%Z
          /\ target_file_path = Some p
          /\ commit_message (path_name p) = ModelClient.Prompt m)
    /\ (commit_sha (commit_changes s).2 = commit_sha s
        \/ (recorded_status (commit_changes s).1 = STATUS_SUCCESS
            /\ is_Some (commit_sha (commit_changes s).2)))
    /\ (forall status_res s1,
          tool (git_status_cmd (String a git)) None None s
          = (Ok status_res, s1) ->
          strip (stdout status_res) = "" -> k = 1)).
  { intros (k & m & H1 & H2 & H3 & H4 & H5). exists k, m.
    split; [done|]. split; [done|]. split; [done|]. split; [done|].
    intros status_res s1 Hst Hblank.
    split; [exact (H5 status_res s1 Hst Hblank)|].
    exact (Hclean status_res s1 Hst Hblank). }
  clear Hclean. unfold ToolSteps.commit_changes. rewrite Hgit.
  set (g := String a git).
  destruct (tool (git_status_cmd g) None None s)
    as [[status_res | e] s1] eqn:H1;
    pose proof (tool_issued (git_status_cmd g) None None s) as [Hi1 Hc1];
    rewrite H1 in Hi1, Hc1; cbn [snd] in Hi1, Hc1.
  2: { exists 1, "". split; [lia|]. split; [done|]. split; [lia|].
       split; [by left | done]. }
  destruct (negb (nonempty (strip (stdout status_res)))) eqn:Hblank.
  { exists 1, "". split; [lia|]. split; [done|]. split; [lia|].
    split; [|done]. right. split; [done|]. by eexists. }
  assert (Hne : strip (stdout status_res) <> "").
  { intros Heq. by rewrite Heq in Hblank. }
  assert (Hdirty : forall (k : nat) sr0 (s0 : State),
            (Ok status_res, s1) = (Ok sr0, s0) ->
            strip (stdout sr0) = "" -> k = 1).
  { intros k sr0 s0 [= <- <-] Hb0. by destruct Hne. }
  destruct (tool (git_add_cmd g) None None s1)
    as [[add_res | e] s2] eqn:H2;
    pose proof (tool_issued (git_add_cmd g) None None s1) as [Hi2 Hc2];
    rewrite H2 in Hi2, Hc2; cbn [snd] in Hi2, Hc2;
    rewrite Hi1 in Hi2; rewrite Hc1 in Hc2; rewrite <- app_assoc in Hi2.
  2: { exists 2, "". split; [lia|]. split; [done|]. split; [lia|].
       split; [by left | apply Hdirty]. }
  destruct (negb (returncode add_res =? 0)%Z) eqn:Hadd.
  { exists 2, "". split; [lia|]. split; [done|]. split; [lia|].
    split; [by left | apply Hdirty]. }
  apply negb_false_iff, Z.eqb_eq in Hadd.
  destruct target_file_path as [p|] eqn:Hp.
  2: { exists 2, "". split; [lia|]. split; [done|]. split; [lia|].
       split; [by left | apply Hdirty]. }
  destruct (commit_message (path_name p)) as [m | key | ty msg] eqn:Hm.
  2, 3: exists 2, ""; (split; [lia|]); (split; [done|]); (split; [lia|]);
          (split; [by left | apply Hdirty]).
  assert (Hpre : exists sr0 s0 ar0 s0' p0,
            (Ok status_res, s1) = (Ok sr0, s0)
            /\ strip (stdout sr0) <> ""
            /\ tool (ToolSteps.git_add_cmd (Some p) g) None None s0
               = (Ok ar0, s0')
            /\ returncode ar0 = 0%Z
            /\ Some p = Some p0
            /\ commit_message (path_name p0) = ModelClient.Prompt m).
  { by exists status_res, s1, add_res, s2, p. }
  destruct (tool (git_commit_cmd g m) None None s2)
    as [[commit_res | e] s3] eqn:H3;
    pose proof (tool_issued (git_commit_cmd g m) None None s2) as [Hi3 Hc3];
    rewrite H3 in Hi3, Hc3; cbn [snd] in Hi3, Hc3;
    rewrite Hi2 in Hi3; rewrite Hc2 in Hc3; rewrite <- app_assoc in Hi3.
  2: { exists 3, m. split; [lia|]. split; [done|]. split; [done|].
       split; [by left | apply Hdirty]. }
  unfold ToolSteps.after_commit.
  destruct (negb (returncode commit_res =? 0)%Z).
  { destruct (contains "nothing to commit" (lower_str (stdout commit_res))
              || contains "nothing to commit" (lower_str (stderr commit_res))).
    - exists 3, m. split; [lia|]. split; [done|]. split; [done|].
      split; [|apply Hdirty]. right. split; [done|]. by eexists.
    - exists 3, m. split; [lia|]. split; [done|]. split; [done|].
      split; [by left | apply Hdirty]. }
  destruct (tool (git_rev_parse_cmd g) None None s3)
    as [[sha_res | e] s4] eqn:H4;
    pose proof (tool_issued (git_rev_parse_cmd g) None None s3) as [Hi4 Hc4];
    rewrite H4 in Hi4, Hc4; cbn [snd] in Hi4, Hc4;
    rewrite Hi3 in Hi4; rewrite Hc3 in Hc4; rewrite <- app_assoc in Hi4.
  - exists 4, m. split; [lia|]. split; [done|]. split; [done|].
    split; [|apply Hdirty]. right. split; [done|]. by eexists.
  - exists 4, m. split; [lia|]. split; [done|]. split; [done|].
    split; [by left | apply Hdirty].
Qed.

End Tools.

Lemma tool_timeout_fails_the_step_witness :
  (forall cmd cwd env t,
     exists c o e,
       (Cases.always_hangs cmd cwd env t (machine Cases.fresh)).1
       = TimeoutExpired c o e)
  /\ recorded_status Cases.hanging_format.1 = STATUS_FAILURE
  /\ recorded_status Cases.hanging_lint.1 = STATUS_FAILURE
  /\ recorded_status Cases.hanging_type_check.1 = STATUS_FAILURE
  /\ recorded_status Cases.hanging_precommit.1 = STATUS_FAILURE.
Proof.
  assert (H : forall cmd cwd env t,
            exists c o e,
              (Cases.always_hangs cmd cwd env t (machine Cases.fresh)).1
              = TimeoutExpired c o e)
    by (intros; by exists None, None, None).
  split; [exact H|].
  pose proof (tool_timeout_fails_the_step Z
                (fun t => (t <=? 0)%Z) pretty unit false Cases.nowhere
                Cases.nowhere Cases.on_path Cases.plain_environ Scenarios.m_id
                Scenarios.m_id Scenarios.m_id Cases.always_hangs
                Scenarios.m_cfg (Cases.only "/proj/.pre-commit-config.yaml")
                ∅ "/proj" Cases.target "/proj/.venv" Cases.fresh H)
    as (H1 & H2 & H3 & _ & H5).
  split; [exact H1|]. split; [exact H2|]. split; [exact H3|]. exact H5.
Defined.

Lemma execute_tests_environment_witness :
  saved_path (Some Cases.saved_details) = PStr Cases.test_file
  /\ Cases.only Cases.test_file (machine Cases.fresh) Cases.test_file = true
  /\ _find_executable Z unit false Cases.nowhere Cases.nowhere Cases.on_path
       Scenarios.m_id Scenarios.m_id Scenarios.m_cfg "pytest"
       (Some "/proj/.venv") (machine Cases.fresh) = Some "/usr/bin/pytest"
  /\ issued Cases.passing_tests.2 = [pytest_cmd Cases.test_file]
  /\ Cases.passing_tests_env !! "PYTHONPATH" = Some "/proj:/proj/src"
  /\ Cases.passing_tests_env !! "PATH" = Some "/usr/bin"
  /\ Cases.passing_tests_env !! "VIRTUAL_ENV" = Some "/proj/.venv".
Proof.
  split; [reflexivity|]. split; [reflexivity|]. split; [reflexivity|].
  pose proof (execute_tests_environment Z
                (fun t => (t <=? 0)%Z) pretty unit false Cases.nowhere
                Cases.nowhere Cases.on_path Cases.plain_environ Scenarios.m_id
                Scenarios.m_id Scenarios.m_id (Cases.always_exits 0 "1 passed")
                Scenarios.m_cfg (Cases.only Cases.test_file) ∅ "/proj"
                "/proj/.venv" (Some Cases.saved_details) Cases.fresh
                "/"%char "proj/tests/scribe_generated/test_main_scribe.py"
                "/usr/bin/pytest" eq_refl eq_refl eq_refl)
    as (_ & H2 & H3 & H4 & H5 & _).
  split; [exact H2|]. split; [exact H3|]. split; [exact H4|]. exact H5.
Defined.

Lemma commit_changes_protocol_witness :
  Some "/usr/bin/git" = Some (String "/" "usr/bin/git")
  /\ Cases.clean_commit.1
     = Returned STATUS_SUCCESS {[ "message" := PStr "No changes to commit." ]}
  /\ commit_sha Cases.clean_commit.2 = Some "NO_CHANGES"
  /\ issued Cases.clean_commit.2
     = [git_status_cmd Cases.target "/usr/bin/git"].
Proof.
  split; [reflexivity|].
  destruct (commit_changes_protocol Z
              (fun t => (t <=? 0)%Z) pretty unit false Cases.nowhere
              Cases.nowhere Cases.on_path Cases.plain_environ Scenarios.m_id
              Scenarios.m_id Scenarios.m_id (Cases.always_exits 0 "")
              Scenarios.m_cfg "/proj" Cases.target (Some "/usr/bin/git")
              Scenarios.base_name Cases.commit_message Cases.fresh
              "/"%char "usr/bin/git" eq_refl)
    as (k & m & Hk & Hi & _ & _ & Hclean).
  destruct (Hclean _ _ eq_refl eq_refl) as [-> Heq].
  unfold Cases.clean_commit.
  split; [by rewrite Heq|]. split; [by rewrite Heq | exact Hi].
Defined.

End ToolStepsFacts.

(** ** The files written by the steps *)

Module FileStepsFacts.
Import PyStr ModelClient Steps FileSteps.

Lemma safe_stem_safe (stem : string) : all_chars is_safe (safe_stem stem) = true.
Proof.
  induction stem as [|c r IH]; [done|]. cbn [safe_stem all_chars].
  rewrite IH, andb_true_r. unfold is_safe.
  destruct (is_alnum c) eqn:Hc; [by rewrite Hc | done].
Qed.

Lemma safe_stem_fixed (s : string) :
  all_chars is_safe s = true -> safe_stem s = s.
Proof.
  induction s as [|c r IH]; [done|]. cbn [safe_stem all_chars].
  intros [Hc Hr]%andb_true_iff. rewrite (IH Hr). f_equal.
  unfold is_safe in Hc. destruct (is_alnum c); [done|].
  by apply Ascii.eqb_eq in Hc.
Qed.

Lemma safe_stem_length (stem : string) :
  String.length (safe_stem stem) = String.length stem.
Proof. induction stem as [|c r IH]; [done|]. simpl. by rewrite IH. Qed.

Lemma str_app_assoc (a b c : string) : (a +:+ b) +:+ c = a +:+ (b +:+ c).
Proof.
  induction a as [|x a IH]; [done|].
  change ((String x a +:+ b) +:+ c) with (String x ((a +:+ b) +:+ c)).
  change (String x a +:+ b +:+ c) with (String x (a +:+ b +:+ c)).
  by rewrite IH.
Qed.

Section Workflow.

Variable X : Type.
Variable target_dir : string.
Variable path_stem : string -> string.
Variable write_ok : string -> bool.
Variable source_file_path : option string.

Abbreviation save_tests := (Steps.save_tests X target_dir path_stem write_ok).
Abbreviation test_file_path := (Steps.test_file_path X target_dir path_stem).
Abbreviation apply_code := (FileSteps.apply_code X source_file_path write_ok).

(** X24. The generated test file always lies in the test
    directory of the project: its path is that directory followed by a
    file name made of [test_], the sanitised stem of the target file
    and [_scribe.py]. Sanitising keeps the length of the stem, leaves
    letters and digits, puts an underscore for every other character
    (a path separator and a dot among them), and changes nothing when
    applied twice. *)
Theorem test_file_path_is_safe (w : StepWorld X) (stem : string) :
  test_file_path w
  = (target_dir +:+ "/" +:+ SCRIBE_TEST_DIR +:+ "/")
    +:+ ("test_" +:+ safe_stem (path_stem (default "" (target_file_path w)))
         +:+ "_scribe.py")
  /\ all_chars is_safe (safe_stem stem) = true
  /\ all_chars (fun c => negb (Ascii.eqb c "/") && negb (Ascii.eqb c "\")
                         && negb (Ascii.eqb c "."))
       (safe_stem stem) = true
  /\ String.length (safe_stem stem) = String.length stem
  /\ safe_stem (safe_stem stem) = safe_stem stem.
Proof.
  split; [|split; [|split; [|split]]].
  - unfold Steps.test_file_path. by rewrite str_app_assoc.
  - apply safe_stem_safe.
  - induction stem as [|c r IH]; [done|]. cbn [safe_stem all_chars].
    rewrite IH, andb_true_r.
    destruct (is_alnum c) eqn:Hc; [|done].
    destruct c as [[] [] [] [] [] [] [] []]; try done.
  - apply safe_stem_length.
  - apply safe_stem_fixed, safe_stem_safe.
Qed.



End Workflow.


End FileStepsFacts.
